(** * Abdullah Slack: the messaging and reaction layer of [app.py]

    A shallow embedding of the storage-facing functions of [app.py]
    ([get_channel_messages], [get_direct_messages], [send_message],
    [send_direct_message], [get_all_users], [add_reaction], [remove_reaction],
    [get_message_reactions], [join_channel], [get_user_channels]), of the
    auto-refresh check and of the Send handler of the page script, together
    with the properties of the specification that concern them.

    Python functions that talk to the table store, read the clock, write
    [st.session_state] or call [st.error] are written in a state-and-exception
    monad over an explicit [world]. *)

From Stdlib Require Import ZArith String Ascii List Lia Bool DecimalString Sorted.
From stdpp Require Import base option strings gmap list sorting.
Import ListNotations.

Local Open Scope string_scope.
Local Open Scope Z_scope.

(** ** Text *)

Module Text.

(** A Python [str] is a [string] holding its UTF-8 encoding. *)

Fixpoint rev_string (s acc : string) : string :=
  match s with
  | EmptyString => acc
  | String c s' => rev_string s' (String c acc)
  end.

Definition reverse (s : string) : string := rev_string s EmptyString.

(** [drop_prefix p s] is [Some r] when [s = p ++ r]. *)
Fixpoint drop_prefix (p s : string) : option string :=
  match p, s with
  | EmptyString, _ => Some s
  | String a p', String b s' =>
      if Ascii.eqb a b then drop_prefix p' s' else None
  | String _ _, EmptyString => None
  end.

(** The characters [str.strip()] removes: those for which [str.isspace()]
    holds, each given by its UTF-8 encoding.
    U+0009..U+000D, U+001C..U+0020, U+0085, U+00A0, U+1680, U+2000..U+200A,
    U+2028, U+2029, U+202F, U+205F, U+3000. *)
Definition bytes (l : list nat) : string :=
  string_of_list_ascii (List.map ascii_of_nat l).

Definition whitespace : list string :=
  List.map bytes
    [ [9]; [10]; [11]; [12]; [13]; [28]; [29]; [30]; [31]; [32];
      [194; 133]; [194; 160]; [225; 154; 128];
      [226; 128; 128]; [226; 128; 129]; [226; 128; 130]; [226; 128; 131];
      [226; 128; 132]; [226; 128; 133]; [226; 128; 134]; [226; 128; 135];
      [226; 128; 136]; [226; 128; 137]; [226; 128; 138];
      [226; 128; 168]; [226; 128; 169]; [226; 128; 175];
      [226; 129; 159]; [227; 128; 128] ]%nat.

(** Removes one leading character out of [ws], if there is one. *)
Fixpoint drop_one (ws : list string) (s : string) : option string :=
  match ws with
  | [] => None
  | w :: ws' =>
      match drop_prefix w s with
      | Some r => Some r
      | None => drop_one ws' s
      end
  end.

Fixpoint lstrip_with (ws : list string) (fuel : nat) (s : string) : string :=
  match fuel with
  | O => s
  | S fuel' =>
      match drop_one ws s with
      | Some r => lstrip_with ws fuel' r
      | None => s
      end
  end.

Definition lstrip (s : string) : string :=
  lstrip_with whitespace (String.length s) s.

(** Trailing characters are removed on the reversed text, against the
    reversed encodings. *)
Definition rstrip (s : string) : string :=
  reverse (lstrip_with (List.map reverse whitespace) (String.length s) (reverse s)).

(** [s.strip()] *)
Definition strip (s : string) : string := rstrip (lstrip s).

(** Truth value of a [str]: the empty text is false. *)
Definition truthy (s : string) : bool :=
  match s with EmptyString => false | _ => true end.

(** [s.lower()] for a text of ASCII characters: the letters A..Z are
    lowered. The program lowers the texts of the exceptions of the table
    store, which are ASCII, and the channel name a user types, which goes
    through [Creation.str_lower]. *)
Definition lower_ascii (c : ascii) : ascii :=
  let n := nat_of_ascii c in
  if ((65 <=? n) && (n <=? 90))%nat then ascii_of_nat (n + 32) else c.

Fixpoint lower (s : string) : string :=
  match s with
  | EmptyString => EmptyString
  | String c s' => String (lower_ascii c) (lower s')
  end.

(** [needle in hay] *)
Fixpoint contains (needle hay : string) : bool :=
  match drop_prefix needle hay with
  | Some _ => true
  | None =>
      match hay with
      | EmptyString => false
      | String _ hay' => contains needle hay'
      end
  end.

(** [str(n)] for an [int]. *)
Definition str_of_int (n : Z) : string :=
  NilZero.string_of_int (Z.to_int n).

End Text.

Import Text.

(** ** Data model *)

(** A message [id] is either assigned by the table store or made up by the
    program as a text (the demo conversations). *)
Inductive ident : Type :=
| RowId (n : nat)
| TextId (s : string).

#[global] Instance ident_eq_dec : EqDecision ident.
Proof. solve_decision. Defined.

(** A profile dict. The placeholder dicts of the program carry only
    [display_name] and [username]; rows of [user_profiles] carry every key. *)
Record profile : Type := Profile {
  p_id : option string;
  p_username : string;
  p_display_name : string;
  p_avatar_url : option string;
  p_status : option string
}.

#[global] Instance profile_eq_dec : EqDecision profile.
Proof. solve_decision. Defined.

(** A message dict. [m_created_at] is the instant the text of [created_at]
    denotes, in microseconds since the epoch; [m_user_profiles] is the key
    [user_profiles] the read functions add (absent on a stored row). *)
Record message : Type := Message {
  m_id : ident;
  m_user_id : string;
  m_channel_id : option Z;
  m_recipient_id : option string;
  m_content : string;
  m_message_type : string;
  m_created_at : Z;
  m_user_profiles : option profile
}.

#[global] Instance message_eq_dec : EqDecision message.
Proof. solve_decision. Defined.

Record reaction : Type := Reaction {
  r_message_id : ident;
  r_user_id : string;
  r_emoji : string;
  r_user_profiles : option profile
}.

#[global] Instance reaction_eq_dec : EqDecision reaction.
Proof. solve_decision. Defined.

Record member : Type := Member {
  cm_user_id : string;
  cm_channel_id : Z
}.

#[global] Instance member_eq_dec : EqDecision member.
Proof. solve_decision. Defined.

Record channel : Type := Channel {
  c_id : Z;
  c_name : string;
  c_description : string;
  c_is_private : bool
}.

#[global] Instance channel_eq_dec : EqDecision channel.
Proof. solve_decision. Defined.

Definition with_profile (p : profile) (m : message) : message :=
  Message (m_id m) (m_user_id m) (m_channel_id m) (m_recipient_id m)
          (m_content m) (m_message_type m) (m_created_at m) (Some p).

Definition reaction_with_profile (p : profile) (r : reaction) : reaction :=
  Reaction (r_message_id r) (r_user_id r) (r_emoji r) (Some p).

(** [{"display_name": "Unknown User", "username": "unknown"}] *)
Definition unknown_user : profile :=
  Profile None "unknown" "Unknown User" None None.

(** ** The table store *)

(** Result of a computation that may raise: the value, or the text of the
    exception. *)
Inductive outcome (A : Type) : Type :=
| Ok (a : A)
| Raised (e : string).
Arguments Ok {A} a.
Arguments Raised {A} e.

Module Store.

(** The tables, each in insertion order, the counter from which the store
    assigns ids, and the readings of the store's clock at the coming inserts
    (they need not increase). *)
Record db : Type := Db {
  messages : list message;
  user_profiles : list profile;
  message_reactions : list reaction;
  channel_members : list member;
  channels : list channel;
  next_id : nat;
  db_clock : list Z
}.

(** Modelled from the spec: the text of the "duplicate key" condition with
    which the table store rejects a row that breaks a uniqueness constraint
    (section 6); the store's schema is not part of the sources. *)
Definition duplicate_key : string :=
  "duplicate key value violates unique constraint".

(** Modelled from the spec: how the table store orders rows of equal
    [created_at], which the sources leave to the store: in insertion order
    (section 4.2).
    [.order("created_at", desc=False)]: ascending. *)
Fixpoint insert_by_created_at (x : message) (l : list message) : list message :=
  match l with
  | [] => [x]
  | y :: l' =>
      if m_created_at x <=? m_created_at y then x :: y :: l'
      else y :: insert_by_created_at x l'
  end.

Fixpoint order_by_created_at (l : list message) : list message :=
  match l with
  | [] => []
  | x :: l' => insert_by_created_at x (order_by_created_at l')
  end.

(** [table("messages").select("*").eq("channel_id", channel_id)
      .order("created_at", desc=False).limit(limit)] *)
Definition select_channel_messages (channel_id : Z) (limit : nat) (d : db)
  : outcome (list message) * db :=
  (Ok (take limit (order_by_created_at
         (filter (λ m, m_channel_id m = Some channel_id) (messages d)))), d).

(** [table("messages").select("*").is_("channel_id", "null")
      .or_("and(user_id.eq.U,recipient_id.eq.O),and(user_id.eq.O,recipient_id.eq.U)")
      .order("created_at", desc=False).limit(limit)]; the ids are UUID texts,
    so that the interpolated filter denotes this predicate. *)
Definition is_direct_between (u o : string) (m : message) : Prop :=
  m_channel_id m = None ∧
  ((m_user_id m = u ∧ m_recipient_id m = Some o) ∨
   (m_user_id m = o ∧ m_recipient_id m = Some u)).

#[global] Instance is_direct_between_dec u o m : Decision (is_direct_between u o m).
Proof. unfold is_direct_between. apply _. Defined.

Definition select_direct_messages (u o : string) (limit : nat) (d : db)
  : outcome (list message) * db :=
  (Ok (take limit (order_by_created_at
         (filter (is_direct_between u o) (messages d)))), d).

(** [table("user_profiles").select("*").eq("id", user_id)] *)
Definition select_profile (user_id : string) (d : db)
  : outcome (list profile) * db :=
  (Ok (filter (λ p, p_id p = Some user_id) (user_profiles d)), d).

(** [table("user_profiles").select("*")], with [.neq("id", x)] when the
    caller asked for it. *)
Definition id_other_than (x : string) (p : profile) : Prop :=
  match p_id p with
  | Some i => i ≠ x
  | None => False
  end.

#[global] Instance id_other_than_dec x p : Decision (id_other_than x p).
Proof. unfold id_other_than. destruct (p_id p); apply _. Defined.

Definition select_profiles (exclude : option string) (d : db)
  : outcome (list profile) * db :=
  (Ok match exclude with
      | Some x => filter (id_other_than x) (user_profiles d)
      | None => user_profiles d
      end, d).

(** [table("messages").insert({...})]: the store assigns [id] and
    [created_at] and answers with the stored row. *)
Definition new_message (user_id : string) (channel_id : option Z)
    (recipient_id : option string) (content message_type : string) (d : db)
  : message :=
  Message (RowId (next_id d)) user_id channel_id recipient_id
          content message_type (hd 0 (db_clock d)) None.

Definition add_message (row : message) (d : db) : db :=
  Db (messages d ++ [row]) (user_profiles d) (message_reactions d)
     (channel_members d) (channels d) (S (next_id d)) (tl (db_clock d)).

Definition insert_message (user_id : string) (channel_id : option Z)
    (recipient_id : option string) (content message_type : string) (d : db)
  : outcome (list message) * db :=
  let row := new_message user_id channel_id recipient_id content message_type d in
  (Ok [row], add_message row d).

Definition same_reaction (message_id : ident) (user_id emoji : string)
    (r : reaction) : Prop :=
  r_message_id r = message_id ∧ r_user_id r = user_id ∧ r_emoji r = emoji.

#[global] Instance same_reaction_dec i u e r : Decision (same_reaction i u e r).
Proof. unfold same_reaction. apply _. Defined.

Definition set_reactions (l : list reaction) (d : db) : db :=
  Db (messages d) (user_profiles d) l (channel_members d) (channels d)
     (next_id d) (db_clock d).

Definition set_members (l : list member) (d : db) : db :=
  Db (messages d) (user_profiles d) (message_reactions d) l (channels d)
     (next_id d) (db_clock d).

(** Modelled from the spec: the uniqueness constraint of the table
    [message_reactions], declared in the schema, which is not part of the
    sources: a second row [(message_id, user_id, emoji)] is rejected with the
    duplicate-key condition.
    [table("message_reactions").insert({...})] *)
Definition insert_reaction (message_id : ident) (user_id emoji : string) (d : db)
  : outcome (list reaction) * db :=
  if decide (Exists (same_reaction message_id user_id emoji) (message_reactions d))
  then (Raised duplicate_key, d)
  else
    let row := Reaction message_id user_id emoji None in
    (Ok [row], set_reactions (message_reactions d ++ [row]) d).

(** [table("message_reactions").delete().eq("message_id", m).eq("user_id", u)
      .eq("emoji", e)]: answers with the deleted rows. *)
Definition delete_reaction (message_id : ident) (user_id emoji : string) (d : db)
  : outcome (list reaction) * db :=
  (Ok (filter (same_reaction message_id user_id emoji) (message_reactions d)),
   set_reactions
     (filter (λ r, ¬ same_reaction message_id user_id emoji r) (message_reactions d))
     d).

(** [table("message_reactions").select("*").eq("message_id", m)] *)
Definition select_reactions (message_id : ident) (d : db)
  : outcome (list reaction) * db :=
  (Ok (filter (λ r, r_message_id r = message_id) (message_reactions d)), d).

(** Modelled from the spec: the uniqueness constraint of the table
    [channel_members], declared in the schema, which is not part of the
    sources: a second row [(user_id, channel_id)] is rejected with the
    duplicate-key condition.
    [table("channel_members").insert({...})] *)
Definition insert_member (user_id : string) (channel_id : Z) (d : db)
  : outcome (list member) * db :=
  let row := Member user_id channel_id in
  if decide (row ∈ channel_members d)
  then (Raised duplicate_key, d)
  else (Ok [row], set_members (channel_members d ++ [row]) d).

(** [table("channels").select("*, channel_members!inner(*)")
      .eq("channel_members.user_id", user_id)]: the channels that have a
    membership row of the user. *)
Definition select_user_channels (user_id : string) (d : db)
  : outcome (list channel) * db :=
  (Ok (filter (λ c, Member user_id (c_id c) ∈ channel_members d) (channels d)), d).

End Store.

(** ** The world of the page script *)

(** [st.session_state] *)
Record session_state : Type := Session {
  current_channel : option channel;
  current_dm_user : option profile;
  view_mode : string;
  message_count : Z;
  last_refresh : Z;
  demo_messages : gmap string (list message)
}.

(** What a run of the program reads and writes:
    - [store]: the tables behind the client [auth_supabase];
    - [session]: [st.session_state];
    - [faults]: what becomes of the coming requests to the store, [Some e]
      when the request raises an exception of text [e] (none listed: the
      request is served);
    - [requests]: how many requests were sent to the store so far;
    - [clock]: the coming readings of the program's clock, in microseconds
      since the epoch ([time.time()] and [datetime.utcnow()]);
    - [ui_errors]: the texts shown through [st.error], latest first. *)
Record world : Type := World {
  store : Store.db;
  session : session_state;
  faults : list (option string);
  requests : nat;
  clock : list Z;
  ui_errors : list string
}.

Definition set_store (d : Store.db) (w : world) : world :=
  World d (session w) (faults w) (requests w) (clock w) (ui_errors w).

Definition set_session (s : session_state) (w : world) : world :=
  World (store w) s (faults w) (requests w) (clock w) (ui_errors w).

Definition set_demo_messages (dm : gmap string (list message))
    (s : session_state) : session_state :=
  Session (current_channel s) (current_dm_user s) (view_mode s)
          (message_count s) (last_refresh s) dm.


Definition set_message_count (n : Z) (s : session_state) : session_state :=
  Session (current_channel s) (current_dm_user s) (view_mode s)
          n (last_refresh s) (demo_messages s).

(** A computation of the program: from a world to a value or an exception,
    and the world it leaves. *)
Definition M (A : Type) : Type := world → outcome A * world.

#[global] Instance M_ret : MRet M := λ A a w, (Ok a, w).

#[global] Instance M_bind : MBind M := λ A B f m w,
  match m w with
  | (Ok a, w') => f a w'
  | (Raised e, w') => (Raised e, w')
  end.

(** [try: body / except Exception as e: handler] *)
Definition try_except {A} (body : M A) (handler : string → M A) : M A := λ w,
  match body w with
  | (Ok a, w') => (Ok a, w')
  | (Raised e, w') => handler e w'
  end.

(** [.execute()]: one request to the store. *)
Definition execute {A} (q : Store.db → outcome A * Store.db) : M A := λ w,
  let w' := World (store w) (session w) (tl (faults w)) (S (requests w))
                  (clock w) (ui_errors w) in
  match hd None (faults w) with
  | Some e => (Raised e, w')
  | None => let '(r, d) := q (store w) in (r, set_store d w')
  end.

(** [st.error(text)] *)
Definition st_error (text : string) : M unit := λ w,
  (Ok (), World (store w) (session w) (faults w) (requests w) (clock w)
                (text :: ui_errors w)).

(** One reading of the clock. *)
Definition read_clock : M Z := λ w,
  (Ok (hd 0 (clock w)),
   World (store w) (session w) (faults w) (requests w) (tl (clock w))
         (ui_errors w)).

Definition get_session : M session_state := λ w, (Ok (session w), w).

Definition put_session (s : session_state) : M unit := λ w,
  (Ok (), set_session s w).

(** [for x in xs: ...], collecting what each round makes of [x]. *)
Fixpoint for_each {A B} (f : A → M B) (xs : list A) : M (list B) :=
  match xs with
  | [] => mret []
  | x :: xs' => y ← f x; ys ← for_each f xs'; mret (y :: ys)
  end.

(** ** The functions of [app.py] *)

Definition one_second : Z := 1000000.

(** [demo_user_ids] *)
Definition demo_user_ids : list string :=
  [ "a1b2c3d4-e5f6-7890-abcd-ef1234567890";
    "b2c3d4e5-f6g7-8901-bcde-fg2345678901" ].

Definition is_demo_user (user_id : string) : bool :=
  bool_decide (user_id ∈ demo_user_ids).

(** The profile lookup shared by the read functions: the first row of
    [user_profiles] with that id, the placeholder when there is none or
    when the lookup raises. *)
Definition lookup_profile (user_id : string) : M profile :=
  try_except
    (user_result ← execute (Store.select_profile user_id);
     match user_result with
     | p :: _ => mret p
     | [] => mret unknown_user
     end)
    (λ _, mret unknown_user).

Definition get_user_channels (user_id : string) : M (list channel) :=
  try_except
    (execute (Store.select_user_channels user_id))
    (λ e, st_error ("Error fetching channels: " ++ e);; mret []).

Definition get_channel_messages (channel_id : Z) (limit : nat) : M (list message) :=
  try_except
    (messages ← execute (Store.select_channel_messages channel_id limit);
     for_each (λ message,
                 p ← lookup_profile (m_user_id message);
                 mret (with_profile p message))
              messages)
    (λ e, st_error ("Error fetching messages: " ++ e);; mret []).

(** The two scripted greetings a demo conversation starts with. *)
Definition demo_greetings (user_id other_user_id : string) : list message :=
  [ Message (TextId "demo-init-1") other_user_id None (Some user_id)
            "Hey! Welcome to the Slack clone! 👋" "text"
            (1705312800 * one_second) (* 2024-01-15T10:00:00Z *) None;
    Message (TextId "demo-init-2") other_user_id None (Some user_id)
            "This is a demo conversation to show how messaging works. Try sending me a message!"
            "text"
            (1705312860 * one_second) (* 2024-01-15T10:01:00Z *) None ].

(** [demo_user_names.get(user_id, {"display_name": "Demo User", "username": "demo"})] *)
Definition demo_user_names (user_id : string) : profile :=
  if decide (user_id = "a1b2c3d4-e5f6-7890-abcd-ef1234567890")
  then Profile None "alex" "Alex Johnson" None None
  else if decide (user_id = "b2c3d4e5-f6g7-8901-bcde-fg2345678901")
  then Profile None "sarah" "Sarah Chen" None None
  else Profile None "demo" "Demo User" None None.

Definition demo_profile (user_id : string) (msg : message) : profile :=
  if decide (m_user_id msg = user_id)
  then Profile None "you" "You" None None
  else demo_user_names (m_user_id msg).

(** [f"{user_id}_{other_user_id}"] *)
Definition conversation_key (user_id other_user_id : string) : string :=
  user_id ++ "_" ++ other_user_id.

Definition get_direct_messages (user_id other_user_id : string) (limit : nat)
  : M (list message) :=
  try_except
    (if is_demo_user other_user_id then
       let key := conversation_key user_id other_user_id in
       s ← get_session;
       let stored :=
         match demo_messages s !! key with
         | Some l => l
         | None => demo_greetings user_id other_user_id
         end in
       (* the dicts of the list are updated in place *)
       let decorated :=
         (λ msg, with_profile (demo_profile user_id msg) msg) <$> stored in
       put_session (set_demo_messages (<[key := decorated]> (demo_messages s)) s);;
       mret decorated
     else
       messages ← execute (Store.select_direct_messages user_id other_user_id limit);
       for_each (λ message,
                   p ← lookup_profile (m_user_id message);
                   mret (with_profile p message))
                messages)
    (λ e, st_error ("Error fetching direct messages: " ++ e);; mret []).

Definition send_direct_message (user_id recipient_id content : string)
  : M (option message) :=
  try_except
    (if is_demo_user recipient_id then
       (* simulated: the message is made up here and not sent to the store *)
       t ← read_clock;                       (* time.time() *)
       now ← read_clock;                     (* datetime.utcnow() *)
       mret (Some (Message (TextId ("demo-msg-" ++ str_of_int (Z.quot t one_second)))
                           user_id None (Some recipient_id) (strip content)
                           "text" now None))
     else
       result ← execute (Store.insert_message user_id None (Some recipient_id)
                                               (strip content) "text");
       mret (head result))
    (λ e, st_error ("Error sending direct message: " ++ e);; mret None).

(** The two demo users [get_all_users] adds to its answer. *)
Definition demo_users : list profile :=
  [ Profile (Some "a1b2c3d4-e5f6-7890-abcd-ef1234567890") "alex" "Alex Johnson"
      (Some "https://images.unsplash.com/photo-1507003211169-0a1dd7228f2d?w=150&h=150&fit=crop&crop=face")
      (Some "online");
    Profile (Some "b2c3d4e5-f6g7-8901-bcde-fg2345678901") "sarah" "Sarah Chen"
      (Some "https://images.unsplash.com/photo-1494790108755-2616b612b5bc?w=150&h=150&fit=crop&crop=face")
      (Some "online") ].

(** [if exclude_user_id:] holds for a text that is not empty. *)
Definition given (exclude_user_id : option string) : option string :=
  match exclude_user_id with
  | Some x => if truthy x then Some x else None
  | None => None
  end.

Definition get_all_users (exclude_user_id : option string) : M (list profile) :=
  try_except
    (users ← execute (Store.select_profiles (given exclude_user_id));
     let demo :=
       match given exclude_user_id with
       | Some x => filter (λ u, p_id u ≠ Some x) demo_users
       | None => demo_users
       end in
     mret (users ++ demo)%list)
    (λ e, st_error ("Error fetching users: " ++ e);;
          (* the demo users as fallback *)
          mret demo_users).

Definition add_reaction (message_id : ident) (user_id emoji : string)
  : M (option reaction) :=
  try_except
    (result ← execute (Store.insert_reaction message_id user_id emoji);
     mret (head result))
    (λ _, mret None).

Definition remove_reaction (message_id : ident) (user_id emoji : string) : M bool :=
  try_except
    (_ ← execute (Store.delete_reaction message_id user_id emoji);
     mret true)
    (λ _, mret false).

Definition get_message_reactions (message_id : ident) : M (list reaction) :=
  try_except
    (reactions ← execute (Store.select_reactions message_id);
     for_each (λ reaction,
                 p ← lookup_profile (r_user_id reaction);
                 mret (reaction_with_profile p reaction))
              reactions)
    (λ _, mret []).

Definition send_message (user_id : string) (channel_id : Z) (content : string)
  : M (option message) :=
  try_except
    (result ← execute (Store.insert_message user_id (Some channel_id) None
                                             (strip content) "text");
     mret (head result))
    (λ e, st_error ("Error sending message: " ++ e);; mret None).

Definition join_channel (user_id : string) (channel_id : Z) : M bool :=
  try_except
    (_ ← execute (Store.insert_member user_id channel_id);
     mret true)
    (λ e,
       (if contains "duplicate key" (lower e) then mret ()
        else st_error ("Error joining channel: " ++ e));;
       mret false).

(** ** The page script: auto-refresh, message list and Send handler *)

(** How a run of the page script ends: [st.rerun()] stops it and starts a
    new run; otherwise it runs to its end. *)
Inductive run_end : Type := Rerun | Finished.




(** [current_dm_user['id']] *)
Definition dm_user_id (u : profile) : M string := λ w,
  match p_id u with
  | Some i => (Ok i, w)
  | None => (Raised "KeyError: 'id'", w)
  end.

(** The messages of the active conversation, with the default [limit]. *)
Definition load_messages (user_id : string) : M (list message) :=
  s ← get_session;
  match (if decide (view_mode s = "channel") then current_channel s else None) with
  | Some ch => get_channel_messages (c_id ch) 50
  | None =>
      match (if decide (view_mode s = "dm") then current_dm_user s else None) with
      | Some u => i ← dm_user_id u; get_direct_messages user_id i 50
      | None => mret []
      end
  end.

(** [send_button and message_input and message_input.strip()] *)
Definition sendable (send_button : bool) (message_input : string) : bool :=
  send_button && truthy message_input && truthy (strip message_input).

(** [if send_button and message_input and message_input.strip(): ...]; the
    answer tells whether [st.rerun()] was called. *)
Definition send_handler (user_id : string) (send_button : bool)
    (message_input : string) : M bool :=
  if sendable send_button message_input then
    s ← get_session;
    sent_message ←
      match (if decide (view_mode s = "channel") then current_channel s else None) with
      | Some ch => send_message user_id (c_id ch) message_input
      | None =>
          match (if decide (view_mode s = "dm") then current_dm_user s else None) with
          | Some u =>
              i ← dm_user_id u;
              sent_message ← send_direct_message user_id i message_input;
              match sent_message with
              | Some msg =>
                  if is_demo_user i then
                    s' ← get_session;
                    let key := conversation_key user_id i in
                    put_session
                      (set_demo_messages
                         (<[key := (default [] (demo_messages s' !! key) ++ [msg])%list]>
                            (demo_messages s')) s')
                  else mret ()
              | None => mret ()
              end;;
              mret sent_message
          | None => mret None
          end
      end;
    match sent_message with
    | Some _ =>
        s' ← get_session;
        put_session (set_message_count (message_count s' + 1) s');;
        mret true
    | None => mret false
    end
  else mret false.

(** ** What the read functions compute *)

(** What the profile lookup makes of [user_id] on the tables [d], when its
    request meets [fault]. *)
Definition resolve (d : Store.db) (fault : option string) (user_id : string)
  : profile :=
  match fault with
  | Some _ => unknown_user
  | None =>
      match filter (λ p, p_id p = Some user_id) (Store.user_profiles d) with
      | p :: _ => p
      | [] => unknown_user
      end
  end.

(** The rows [xs] with their authors' profiles, the lookups meeting the
    faults [fs] in turn. *)
Fixpoint decorate {A} (author : A → string) (attach : profile → A → A)
    (d : Store.db) (fs : list (option string)) (xs : list A) : list A :=
  match xs with
  | [] => []
  | x :: xs' =>
      attach (resolve d (hd None fs) (author x)) x
        :: decorate author attach d (tl fs) xs'
  end.

(** The world after [n] more requests that left the tables as they were. *)
Definition after_requests (n : nat) (w : world) : world :=
  World (store w) (session w) (drop n (faults w)) (n + requests w)
        (clock w) (ui_errors w).

(** The world after [st.error(text)]. *)
Definition with_error (text : string) (w : world) : world :=
  World (store w) (session w) (faults w) (requests w) (clock w)
        (text :: ui_errors w).

(** The rows the three queries of the read functions select. *)
Definition channel_rows (channel_id : Z) (limit : nat) (d : Store.db)
  : list message :=
  take limit (Store.order_by_created_at
                (filter (λ m, m_channel_id m = Some channel_id) (Store.messages d))).

Definition direct_rows (u o : string) (limit : nat) (d : Store.db)
  : list message :=
  take limit (Store.order_by_created_at
                (filter (Store.is_direct_between u o) (Store.messages d))).

Definition reaction_rows (message_id : ident) (d : Store.db) : list reaction :=
  filter (λ r, r_message_id r = message_id) (Store.message_reactions d).

(** The conversation the demo overlay holds for [(user_id, other_user_id)],
    and what [get_direct_messages] shows of it. *)
Definition demo_stored (user_id other_user_id : string) (s : session_state)
  : list message :=
  match demo_messages s !! conversation_key user_id other_user_id with
  | Some l => l
  | None => demo_greetings user_id other_user_id
  end.

Definition demo_view (user_id other_user_id : string) (s : session_state)
  : list message :=
  (λ msg, with_profile (demo_profile user_id msg) msg)
    <$> demo_stored user_id other_user_id s.

Definition store_demo_view (user_id other_user_id : string) (w : world) : world :=
  set_session
    (set_demo_messages
       (<[conversation_key user_id other_user_id :=
            demo_view user_id other_user_id (session w)]>
          (demo_messages (session w)))
       (session w)) w.

(** The session after the Send handler stored [msg] in the conversation
    with the demo user [demo]. *)
Definition demo_posted (user_id demo : string) (msg : message) (s : session_state)
  : session_state :=
  set_message_count (message_count s + 1)
    (set_demo_messages
       (<[conversation_key user_id demo :=
            (default [] (demo_messages s !! conversation_key user_id demo) ++ [msg])%list]>
          (demo_messages s))
       s).

(** The first request of [w] is served. *)
Definition served (w : world) : Prop := hd None (faults w) = None.

(** Non-decreasing [created_at]. *)
Definition ascending (l : list message) : Prop :=
  StronglySorted Z.le (m_created_at <$> l).

(** The instant of the second greeting of a demo conversation,
    2024-01-15T10:01:00Z. *)
Definition greeted : Z := 1705312860 * one_second.

(** The clock does not run backwards and is past the greetings: its coming
    readings are non-decreasing and none is earlier than [greeted]. *)
Definition clock_steady (w : world) : Prop :=
  StronglySorted Z.le (clock w) ∧ Forall (λ t, greeted ≤ t) (clock w).

(** The conversations of the overlay were written under such a clock: each
    of them is non-decreasing in [created_at], and none of its messages is
    stamped later than a coming reading of the clock. *)
Definition overlay_in_time (w : world) : Prop :=
  ∀ key l,
    demo_messages (session w) !! key = Some l →
    ascending l ∧
    Forall (λ m, Forall (λ t, m_created_at m ≤ t) (clock w)) l.

(** How many rows [(message_id, user_id, emoji)] the reactions hold, and how
    many rows [(user_id, channel_id)] the memberships. *)
Definition reaction_count (message_id : ident) (user_id emoji : string)
    (d : Store.db) : nat :=
  length (filter (Store.same_reaction message_id user_id emoji)
                 (Store.message_reactions d)).

Definition member_count (user_id : string) (channel_id : Z) (d : Store.db) : nat :=
  length (filter (λ x, x = Member user_id channel_id) (Store.channel_members d)).

(** The uniqueness constraints of the two tables. *)
Definition unique_reactions (d : Store.db) : Prop :=
  ∀ message_id user_id emoji, (reaction_count message_id user_id emoji d ≤ 1)%nat.

Definition unique_members (d : Store.db) : Prop :=
  ∀ user_id channel_id, (member_count user_id channel_id d ≤ 1)%nat.






(** ** Worlds used as examples *)

Module Examples.

Definition alex : string := "a1b2c3d4-e5f6-7890-abcd-ef1234567890".

Definition alex_user : profile :=
  Profile (Some alex) "alex" "Alex Johnson" None (Some "online").

Definition general : channel := Channel 1 "general" "General discussion channel" false.

Definition empty_db : Store.db := Store.Db [] [] [] [] [] 0 [].

(** A fresh session looking at the channel [general]. *)
Definition in_general : session_state :=
  Session (Some general) None "channel" 0 0 ∅.

(** A fresh session in the direct conversation with the demo user Alex. *)
Definition with_alex : session_state :=
  Session None (Some alex_user) "dm" 0 0 ∅.

Definition quiet (s : session_state) : world := World empty_db s [] 0 [] [].

(** The store is unreachable at the next request. *)
Definition outage (s : session_state) : world :=
  World empty_db s [Some "connection refused"] 0 [] [].

(** A store with two messages in channel 1 and one direct message, whose
    authors have no row in [user_profiles] except ["ann"]. *)
Definition small_db : Store.db :=
  Store.Db
    [ Message (RowId 0) "ghost" (Some 1) None "boo" "text" 20 None;
      Message (RowId 1) "ann" (Some 1) None "hello" "text" 10 None;
      Message (RowId 2) "ghost" None (Some "ann") "psst" "text" 30 None ]
    [ Profile (Some "ann") "ann" "Ann" None (Some "online") ]
    [ Reaction (RowId 1) "ghost" "👍" None ]
    [ Member "ann" 1 ]
    [ general ]
    3 [].

Definition small (s : session_state) : world := World small_db s [] 0 [] [].

(** Channel 1 with fifty messages, stamped 0 to 49; the store's clock
    reads 50 at the next insert. *)
Definition old_message (n : nat) : message :=
  Message (RowId n) "ann" (Some 1) None "old" "text" (Z.of_nat n) None.

Definition busy_db : Store.db :=
  Store.Db (old_message <$> seq 0 50)
    [ Profile (Some "ann") "ann" "Ann" None (Some "online") ]
    [] [ Member "ann" 1 ] [ general ] 50 [50].

Definition busy : world := World busy_db in_general [] 0 [] [].

(** [n] rounds of the page in which the user reads the conversation and
    sends "hi". *)
Fixpoint chat (user_id : string) (n : nat) (w : world) : world :=
  match n with
  | O => w
  | S n' =>
      chat user_id n'
        (snd (send_handler user_id true "hi" (snd (load_messages user_id w))))
  end.

End Examples.

(** ** Further notions used by the properties of the messaging functions *)

(** A message belongs to a channel or to a pair of users, never to both and
    never to neither. *)
Definition well_scoped (m : message) : Prop :=
  (is_Some (m_channel_id m) ∧ m_recipient_id m = None) ∨
  (m_channel_id m = None ∧ is_Some (m_recipient_id m)).

(** The tables of [Examples.small_db], the store's clock reading 40 at the
    next insert. *)
Definition timely_db : Store.db :=
  Store.Db (Store.messages Examples.small_db) (Store.user_profiles Examples.small_db)
           (Store.message_reactions Examples.small_db)
           (Store.channel_members Examples.small_db)
           (Store.channels Examples.small_db) 3 [40].

Definition timely (s : session_state) : world := World timely_db s [] 0 [] [].

(** ** The reactions under a message (the page script) *)

Module Reactions.

(** [reaction_counts[emoji] += 1], the key added at the end, with 0, when
    it is not there yet; a dict keeps its keys in the order they were
    added. *)
Fixpoint count_up (emoji : string) (counts : list (string * Z))
  : list (string * Z) :=
  match counts with
  | [] => [(emoji, 0 + 1)]
  | (e, n) :: counts' =>
      if decide (e = emoji) then (e, n + 1) :: counts'
      else (e, n) :: count_up emoji counts'
  end.

(** [user_reactions[emoji].append(name)], the key added at the end, with
    the empty list, when it is not there yet. *)
Fixpoint note_user (emoji name : string) (users : list (string * list string))
  : list (string * list string) :=
  match users with
  | [] => [(emoji, ([] ++ [name])%list)]
  | (e, names) :: users' =>
      if decide (e = emoji) then (e, (names ++ [name])%list) :: users'
      else (e, names) :: note_user emoji name users'
  end.

(** [reaction['user_profiles']['display_name'] or
     reaction['user_profiles']['username']] *)
Definition reactor_name (r : reaction) : outcome string :=
  match r_user_profiles r with
  | Some p =>
      Ok (if truthy (p_display_name p) then p_display_name p else p_username p)
  | None => Raised "KeyError: 'user_profiles'"
  end.

(** The loop that groups the reactions by emoji: [reaction_counts] and
    [user_reactions] after it. *)
Fixpoint group_from (counts : list (string * Z))
    (users : list (string * list string)) (reactions : list reaction)
  : outcome (list (string * Z) * list (string * list string)) :=
  match reactions with
  | [] => Ok (counts, users)
  | r :: reactions' =>
      match reactor_name r with
      | Ok name =>
          group_from (count_up (r_emoji r) counts)
                     (note_user (r_emoji r) name users) reactions'
      | Raised e => Raised e
      end
  end.

Definition group (reactions : list reaction)
  : outcome (list (string * Z) * list (string * list string)) :=
  group_from [] [] reactions.

(** [any(r['user_id'] == user_id and r['emoji'] == emoji for r in reactions)] *)
Definition user_has_reacted (user_id emoji : string) (reactions : list reaction)
  : bool :=
  existsb (λ r, bool_decide (r_user_id r = user_id) && bool_decide (r_emoji r = emoji))
          reactions.

(** The button of an emoji under a message, pressed: the reaction of the
    user is removed if the list shows one, added otherwise, and the script
    reruns. *)
Definition reaction_button (user_id : string) (message_id : ident)
    (reactions : list reaction) (emoji : string) : M run_end :=
  (if user_has_reacted user_id emoji reactions
   then _ ← remove_reaction message_id user_id emoji; mret ()
   else _ ← add_reaction message_id user_id emoji; mret ());;
  mret Rerun.



(** [reaction_counts.get(emoji, 0)] and [user_reactions.get(emoji, [])]:
    what the two dicts hold for an emoji. *)
Fixpoint tally (emoji : string) (counts : list (string * Z)) : Z :=
  match counts with
  | [] => 0
  | (e, n) :: counts' => if decide (e = emoji) then n else tally emoji counts'
  end.

Fixpoint names_for (emoji : string) (users : list (string * list string))
  : list string :=
  match users with
  | [] => []
  | (e, names) :: users' =>
      if decide (e = emoji) then names else names_for emoji users'
  end.

(** The reactions of a list that carry the emoji. *)
Definition with_emoji (emoji : string) (reactions : list reaction) : list reaction :=
  filter (λ r, r_emoji r = emoji) reactions.

End Reactions.

(** What identifies a reaction. *)
Definition reaction_key (r : reaction) : ident * string * string :=
  (r_message_id r, r_user_id r, r_emoji r).

(** ** [format_message_time] *)

Module MessageTime.

Definition one_day : Z := 86400 * one_second.

(** What [datetime.fromisoformat] reads from the text of [created_at] (its
    ["Z"] replaced by ["+00:00"]): the wall-clock time the text writes, in
    microseconds since 1970-01-01T00:00 of that wall clock, and the UTC
    offset, for a text that carries one. The rows of the store and the
    greetings of the demo conversations carry the offset 0; the texts made
    by [datetime.utcnow().isoformat()] carry none. *)
Record reading : Type := Reading {
  wall : Z;
  utc_offset : option Z
}.

(** [datetime.now(msg_time.tzinfo) - msg_time], in microseconds: for a text
    with an offset the time since its instant; for a text without one the
    host's local wall-clock time less the wall-clock time of the text.
    [now] is the clock's reading and [local_offset] the UTC offset of the
    host's time zone. *)
Definition elapsed (now local_offset : Z) (r : reading) : Z :=
  match utc_offset r with
  | Some o => now - (wall r - o)
  | None => (now + local_offset) - wall r
  end.

(** [diff.days] and [diff.seconds] of a [timedelta]: the days rounded down,
    and the whole seconds of the rest, from 0 to 86399. *)
Definition days (diff : Z) : Z := diff / one_day.

Definition seconds (diff : Z) : Z := (diff mod one_day) / one_second.

(** The civil date of a day counted from 1970-01-01. *)
Definition civil_from_days (z : Z) : Z * Z * Z :=
  let z := z + 719468 in
  let era := z / 146097 in
  let doe := z - era * 146097 in
  let yoe := (doe - doe / 1460 + doe / 36524 - doe / 146096) / 365 in
  let doy := doe - (365 * yoe + yoe / 4 - yoe / 100) in
  let mp := (5 * doy + 2) / 153 in
  let d := doy - (153 * mp + 2) / 5 + 1 in
  let m := if mp <? 10 then mp + 3 else mp - 9 in
  (yoe + era * 400 + (if m <=? 2 then 1 else 0), m, d).

(** A number in two digits. *)
Definition two_digits (n : Z) : string :=
  if n <? 10 then "0" ++ str_of_int n else str_of_int n.

(** [msg_time.strftime("%m/%d/%Y %I:%M %p")], for the years 1000 to 9999. *)
Definition strftime (r : reading) : string :=
  let '(y, m, d) := civil_from_days (wall r / one_day) in
  let in_day := (wall r mod one_day) / one_second in
  let hour := in_day / 3600 in
  let minute := (in_day mod 3600) / 60 in
  let hour12 := if hour mod 12 =? 0 then 12 else hour mod 12 in
  two_digits m ++ "/" ++ two_digits d ++ "/" ++ str_of_int y ++ " " ++
  two_digits hour12 ++ ":" ++ two_digits minute ++ " " ++
  (if hour <? 12 then "AM" else "PM").

(** The label of a message: [created_at] is the text, [read] what
    [datetime.fromisoformat] makes of it, [None] when it raises. *)
Definition time_label (now local_offset : Z) (created_at : string)
    (read : option reading) : string :=
  match read with
  | None => created_at
  | Some r =>
      let diff := elapsed now local_offset r in
      if days diff >? 0 then strftime r
      else if seconds diff >? 3600 then str_of_int (seconds diff / 3600) ++ "h ago"
      else if seconds diff >? 60 then str_of_int (seconds diff / 60) ++ "m ago"
      else "just now"
  end.


End MessageTime.

(** ** The main area of the page script *)

(** The button pressed in a run of the script, if it is one of the main
    area: Send, the button of an emoji under a message, or one of the quick
    buttons beside a message. A button answers [True] in the run that the
    press of its key started. *)
Inductive press : Type :=
| NoPress
| SendButton
| ReactionButton (message_id : ident) (emoji : string)
| QuickButton (message_id : ident) (emoji : string).

#[global] Instance press_eq_dec : EqDecision press.
Proof. solve_decision. Defined.


(** A value, or the exception raised in computing it. *)
Definition of_outcome {A} (o : outcome A) : M A := λ w, (o, w).







(** Computations that leave [st.session_state] as it was, and computations
    that leave its [last_refresh] as it was. *)
Definition keeps_session {A} (m : M A) : Prop :=
  ∀ w, session (snd (m w)) = session w.





(** ** The sidebar of the page script *)

Module Sidebar.

(** What the user pressed in the run of the script, if anything: the
    button of a channel, of a user of the direct messages, or the Join button
    of a channel of the browser. The keys of the buttons are made of the ids,
    which are distinct. *)
Inductive click : Type :=
| NoClick
| ChannelButton (channel_id : Z)
| DmButton (user_id : string)
| JoinButton (channel_id : Z).

(** A part of the sidebar either reruns the script or lets it go on with
    what it computed. *)
Inductive went (A : Type) : Type :=
| Reran
| On (a : A).
Arguments Reran {A}.
Arguments On {A} a.

Definition set_view (ch : option channel) (u : option profile) (mode : string)
    (s : session_state) : session_state :=
  Session ch u mode (message_count s) (last_refresh s) (demo_messages s).

Definition set_current_channel (ch : option channel) (s : session_state)
  : session_state :=
  Session ch (current_dm_user s) (view_mode s) (message_count s)
          (last_refresh s) (demo_messages s).

(** [any(ch["name"] == "general" for ch in channels)] *)
Definition has_general (channels : list channel) : bool :=
  existsb (λ ch, bool_decide (c_name ch = "general")) channels.

(** The channels of the user, after the auto-join of the channel 1 when
    none of them is called general. *)
Definition listed_channels (user_id : string) : M (list channel) :=
  channels ← get_user_channels user_id;
  if has_general channels then mret channels
  else
    _ ← join_channel user_id 1;     (* assuming general channel ID is 1 *)
    get_user_channels user_id.

(** The channels section: the list, the default selection, and the
    buttons. Answers the channels listed. *)
Definition channels_section (user_id : string) (pressed : click)
  : M (went (list channel)) :=
  channels ← listed_channels user_id;
  s ← get_session;
  match current_channel s, channels with
  | None, ch :: _ => put_session (set_current_channel (Some ch) s)
  | _, _ => mret ()
  end;;
  match pressed with
  | ChannelButton k =>
      match filter (λ ch, c_id ch = k) channels with
      | ch :: _ =>
          s ← get_session;
          put_session (set_view (Some ch) None "channel" s);;
          mret Reran
      | [] => mret (On channels)
      end
  | _ => mret (On channels)
  end.

(** The buttons of the users, in the order of the list: the key of each is
    made of [dm_user['id']]; the button pressed selects its user and reruns
    the script. *)
Fixpoint dm_buttons (pressed : click) (users : list profile) : M (went unit) :=
  match users with
  | [] => mret (On ())
  | dm_user :: users' =>
      i ← dm_user_id dm_user;
      match pressed with
      | DmButton k =>
          if decide (i = k) then
            s ← get_session;
            put_session (set_view None (Some dm_user) "dm" s);;
            mret Reran
          else dm_buttons pressed users'
      | _ => dm_buttons pressed users'
      end
  end.

(** The direct messages: the users, and their buttons. *)
Definition direct_messages_section (user_id : string) (pressed : click)
  : M (went unit) :=
  all_users ← get_all_users (Some user_id);
  dm_buttons pressed all_users.

(** [table("channels").select("*").eq("is_private", False)] *)
Definition select_public_channels (d : Store.db)
  : outcome (list channel) * Store.db :=
  (Ok (filter (λ ch, c_is_private ch = false) (Store.channels d)), d).

(** [[ch for ch in all_channels_result.data if ch["id"] not in user_channel_ids]] *)
Definition available_channels (all_channels channels : list channel)
  : list channel :=
  filter (λ ch, c_id ch ∉ c_id <$> channels) all_channels.

(** The browser of the channels the user can join, [channels] being the
    list of the user's own. Answers the channels offered. *)
Definition browse_channels (user_id : string) (channels : list channel)
    (pressed : click) : M (went (list channel)) :=
  try_except
    (all_channels ← execute select_public_channels;
     let available := available_channels all_channels channels in
     match pressed with
     | JoinButton k =>
         match filter (λ ch, c_id ch = k) available with
         | ch :: _ =>
             joined ← join_channel user_id (c_id ch);
             if (joined : bool) then mret Reran else mret (On available)
         | [] => mret (On available)
         end
     | _ => mret (On available)
     end)
    (λ e, st_error ("Error loading channels: " ++ e);; mret (On [])).

End Sidebar.

(** The session after the default selection of the channels section. *)
Definition default_selection (channels : list channel) (s : session_state)
  : session_state :=
  match current_channel s, channels with
  | None, ch :: _ => Sidebar.set_current_channel (Some ch) s
  | _, _ => s
  end.


(** ** Channel creation, the default workspace and the profile of the user *)

Module Creation.

Import Sidebar.

(** A row of [workspaces]; the program reads its [id]. *)
Record workspace : Type := Workspace {
  ws_id : Z;
  ws_name : string
}.

(** The requests on [workspaces], [channels] and [user_profiles] in which
    the store completes or checks the row by its schema (the id it assigns,
    the defaults, the constraints, the rows of [workspaces]). The schema is
    not part of the sources: what the store answers to such a request, and
    the tables it leaves, is left open. Each of them is sent at most once in
    a call of the functions below.
    - [table("workspaces").select("*").eq("name", name)]
    - [table("workspaces").insert({"name", "description", "created_by"})]
    - [table("channels").select("*").eq("name", name).eq("workspace_id", id)]
    - [table("channels").insert({"workspace_id", "name", "description", "created_by"})]
    - [table("user_profiles").upsert({..., "updated_at": now})] *)
Class Schema : Type := {
  select_workspace :
    string → Store.db → outcome (list workspace) * Store.db;
  insert_workspace :
    string → string → string → Store.db → outcome (list workspace) * Store.db;
  select_channel :
    string → Z → Store.db → outcome (list channel) * Store.db;
  insert_channel :
    Z → string → string → string → Store.db → outcome (list channel) * Store.db;
  upsert_profile :
    profile → Z → Store.db → outcome (list profile) * Store.db
}.

(** [s.replace(old, new)] for texts of one character. *)
Fixpoint replace (old new : ascii) (s : string) : string :=
  match s with
  | EmptyString => EmptyString
  | String c s' => String (if Ascii.eqb c old then new else c) (replace old new s')
  end.

(** A text of ASCII characters: each of its bytes is below 128. *)
Definition is_ascii (s : string) : Prop :=
  Forall (λ c, (nat_of_ascii c < 128)%nat) (list_ascii_of_string s).

(** [s.lower()] of the Python runtime, for a text the user typed. On a text
    of ASCII characters it lowers the letters A to Z, as [lower] does; what
    it makes of another text is decided by the Unicode tables of the runtime
    and is left open. *)
Class Lowering : Type := {
  str_lower : string → string;
  str_lower_ascii : ∀ s, is_ascii s → str_lower s = lower s
}.

(** [new_channel_name.strip().lower().replace(" ", "-")] *)
Definition clean_name `{Lowering} (new_channel_name : string) : string :=
  replace " " "-" (str_lower (strip new_channel_name)).

(** The [user] dict of the session, of a user who has an [id]: [email] and
    the entries of [user_metadata] are texts or [None], or absent. *)
Record auth_user : Type := AuthUser {
  au_id : string;
  au_email : option (option string);
  au_user_metadata : gmap string (option string)
}.

(** The truth value of a text or [None]. *)
Definition holds (v : option string) : bool :=
  match v with
  | Some s => truthy s
  | None => false
  end.

(** [d.get(key)] and [d.get(key, "")] *)
Definition get (d : gmap string (option string)) (key : string) : option string :=
  match d !! key with
  | Some v => v
  | None => None
  end.

Definition get_or_empty (d : gmap string (option string)) (key : string)
  : option string :=
  match d !! key with
  | Some v => v
  | None => Some ""
  end.

(** [email.split("@")[0]] *)
Fixpoint before_at (email : string) : string :=
  match email with
  | EmptyString => EmptyString
  | String c email' =>
      if Ascii.eqb c "@" then EmptyString else String c (before_at email')
  end.

(** [email.split("@")[0] if email else f"user_{user_id[:8]}"]; the ids are
    UUID texts, whose characters are one byte each. *)
Definition username_of (user : auth_user) : string :=
  let email := match au_email user with Some v => v | None => Some "" end in
  match email with
  | Some e => if truthy e then before_at e else "user_" ++ substring 0 8 (au_id user)
  | None => "user_" ++ substring 0 8 (au_id user)
  end.

(** [user_metadata.get("full_name") or user_metadata.get("name") or username] *)
Definition display_name_of (user : auth_user) : string :=
  let full_name := get (au_user_metadata user) "full_name" in
  let name := get (au_user_metadata user) "name" in
  if holds full_name then default "" full_name
  else if holds name then default "" name
  else username_of user.

(** The row of the upsert, without [updated_at]. *)
Definition profile_row (user : auth_user) : profile :=
  Profile (Some (au_id user)) (username_of user) (display_name_of user)
          (get_or_empty (au_user_metadata user) "avatar_url") (Some "online").

Section Functions.

Context `{Schema} `{Lowering}.

Definition create_channel (user_id : string) (workspace_id : Z)
    (name description : string) : M (option channel) :=
  try_except
    (result ← execute (insert_channel workspace_id name description user_id);
     match result with
     | row :: _ =>
         (* auto-join creator to channel *)
         _ ← join_channel user_id (c_id row);
         mret (Some row)
     | [] => mret None
     end)
    (λ e, st_error ("Error creating channel: " ++ e);; mret None).

(** The form of the sidebar, [submitted] holding the name and the
    description when its button was pressed. The success note and the pause
    of one second before the rerun leave no trace in the world. *)
Definition create_channel_form (user_id : string)
    (submitted : option (string * string)) : M (went unit) :=
  match submitted with
  | Some (new_channel_name, new_channel_desc) =>
      if truthy (strip new_channel_name) then
        new_channel ← create_channel user_id 1 (clean_name new_channel_name)
                                     new_channel_desc;
        match new_channel with
        | Some _ => mret Reran
        | None => mret (On ())
        end
      else
        st_error "Please enter a channel name";;
        mret (On ())
  | None => mret (On ())
  end.

Definition ensure_default_workspace_and_channel (user_id : string) : M unit :=
  try_except
    (workspace_result ← execute (select_workspace "Default Workspace");
     workspace_id ←
       match workspace_result with
       | [] =>
           workspace_result ←
             execute (insert_workspace "Default Workspace"
                        "Main workspace for the team" user_id);
           mret (ws_id <$> head workspace_result)
       | ws :: _ => mret (Some (ws_id ws))
       end;
     match workspace_id with
     | None => mret ()
     | Some workspace_id =>
         channel_result ← execute (select_channel "general" workspace_id);
         match channel_result with
         | [] =>
             channel_result ←
               execute (insert_channel workspace_id "general"
                          "General discussion channel" user_id);
             match channel_result with
             | ch :: _ => _ ← join_channel user_id (c_id ch); mret ()
             | [] => mret ()
             end
         | ch :: _ =>
             (* make sure user is a member of general channel *)
             _ ← join_channel user_id (c_id ch);
             mret ()
         end
     end)
    (λ _, mret ()).

Definition create_or_update_user_profile (user : auth_user)
  : M (option profile) :=
  try_except
    (now ← read_clock;
     result ← execute (upsert_profile (profile_row user) now);
     ensure_default_workspace_and_channel (au_id user);;
     mret (head result))
    (λ e, st_error ("Error creating user profile: " ++ e);; mret None).

End Functions.

(** A runtime for the examples, whose texts are ASCII. *)
Definition ascii_lowering : Lowering := {|
  str_lower := lower;
  str_lower_ascii := λ _ _, eq_refl
|}.

(** A store for the examples: the default workspace is there under the
    id 1, a channel gets the next id and is public, and a profile replaces
    the row of its id. *)
Definition example_schema : Schema := {|
  select_workspace name d := (Ok [Workspace 1 name], d);
  insert_workspace name _ _ d := (Ok [Workspace 1 name], d);
  select_channel name _ d :=
    (Ok (filter (λ ch, c_name ch = name) (Store.channels d)), d);
  insert_channel _ name description _ d :=
    let row := Channel (Z.of_nat (Store.next_id d)) name description false in
    (Ok [row],
     Store.Db (Store.messages d) (Store.user_profiles d)
              (Store.message_reactions d) (Store.channel_members d)
              (Store.channels d ++ [row]) (S (Store.next_id d))
              (Store.db_clock d));
  upsert_profile row _ d :=
    (Ok [row],
     Store.Db (Store.messages d)
              (filter (λ p, p_id p ≠ p_id row) (Store.user_profiles d) ++ [row])
              (Store.message_reactions d) (Store.channel_members d)
              (Store.channels d) (Store.next_id d) (Store.db_clock d))
|}.

(** What a computation that sent [n] requests left of the page: the session
    and the clock as they were, and the errors shown, [shown] ahead of those
    that were there. *)
Definition page_after (n : nat) (shown : list string) (w w' : world) : Prop :=
  session w' = session w ∧ clock w' = clock w ∧
  requests w' = (n + requests w)%nat ∧ faults w' = drop n (faults w) ∧
  ui_errors w' = (shown ++ ui_errors w)%list.

End Creation.
(** ** Running the monad *)

Local Open Scope list_scope.

Section Running.

Lemma bind_run {A B} (m : M A) (f : A → M B) (w : world) :
  (m ≫= f) w =
  match m w with
  | (Ok a, w') => f a w'
  | (Raised e, w') => (Raised e, w')
  end.
Proof. reflexivity. Qed.

Lemma drop_one_tail {A} (l : list A) : drop 1 l = tl l.
Proof. by destruct l. Qed.

Lemma after_requests_0 w : after_requests 0 w = w.
Proof. destruct w; reflexivity. Qed.

Lemma after_requests_S n w :
  after_requests n (after_requests 1 w) = after_requests (S n) w.
Proof.
  unfold after_requests; cbn [store session faults requests clock ui_errors].
  f_equal.
  - by rewrite drop_drop.
  - lia.
Qed.

Lemma lookup_profile_run user_id w :
  lookup_profile user_id w =
  (Ok (resolve (store w) (hd None (faults w)) user_id), after_requests 1 w).
Proof.
  unfold lookup_profile, try_except, execute, Store.select_profile, resolve.
  rewrite bind_run.
  unfold after_requests; rewrite drop_one_tail.
  destruct (hd None (faults w)) as [e|]; [reflexivity|].
  unfold set_store; cbn [store session faults requests clock ui_errors].
  destruct (filter _ _); reflexivity.
Qed.

Lemma for_each_decorate {A} (author : A → string) (attach : profile → A → A)
    (xs : list A) (w : world) :
  for_each (λ x, p ← lookup_profile (author x); mret (attach p x)) xs w =
  (Ok (decorate author attach (store w) (faults w) xs),
   after_requests (length xs) w).
Proof.
  revert w; induction xs as [|x xs IH]; intros w.
  - cbn [for_each decorate length mret M_ret]. by rewrite after_requests_0.
  - cbn [for_each decorate length].
    rewrite !bind_run, lookup_profile_run.
    cbn [mret M_ret]. rewrite bind_run, IH, after_requests_S.
    cbn [store faults after_requests].
    by rewrite drop_one_tail.
Qed.

Lemma get_channel_messages_run channel_id limit w :
  get_channel_messages channel_id limit w =
  match hd None (faults w) with
  | Some e => (Ok [], with_error ("Error fetching messages: " ++ e)%string (after_requests 1 w))
  | None =>
      let rows := channel_rows channel_id limit (store w) in
      (Ok (decorate m_user_id with_profile (store w) (tl (faults w)) rows),
       after_requests (S (length rows)) w)
  end.
Proof.
  unfold get_channel_messages, try_except. rewrite bind_run.
  unfold execute at 1.
  destruct (hd None (faults w)) as [e|] eqn:Hf.
  - unfold with_error, after_requests; rewrite drop_one_tail. reflexivity.
  - unfold Store.select_channel_messages.
    rewrite for_each_decorate. cbn zeta.
    unfold channel_rows.
    set (rows := take limit _).
    rewrite <- after_requests_S. reflexivity.
Qed.


Lemma get_direct_messages_run user_id other limit w :
  is_demo_user other = false →
  get_direct_messages user_id other limit w =
  match hd None (faults w) with
  | Some e =>
      (Ok [], with_error ("Error fetching direct messages: " ++ e)%string (after_requests 1 w))
  | None =>
      let rows := direct_rows user_id other limit (store w) in
      (Ok (decorate m_user_id with_profile (store w) (tl (faults w)) rows),
       after_requests (S (length rows)) w)
  end.
Proof.
  intros Hdemo.
  unfold get_direct_messages, try_except. rewrite Hdemo, bind_run.
  unfold execute at 1.
  destruct (hd None (faults w)) as [e|] eqn:Hf.
  - reflexivity.
  - unfold Store.select_direct_messages.
    rewrite for_each_decorate. cbn zeta.
    rewrite <- after_requests_S. reflexivity.
Qed.

Lemma get_direct_messages_demo user_id other limit w :
  is_demo_user other = true →
  get_direct_messages user_id other limit w =
  (Ok (demo_view user_id other (session w)), store_demo_view user_id other w).
Proof.
  intros Hdemo.
  unfold get_direct_messages, try_except. rewrite Hdemo.
  reflexivity.
Qed.

Lemma get_message_reactions_run message_id w :
  get_message_reactions message_id w =
  match hd None (faults w) with
  | Some e => (Ok [], after_requests 1 w)
  | None =>
      let rows := reaction_rows message_id (store w) in
      (Ok (decorate r_user_id reaction_with_profile (store w) (tl (faults w)) rows),
       after_requests (S (length rows)) w)
  end.
Proof.
  unfold get_message_reactions, try_except. rewrite bind_run.
  unfold execute at 1.
  destruct (hd None (faults w)) as [e|] eqn:Hf.
  - reflexivity.
  - unfold Store.select_reactions.
    rewrite for_each_decorate. cbn zeta.
    rewrite <- after_requests_S. reflexivity.
Qed.

Lemma get_user_channels_run user_id w :
  get_user_channels user_id w =
  match hd None (faults w) with
  | Some e => (Ok [], with_error ("Error fetching channels: " ++ e)%string (after_requests 1 w))
  | None =>
      (Ok (filter (λ c, Member user_id (c_id c) ∈ Store.channel_members (store w))
                  (Store.channels (store w))),
       after_requests 1 w)
  end.
Proof.
  unfold get_user_channels, try_except, execute.
  destruct (hd None (faults w)) as [e|] eqn:Hf; reflexivity.
Qed.

Lemma get_all_users_run exclude w :
  get_all_users exclude w =
  match hd None (faults w) with
  | Some e => (Ok demo_users, with_error ("Error fetching users: " ++ e)%string (after_requests 1 w))
  | None =>
      (Ok (match given exclude with
           | Some x => filter (Store.id_other_than x) (Store.user_profiles (store w))
           | None => Store.user_profiles (store w)
           end ++
           match given exclude with
           | Some x => filter (λ u, p_id u ≠ Some x) demo_users
           | None => demo_users
           end)%list,
       after_requests 1 w)
  end.
Proof.
  unfold get_all_users, try_except. rewrite bind_run. unfold execute.
  destruct (hd None (faults w)) as [e|] eqn:Hf; reflexivity.
Qed.

End Running.

(** ** Ordered and limited selections *)

Section Ordering.

Lemma insert_by_created_at_elem x y l :
  y ∈ Store.insert_by_created_at x l ↔ y = x ∨ y ∈ l.
Proof.
  induction l as [|z l IH]; cbn [Store.insert_by_created_at].
  - rewrite list_elem_of_singleton, elem_of_nil. tauto.
  - destruct (m_created_at x <=? m_created_at z);
      rewrite !elem_of_cons, ?IH; tauto.
Qed.

Lemma insert_by_created_at_ascending x l :
  ascending l → ascending (Store.insert_by_created_at x l).
Proof.
  unfold ascending.
  induction l as [|y l IH]; cbn [Store.insert_by_created_at]; intros Hl.
  - repeat constructor.
  - destruct (m_created_at x <=? m_created_at y) eqn:Hxy.
    + apply Z.leb_le in Hxy.
      rewrite fmap_cons. apply StronglySorted_cons. split; [|done].
      rewrite fmap_cons in *. apply StronglySorted_cons in Hl as [Hy Hl].
      constructor; [done|].
      eapply Forall_impl; [exact Hy|]. intros; cbn in *; lia.
    + apply Z.leb_gt in Hxy.
      rewrite fmap_cons in *. apply StronglySorted_cons in Hl as [Hy Hl].
      apply StronglySorted_cons. split; [|by apply IH].
      apply Forall_forall. intros t Ht.
      apply list_elem_of_fmap in Ht as [z [-> Hz]].
      apply insert_by_created_at_elem in Hz as [->|Hz]; [lia|].
      rewrite Forall_forall in Hy. apply Hy.
      apply list_elem_of_fmap. eauto.
Qed.

Lemma order_by_created_at_ascending l :
  ascending (Store.order_by_created_at l).
Proof.
  induction l as [|x l IH]; cbn [Store.order_by_created_at].
  - constructor.
  - by apply insert_by_created_at_ascending.
Qed.

Lemma order_by_created_at_elem y l :
  y ∈ Store.order_by_created_at l ↔ y ∈ l.
Proof.
  induction l as [|x l IH]; cbn [Store.order_by_created_at]; [done|].
  rewrite insert_by_created_at_elem, IH, elem_of_cons. tauto.
Qed.

Lemma insert_by_created_at_length x l :
  length (Store.insert_by_created_at x l) = S (length l).
Proof.
  induction l as [|y l IH]; cbn [Store.insert_by_created_at]; [done|].
  destruct (m_created_at x <=? m_created_at y); cbn; [done|]. by rewrite IH.
Qed.

Lemma order_by_created_at_length l :
  length (Store.order_by_created_at l) = length l.
Proof.
  induction l as [|x l IH]; cbn [Store.order_by_created_at]; [done|].
  rewrite insert_by_created_at_length. cbn. by rewrite IH.
Qed.

Lemma ascending_take n l : ascending l → ascending (take n l).
Proof.
  unfold ascending. intros Hl.
  rewrite <- (take_drop n l), fmap_app in Hl.
  by apply StronglySorted_app_1_l in Hl.
Qed.

(** A row stamped no earlier than every other one, and inserted last, is
    listed last. *)
Lemma insert_by_created_at_snoc x l y :
  m_created_at x ≤ m_created_at y →
  Store.insert_by_created_at x (l ++ [y]) = Store.insert_by_created_at x l ++ [y].
Proof.
  intros Hxy. induction l as [|z l IH]; cbn [Store.insert_by_created_at app].
  - apply Z.leb_le in Hxy. by rewrite Hxy.
  - destruct (m_created_at x <=? m_created_at z); [done|].
    cbn [app]. by rewrite IH.
Qed.

Lemma order_by_created_at_snoc l y :
  Forall (λ x, m_created_at x ≤ m_created_at y) l →
  Store.order_by_created_at (l ++ [y]) = Store.order_by_created_at l ++ [y].
Proof.
  induction 1 as [|x l Hx Hl IH]; cbn [Store.order_by_created_at app]; [done|].
  rewrite IH. by apply insert_by_created_at_snoc.
Qed.

Lemma decorate_length {A} (author : A → string) attach d fs (xs : list A) :
  length (decorate author attach d fs xs) = length xs.
Proof.
  revert fs; induction xs as [|x xs IH]; intros fs; cbn; [done|]. by rewrite IH.
Qed.

Lemma decorate_created_at d fs (xs : list message) :
  m_created_at <$> decorate m_user_id with_profile d fs xs = m_created_at <$> xs.
Proof.
  revert fs; induction xs as [|x xs IH]; intros fs; cbn; [done|]. by rewrite IH.
Qed.

Lemma decorate_ids d fs (xs : list message) :
  m_id <$> decorate m_user_id with_profile d fs xs = m_id <$> xs.
Proof.
  revert fs; induction xs as [|x xs IH]; intros fs; cbn; [done|]. by rewrite IH.
Qed.

Lemma decorate_lookup {A} (author : A → string) attach d fs (xs : list A) i y :
  decorate author attach d fs xs !! i = Some y ↔
  ∃ x, xs !! i = Some x ∧
       y = attach (resolve d (default None (fs !! i)) (author x)) x.
Proof.
  revert fs i; induction xs as [|x xs IH]; intros fs i; cbn [decorate].
  - rewrite !lookup_nil. split; [done | by intros (x & Hx & _)].
  - destruct i as [|i]; cbn [lookup list_lookup].
    + assert (Hf : hd None fs = default None (fs !! 0%nat)) by (by destruct fs).
      rewrite Hf. split.
      * intros [= <-]. by eexists.
      * by intros (x0 & [= <-] & ->).
    + rewrite IH. destruct fs as [|f fs]; cbn [tl]; [|done].
      by rewrite !lookup_nil.
Qed.

End Ordering.

(** ** Reads: failures of the store and missing profiles *)

Section Reads.







(** C7, as the code has it: when the request of their query raises,
    [get_channel_messages], [get_direct_messages] (for a counterpart served
    by the store), [get_message_reactions] and [get_user_channels] answer the
    empty list and do not raise; [get_all_users] answers the two demo users
    instead. *)
Theorem failed_read_degrades
    (w : world) (e : string) (channel_id : Z) (user_id other : string)
    (limit : nat) (message_id : ident) (exclude : option string) :
  hd None (faults w) = Some e →
  is_demo_user other = false →
  fst (get_channel_messages channel_id limit w) = Ok [] ∧
  fst (get_direct_messages user_id other limit w) = Ok [] ∧
  fst (get_message_reactions message_id w) = Ok [] ∧
  fst (get_user_channels user_id w) = Ok [] ∧
  fst (get_all_users exclude w) = Ok demo_users.
Proof.
  intros Hfault Hother.
  rewrite get_channel_messages_run, (get_direct_messages_run _ _ _ _ Hother),
    get_message_reactions_run, get_user_channels_run, get_all_users_run, Hfault.
  done.
Qed.

Lemma failed_read_degrades_witness :
  hd None (faults (Examples.outage Examples.in_general)) = Some "connection refused" ∧
  is_demo_user "ann" = false ∧
  fst (get_channel_messages 1 50 (Examples.outage Examples.in_general)) = Ok [] ∧
  fst (get_all_users (Some "ann") (Examples.outage Examples.in_general)) = Ok demo_users.
Proof.
  destruct (failed_read_degrades (Examples.outage Examples.in_general)
              "connection refused" 1 "ghost" "ann" 50 (RowId 1) (Some "ann")
              eq_refl eq_refl) as (H1 & _ & _ & _ & H5).
  repeat split; assumption.
Defined.

(** C7 as stated fails: with the store unreachable, the user listing is not
    empty. *)
Lemma user_listing_not_empty_on_failure :
  hd None (faults (Examples.outage Examples.in_general)) = Some "connection refused" ∧
  fst (get_all_users (Some "ann") (Examples.outage Examples.in_general)) = Ok demo_users ∧
  fst (get_all_users (Some "ann") (Examples.outage Examples.in_general)) ≠ Ok [].
Proof. split; [reflexivity|]. split; [reflexivity|]. discriminate. Qed.

End Reads.

(** ** Order, size and repeatability of the message lists *)

Section Listings.

Lemma decorate_ascending d fs rows :
  ascending rows → ascending (decorate m_user_id with_profile d fs rows).
Proof. unfold ascending. by rewrite decorate_created_at. Qed.

Lemma channel_rows_ascending channel_id limit d :
  ascending (channel_rows channel_id limit d).
Proof. apply ascending_take, order_by_created_at_ascending. Qed.

Lemma direct_rows_ascending u o limit d :
  ascending (direct_rows u o limit d).
Proof. apply ascending_take, order_by_created_at_ascending. Qed.

Lemma faults_after_requests n w :
  faults w = [] → faults (after_requests n w) = [].
Proof. intros H. cbn. rewrite H. apply drop_nil. Qed.

(** A read of the overlay shows the same conversation again. *)
Lemma demo_view_again user_id other w :
  demo_view user_id other (session (store_demo_view user_id other w))
  = demo_view user_id other (session w).
Proof.
  unfold demo_view at 1, demo_stored at 1, store_demo_view.
  cbn [session set_session demo_messages set_demo_messages].
  rewrite lookup_insert_eq.
  unfold demo_view. rewrite <- list_fmap_compose.
  apply list_fmap_ext. intros _ msg _. reflexivity.
Qed.

End Listings.

(** ** Sending *)

Section Sending.

Lemma send_message_run user_id channel_id content w :
  send_message user_id channel_id content w =
  match hd None (faults w) with
  | Some e =>
      (Ok None, with_error ("Error sending message: " ++ e)%string (after_requests 1 w))
  | None =>
      let row := Store.new_message user_id (Some channel_id) None (strip content)
                                   "text" (store w) in
      (Ok (Some row), set_store (Store.add_message row (store w)) (after_requests 1 w))
  end.
Proof.
  unfold send_message, try_except. rewrite bind_run. unfold execute.
  destruct (hd None (faults w)); reflexivity.
Qed.

Lemma send_direct_message_run user_id recipient content w :
  is_demo_user recipient = false →
  send_direct_message user_id recipient content w =
  match hd None (faults w) with
  | Some e =>
      (Ok None,
       with_error ("Error sending direct message: " ++ e)%string (after_requests 1 w))
  | None =>
      let row := Store.new_message user_id None (Some recipient) (strip content)
                                   "text" (store w) in
      (Ok (Some row), set_store (Store.add_message row (store w)) (after_requests 1 w))
  end.
Proof.
  intros Hdemo.
  unfold send_direct_message, try_except. rewrite Hdemo, bind_run. unfold execute.
  destruct (hd None (faults w)); reflexivity.
Qed.

(** The message [send_direct_message] makes up for a demo user, from the
    two readings [t] and [now] of the clock. *)
Lemma send_direct_message_demo user_id recipient content w :
  is_demo_user recipient = true →
  send_direct_message user_id recipient content w =
  (Ok (Some (Message
               (TextId ("demo-msg-" ++ str_of_int (Z.quot (hd 0 (clock w)) one_second))%string)
               user_id None (Some recipient) (strip content) "text"
               (hd 0 (tl (clock w))) None)),
   World (store w) (session w) (faults w) (requests w) (tl (tl (clock w)))
         (ui_errors w)).
Proof.
  intros Hdemo.
  unfold send_direct_message, try_except. rewrite Hdemo. reflexivity.
Qed.

(** C1, as the code has it: the Send handler of the page ignores a text
    that is empty or whitespace-only: it sends nothing, shows no error and
    leaves the world as it was. [send_message] and [send_direct_message]
    themselves do not validate: called with such a text on a reachable store
    they store a row whose [content] is empty, and for a demo user
    [send_direct_message] makes up a message whose [content] is empty. *)
Theorem blank_input_is_ignored_by_handler
    (w : world) (user_id recipient demo : string) (channel_id : Z)
    (send_button : bool) (content : string) :
  strip content = "" →
  is_demo_user recipient = false →
  is_demo_user demo = true →
  send_handler user_id send_button content w = (Ok false, w) ∧
  (served w →
     ∃ row,
       fst (send_message user_id channel_id content w) = Ok (Some row) ∧
       m_content row = "" ∧
       Store.messages (store (snd (send_message user_id channel_id content w)))
       = Store.messages (store w) ++ [row]) ∧
  (served w →
     ∃ row,
       fst (send_direct_message user_id recipient content w) = Ok (Some row) ∧
       m_content row = "" ∧
       Store.messages (store (snd (send_direct_message user_id recipient content w)))
       = Store.messages (store w) ++ [row]) ∧
  (∃ msg,
     fst (send_direct_message user_id demo content w) = Ok (Some msg) ∧
     m_content msg = "").
Proof.
  intros Hblank Hreal Hdemo. repeat split.
  - unfold send_handler, sendable. rewrite Hblank. cbn [truthy].
    by rewrite andb_false_r.
  - intros Hserved. rewrite send_message_run, Hserved, Hblank.
    eexists. repeat split.
  - intros Hserved. rewrite (send_direct_message_run _ _ _ _ Hreal), Hserved, Hblank.
    eexists. repeat split.
  - rewrite (send_direct_message_demo _ _ _ _ Hdemo), Hblank.
    eexists. repeat split.
Qed.

Lemma blank_input_is_ignored_by_handler_witness :
  strip "  " = "" ∧
  is_demo_user "bob" = false ∧
  is_demo_user Examples.alex = true ∧
  send_handler "ann" true "  " (Examples.small Examples.in_general)
  = (Ok false, Examples.small Examples.in_general).
Proof.
  split; [reflexivity|]. split; [reflexivity|]. split; [reflexivity|].
  apply (blank_input_is_ignored_by_handler
           (Examples.small Examples.in_general) "ann" "bob" Examples.alex 1 true "  "
           eq_refl eq_refl eq_refl).
Defined.

(** C1 as stated fails: [send_message] and [send_direct_message], called
    with a whitespace-only text, do not fail; each stores a row. *)
Lemma blank_message_is_stored :
  strip "   " = "" ∧
  Store.messages (store (Examples.quiet Examples.in_general)) = [] ∧
  (∃ row,
     fst (send_message "ann" 1 "   " (Examples.quiet Examples.in_general))
     = Ok (Some row) ∧
     m_content row = "" ∧
     Store.messages
       (store (snd (send_message "ann" 1 "   " (Examples.quiet Examples.in_general))))
     = [row]) ∧
  (∃ row,
     fst (send_direct_message "ann" "bob" "   " (Examples.quiet Examples.in_general))
     = Ok (Some row) ∧
     m_content row = "" ∧
     Store.messages
       (store (snd (send_direct_message "ann" "bob" "   "
                      (Examples.quiet Examples.in_general))))
     = [row]).
Proof.
  split; [reflexivity|]. split; [reflexivity|].
  split; eexists; (split; [vm_compute; reflexivity|]); split; reflexivity.
Qed.

Lemma decorate_same_profiles {A} (author : A → string) attach d d' fs (xs : list A) :
  Store.user_profiles d = Store.user_profiles d' →
  decorate author attach d fs xs = decorate author attach d' fs xs.
Proof.
  intros Hp. revert fs; induction xs as [|x xs IH]; intros fs; cbn [decorate]; [done|].
  rewrite IH. unfold resolve. by rewrite Hp.
Qed.

(** The rows of a channel after one more message was stored in it, stamped
    no earlier than those it holds. *)
Lemma channel_rows_after_post channel_id limit d row :
  m_channel_id row = Some channel_id →
  Forall (λ m, m_channel_id m = Some channel_id → m_created_at m ≤ m_created_at row)
         (Store.messages d) →
  channel_rows channel_id limit (Store.add_message row d) =
  take limit (Store.order_by_created_at
                (filter (λ m, m_channel_id m = Some channel_id) (Store.messages d))
              ++ [row]).
Proof.
  intros Hrow Hle. unfold channel_rows, Store.add_message. cbn [Store.messages].
  rewrite filter_app, filter_cons, decide_True, filter_nil by done.
  rewrite order_by_created_at_snoc; [done|].
  apply Forall_forall. intros m Hm. apply list_elem_of_filter in Hm as [Hc Hm].
  rewrite Forall_forall in Hle. auto.
Qed.

(** While a channel holds fewer than [limit] messages and the clock of the
    store does not run backwards, the message just sent is the last of the
    list. *)
Lemma posted_message_listed_last user_id channel_id content limit w :
  faults w = [] →
  (length (filter (λ m, m_channel_id m = Some channel_id) (Store.messages (store w)))
   < limit)%nat →
  Forall (λ m, m_channel_id m = Some channel_id →
               m_created_at m ≤ hd 0 (Store.db_clock (store w)))
         (Store.messages (store w)) →
  ∃ row listed,
    fst (send_message user_id channel_id content w) = Ok (Some row) ∧
    m_content row = strip content ∧
    fst (get_channel_messages channel_id limit
           (snd (send_message user_id channel_id content w))) = Ok listed ∧
    last (m_id <$> listed) = Some (m_id row).
Proof.
  intros Hf Hlen Hle.
  rewrite send_message_run, Hf. cbn [hd fst snd].
  do 2 eexists. split; [reflexivity|]. split; [reflexivity|].
  rewrite get_channel_messages_run. cbn [faults set_store after_requests store].
  rewrite Hf. cbn [drop hd fst]. split; [reflexivity|].
  rewrite decorate_ids, channel_rows_after_post by done.
  rewrite take_ge by (rewrite length_app, order_by_created_at_length; cbn; lia).
  rewrite fmap_app. cbn [fmap list_fmap]. by rewrite last_snoc.
Qed.

(** Once a channel holds [limit] messages or more, the list after a post is
    the list before it: the message just sent is not shown. *)
Lemma posted_message_beyond_limit user_id channel_id content limit w :
  faults w = [] →
  (limit ≤ length (filter (λ m, m_channel_id m = Some channel_id)
                          (Store.messages (store w))))%nat →
  Forall (λ m, m_channel_id m = Some channel_id →
               m_created_at m ≤ hd 0 (Store.db_clock (store w)))
         (Store.messages (store w)) →
  fst (get_channel_messages channel_id limit
         (snd (send_message user_id channel_id content w)))
  = fst (get_channel_messages channel_id limit w).
Proof.
  intros Hf Hlen Hle.
  rewrite send_message_run, Hf. cbn [hd fst snd].
  rewrite !get_channel_messages_run. cbn [faults set_store after_requests store].
  rewrite Hf. cbn [drop hd fst tl]. f_equal.
  rewrite channel_rows_after_post by done.
  rewrite take_app_le by (rewrite order_by_created_at_length; lia).
  by apply decorate_same_profiles.
Qed.

(** C2 fails on the code: in a channel that already holds fifty messages,
    the message "hello" is stored, and the list asked right after, with the
    default limit of 50, holds the fifty older messages and not the new
    one. *)
Theorem posted_message_not_listed :
  ∃ row listed,
    fst (send_message "ann" 1 "hello" Examples.busy) = Ok (Some row) ∧
    m_content row = "hello" ∧
    row ∈ Store.messages (store (snd (send_message "ann" 1 "hello" Examples.busy))) ∧
    fst (get_channel_messages 1 50 (snd (send_message "ann" 1 "hello" Examples.busy)))
    = Ok listed ∧
    length listed = 50%nat ∧
    (m_id row ∉ (m_id <$> listed)) ∧
    last (m_id <$> listed) = Some (RowId 49).
Proof.
  do 2 eexists.
  split; [vm_compute; reflexivity|]. split; [reflexivity|].
  split; [apply (bool_decide_unpack _); vm_compute; exact I|].
  split; [vm_compute; reflexivity|]. split; [reflexivity|].
  split; [apply (bool_decide_unpack _); vm_compute; exact I | reflexivity].
Qed.

End Sending.

(** ** Reactions and memberships *)

Section Conflicts.

Lemma filter_empty_iff {A} (P : A → Prop) `{∀ x, Decision (P x)} (l : list A) :
  length (filter P l) = 0%nat ↔ ¬ Exists P l.
Proof.
  induction l as [|x l IH].
  - split; [intros _ Hex; inversion Hex | done].
  - rewrite filter_cons. destruct (decide (P x)) as [Hx|Hx].
    + split; [done|]. intros Hex. destruct Hex. by left.
    + rewrite IH. split.
      * intros Hl Hex. inversion Hex; subst; tauto.
      * intros Hex Hl. apply Hex. by right.
Qed.

Lemma filter_none_out {A} (P : A → Prop) `{∀ x, Decision (P x)} (l : list A) :
  ¬ Exists P l → filter (λ x, ¬ P x) l = l.
Proof.
  induction l as [|x l IH]; intros Hex; [done|].
  rewrite filter_cons, decide_True.
  - f_equal. apply IH. intros Hl. apply Hex. by right.
  - intros Hx. apply Hex. by left.
Qed.

Lemma filter_snoc_length {A} (P : A → Prop) `{∀ x, Decision (P x)} (l : list A) x :
  P x → length (filter P (l ++ [x])) = S (length (filter P l)).
Proof.
  intros Hx. rewrite filter_app, length_app, filter_cons, decide_True by done.
  cbn. lia.
Qed.

Lemma filter_filter_length {A} (P Q : A → Prop)
    `{∀ x, Decision (P x)} `{∀ x, Decision (Q x)} (l : list A) :
  (length (filter P (filter Q l)) ≤ length (filter P l))%nat.
Proof.
  induction l as [|x l IH]; [done|].
  rewrite !(filter_cons _ x l).
  destruct (decide (Q x)), (decide (P x));
    rewrite ?filter_cons, ?decide_True, ?decide_False by done; cbn; lia.
Qed.

(** The store keeps its uniqueness constraints through every insert and
    delete. *)
Lemma insert_reaction_unique message_id user_id emoji d :
  unique_reactions d →
  unique_reactions (snd (Store.insert_reaction message_id user_id emoji d)).
Proof.
  intros Hd m u e. unfold Store.insert_reaction.
  destruct (decide _) as [Hex|Hex]; cbn [snd]; [apply Hd|].
  unfold reaction_count. cbn [Store.set_reactions Store.message_reactions].
  rewrite filter_app, length_app, filter_cons, filter_nil.
  destruct (decide (Store.same_reaction m u e (Reaction message_id user_id emoji None)))
    as [(Hm & Hu & He)|Hne]; cbn [length].
  - cbn in Hm, Hu, He. subst m u e.
    apply (filter_empty_iff (Store.same_reaction message_id user_id emoji)) in Hex.
    lia.
  - specialize (Hd m u e). unfold reaction_count in Hd. lia.
Qed.

Lemma delete_reaction_unique message_id user_id emoji d :
  unique_reactions d →
  unique_reactions (snd (Store.delete_reaction message_id user_id emoji d)).
Proof.
  intros Hd m u e. specialize (Hd m u e).
  unfold Store.delete_reaction, reaction_count in *.
  cbn [snd Store.set_reactions Store.message_reactions].
  etrans; [apply filter_filter_length | exact Hd].
Qed.

Lemma insert_member_unique user_id channel_id d :
  unique_members d →
  unique_members (snd (Store.insert_member user_id channel_id d)).
Proof.
  intros Hd u c. unfold Store.insert_member.
  destruct (decide _) as [Hin|Hnot]; cbn [snd]; [apply Hd|].
  unfold member_count. cbn [Store.set_members Store.channel_members].
  rewrite filter_app, length_app, filter_cons, filter_nil.
  destruct (decide (Member user_id channel_id = Member u c)) as [[= <- <-]|Hne];
    cbn [length].
  - assert (Hex : ¬ Exists (λ x, x = Member user_id channel_id) (Store.channel_members d)).
    { intros Hex. apply Exists_exists in Hex as (x & Hx & ->). done. }
    apply (filter_empty_iff (λ x, x = Member user_id channel_id)) in Hex. lia.
  - specialize (Hd u c). unfold member_count in Hd. lia.
Qed.

Lemma add_reaction_run message_id user_id emoji w :
  add_reaction message_id user_id emoji w =
  match hd None (faults w) with
  | Some e => (Ok None, after_requests 1 w)
  | None =>
      if decide (Exists (Store.same_reaction message_id user_id emoji)
                        (Store.message_reactions (store w)))
      then (Ok None, after_requests 1 w)
      else
        let row := Reaction message_id user_id emoji None in
        (Ok (Some row),
         set_store (Store.set_reactions (Store.message_reactions (store w) ++ [row])
                                        (store w))
                   (after_requests 1 w))
  end.
Proof.
  unfold add_reaction, try_except. rewrite bind_run.
  unfold execute, Store.insert_reaction.
  destruct (hd None (faults w)); [reflexivity|].
  destruct (decide _); [|reflexivity].
  cbn. unfold after_requests, set_store. cbn. by destruct w.
Qed.

Lemma remove_reaction_run message_id user_id emoji w :
  remove_reaction message_id user_id emoji w =
  match hd None (faults w) with
  | Some e => (Ok false, after_requests 1 w)
  | None =>
      (Ok true,
       set_store
         (Store.set_reactions
            (filter (λ r, ¬ Store.same_reaction message_id user_id emoji r)
                    (Store.message_reactions (store w)))
            (store w))
         (after_requests 1 w))
  end.
Proof.
  unfold remove_reaction, try_except. rewrite bind_run.
  unfold execute, Store.delete_reaction.
  destruct (hd None (faults w)); reflexivity.
Qed.

(** What [add_reaction] leaves of the count of [(message_id, user_id,
    emoji)]: one row more when the request is served and there was none. *)
Lemma add_reaction_count message_id user_id emoji w :
  let w' := snd (add_reaction message_id user_id emoji w) in
  (∃ a, fst (add_reaction message_id user_id emoji w) = Ok a) ∧
  ui_errors w' = ui_errors w ∧
  faults w' = tl (faults w) ∧
  reaction_count message_id user_id emoji (store w') =
    match hd None (faults w) with
    | Some _ => reaction_count message_id user_id emoji (store w)
    | None => Nat.max 1 (reaction_count message_id user_id emoji (store w))
    end.
Proof.
  cbn zeta. rewrite add_reaction_run.
  destruct (hd None (faults w)) as [e|].
  { cbn. rewrite drop_one_tail. eauto. }
  unfold reaction_count.
  destruct (decide _) as [Hex|Hex]; cbn.
  - split_and!; [eauto | done | done |].
    destruct (length _) eqn:Hlen; [|lia].
    by apply filter_empty_iff in Hlen.
  - split_and!; [eauto | done | done |].
    apply (filter_empty_iff (Store.same_reaction message_id user_id emoji)) in Hex.
    rewrite filter_snoc_length by done. lia.
Qed.

(** C3: two calls of [add_reaction] for the same [(message_id, user_id,
    emoji)] raise nothing, show no error and leave at most one such row,
    exactly one unless the store failed both requests; [remove_reaction] for
    a reaction that does not exist raises nothing, shows no error, leaves the
    reactions as they were, and answers [True] when the store serves the
    request. *)
Theorem reactions_idempotent
    (w : world) (message_id : ident) (user_id emoji : string)
    (message_id' : ident) (user_id' emoji' : string) :
  (reaction_count message_id user_id emoji (store w) ≤ 1)%nat →
  reaction_count message_id' user_id' emoji' (store w) = 0%nat →
  (let once := add_reaction message_id user_id emoji w in
   let twice := add_reaction message_id user_id emoji (snd once) in
   (∃ a, fst once = Ok a) ∧ (∃ b, fst twice = Ok b) ∧
   ui_errors (snd twice) = ui_errors w ∧
   (reaction_count message_id user_id emoji (store (snd twice)) ≤ 1)%nat ∧
   (served w ∨ served (after_requests 1 w) →
    reaction_count message_id user_id emoji (store (snd twice)) = 1%nat)) ∧
  (let removed := remove_reaction message_id' user_id' emoji' w in
   (∃ b, fst removed = Ok b) ∧
   (served w → fst removed = Ok true) ∧
   ui_errors (snd removed) = ui_errors w ∧
   Store.message_reactions (store (snd removed)) = Store.message_reactions (store w)).
Proof.
  intros Hunique Hnone. split.
  - cbn zeta.
    destruct (add_reaction_count message_id user_id emoji w)
      as (Ha & Herr1 & Hf1 & Hc1).
    destruct (add_reaction_count message_id user_id emoji
                (snd (add_reaction message_id user_id emoji w)))
      as (Hb & Herr2 & Hf2 & Hc2).
    split; [exact Ha|]. split; [exact Hb|]. split; [congruence|]. split.
    + rewrite Hc2, Hc1. rewrite Hf1.
      destruct (hd None (tl (faults w))), (hd None (faults w)); lia.
    + unfold served. cbn [faults after_requests].
      rewrite drop_one_tail, Hc2, Hc1, Hf1.
      intros [Hs|Hs]; rewrite Hs.
      * destruct (hd None (tl (faults w))); lia.
      * destruct (hd None (faults w)); lia.
  - cbn zeta. rewrite remove_reaction_run. unfold served.
    destruct (hd None (faults w)) as [e|]; cbn.
    + split_and!; [eauto | done | done | done].
    + split_and!; [eauto | done | done |].
      apply filter_empty_iff in Hnone.
      by apply filter_none_out.
Qed.

Lemma reactions_idempotent_witness :
  (reaction_count (RowId 1) "ghost" "👍" (store (Examples.small Examples.in_general)) ≤ 1)%nat ∧
  reaction_count (RowId 1) "ann" "👍" (store (Examples.small Examples.in_general)) = 0%nat ∧
  reaction_count (RowId 1) "ghost" "👍"
    (store (snd (add_reaction (RowId 1) "ghost" "👍"
                   (snd (add_reaction (RowId 1) "ghost" "👍"
                           (Examples.small Examples.in_general)))))) = 1%nat.
Proof.
  assert (H1 : (reaction_count (RowId 1) "ghost" "👍"
                  (store (Examples.small Examples.in_general)) ≤ 1)%nat)
    by (vm_compute; lia).
  split; [exact H1|]. split; [reflexivity|].
  destruct (reactions_idempotent (Examples.small Examples.in_general)
              (RowId 1) "ghost" "👍" (RowId 1) "ann" "👍" H1 eq_refl)
    as [(_ & _ & _ & _ & Hone) _].
  apply Hone. left. reflexivity.
Defined.

Lemma join_channel_run user_id channel_id w :
  join_channel user_id channel_id w =
  match hd None (faults w) with
  | Some e =>
      (Ok false,
       if contains "duplicate key" (lower e) then after_requests 1 w
       else with_error ("Error joining channel: " ++ e)%string (after_requests 1 w))
  | None =>
      if decide (Member user_id channel_id ∈ Store.channel_members (store w))
      then (Ok false, after_requests 1 w)
      else
        (Ok true,
         set_store
           (Store.set_members
              (Store.channel_members (store w) ++ [Member user_id channel_id])
              (store w))
           (after_requests 1 w))
  end.
Proof.
  unfold join_channel, try_except. rewrite bind_run.
  unfold execute, Store.insert_member.
  destruct (hd None (faults w)) as [e|].
  - destruct (contains "duplicate key" (lower e)); reflexivity.
  - destruct (decide _); [|reflexivity].
    cbn. unfold after_requests, set_store. cbn. by destruct w.
Qed.

Lemma member_count_elem user_id channel_id d :
  Member user_id channel_id ∈ Store.channel_members d ↔
  (1 ≤ member_count user_id channel_id d)%nat.
Proof.
  unfold member_count. split.
  - intros Hin. destruct (length _) eqn:Hlen; [|lia].
    apply filter_empty_iff in Hlen. destruct Hlen.
    apply Exists_exists. eauto.
  - intros Hlen. destruct (decide (Member user_id channel_id ∈ Store.channel_members d))
      as [|Hnot]; [done|].
    assert (Hex : ¬ Exists (λ x, x = Member user_id channel_id) (Store.channel_members d)).
    { intros Hex. apply Exists_exists in Hex as (x & Hx & ->). done. }
    apply (filter_empty_iff (λ x, x = Member user_id channel_id)) in Hex. lia.
Qed.

(** C8, as the code has it: joining a channel the user already belongs to
    raises nothing and shows no error: the duplicate-key condition is caught;
    the call answers [False], and the memberships stay as they were. After
    two calls of [join_channel] served by the store there is exactly one row
    [(user_id, channel_id)], no error was shown, and the second call answered
    [False]. *)
Theorem join_twice_keeps_one_row (w : world) (user_id : string) (channel_id : Z) :
  (member_count user_id channel_id (store w) ≤ 1)%nat →
  served w →
  served (after_requests 1 w) →
  (Member user_id channel_id ∈ Store.channel_members (store w) →
   join_channel user_id channel_id w = (Ok false, after_requests 1 w)) ∧
  (let once := join_channel user_id channel_id w in
   let twice := join_channel user_id channel_id (snd once) in
   fst once = Ok (bool_decide (Member user_id channel_id ∉ Store.channel_members (store w))) ∧
   fst twice = Ok false ∧
   ui_errors (snd twice) = ui_errors w ∧
   member_count user_id channel_id (store (snd twice)) = 1%nat).
Proof.
  intros Hunique Hs1 Hs2. unfold served in *.
  assert (Hd : faults (after_requests 1 w) = tl (faults w))
    by apply drop_one_tail.
  rewrite Hd in Hs2.
  split.
  - intros Hin. rewrite join_channel_run, Hs1. by rewrite decide_True.
  - cbn zeta. rewrite (join_channel_run _ _ w), Hs1.
    destruct (decide (Member user_id channel_id ∈ Store.channel_members (store w)))
      as [Hin|Hnot].
    + cbn [fst snd]. rewrite join_channel_run. cbn [faults store after_requests].
      rewrite drop_one_tail, Hs2, decide_True by done. cbn [fst snd ui_errors store after_requests].
      split_and!; [| done | done |].
      * by rewrite bool_decide_eq_false_2 by tauto.
      * apply member_count_elem in Hin. lia.
    + cbn [fst snd]. rewrite join_channel_run.
      cbn [faults store after_requests set_store Store.channel_members Store.set_members].
      rewrite drop_one_tail, Hs2, decide_True by (apply elem_of_app; right; left).
      cbn [fst snd ui_errors store after_requests set_store
           Store.channel_members Store.set_members].
      split_and!; [| done | done |].
      * by rewrite bool_decide_eq_true_2.
      * unfold member_count. cbn [Store.channel_members Store.set_members].
        rewrite filter_snoc_length by done.
        assert (Hz : ¬ (1 ≤ member_count user_id channel_id (store w))%nat)
          by (by rewrite <- member_count_elem).
        unfold member_count in Hz. lia.
Qed.

Lemma join_twice_keeps_one_row_witness :
  (member_count "bob" 1 (store (Examples.small Examples.in_general)) ≤ 1)%nat ∧
  served (Examples.small Examples.in_general) ∧
  served (after_requests 1 (Examples.small Examples.in_general)) ∧
  member_count "bob" 1
    (store (snd (join_channel "bob" 1
                   (snd (join_channel "bob" 1 (Examples.small Examples.in_general))))))
  = 1%nat.
Proof.
  assert (H1 : (member_count "bob" 1 (store (Examples.small Examples.in_general)) ≤ 1)%nat)
    by (vm_compute; lia).
  split; [exact H1|]. split; [reflexivity|]. split; [reflexivity|].
  destruct (join_twice_keeps_one_row (Examples.small Examples.in_general) "bob" 1
              H1 eq_refl eq_refl) as [_ (_ & _ & _ & Hone)].
  exact Hone.
Defined.

(** C8 as stated fails: the second of two joins is not treated as a
    success: [join_channel] answers [False], the answer it also gives when
    the store cannot be reached. *)
Lemma second_join_answers_false :
  fst (join_channel "bob" 1 (Examples.small Examples.in_general)) = Ok true ∧
  fst (join_channel "bob" 1
         (snd (join_channel "bob" 1 (Examples.small Examples.in_general))))
  = Ok false ∧
  fst (join_channel "bob" 1 (Examples.outage Examples.in_general)) = Ok false.
Proof. repeat split; vm_compute; reflexivity. Qed.

End Conflicts.

(** ** The demo overlay *)

Section Overlay.

Lemma send_handler_demo user_id demo u send_button content w :
  is_demo_user demo = true →
  view_mode (session w) = "dm" →
  current_dm_user (session w) = Some u →
  p_id u = Some demo →
  sendable send_button content = true →
  ∃ msg,
    fst (send_direct_message user_id demo content w) = Ok (Some msg) ∧
    send_handler user_id send_button content w =
    (Ok true,
     World (store w) (demo_posted user_id demo msg (session w)) (faults w)
           (requests w) (tl (tl (clock w))) (ui_errors w)).
Proof.
  intros Hdemo Hview Hu Hid Hcond.
  rewrite (send_direct_message_demo _ _ _ _ Hdemo). eexists. split; [reflexivity|].
  unfold send_handler. rewrite Hcond.
  rewrite bind_run. cbn [get_session]. rewrite Hview, Hu.
  destruct (decide ("dm" = "channel")) as [Hneq|_]; [discriminate|].
  destruct (decide ("dm" = "dm")) as [_|Hneq]; [|done].
  rewrite !bind_run. unfold dm_user_id at 1. rewrite Hid. cbv beta iota.
  rewrite bind_run, (send_direct_message_demo _ _ _ _ Hdemo). cbv beta iota.
  rewrite Hdemo. reflexivity.
Qed.

Lemma decorate_elem {A} (author : A → string) attach d fs (xs : list A) y :
  y ∈ decorate author attach d fs xs → ∃ x p, x ∈ xs ∧ y = attach p x.
Proof.
  intros Hy. apply list_elem_of_lookup in Hy as [i Hi].
  apply decorate_lookup in Hi as (x & Hx & ->).
  exists x. eexists. split; [|reflexivity]. apply list_elem_of_lookup. eauto.
Qed.

Lemma direct_rows_elem u o limit d x :
  x ∈ direct_rows u o limit d →
  x ∈ Store.messages d ∧ Store.is_direct_between u o x.
Proof.
  unfold direct_rows. intros Hx.
  apply subseteq_take, order_by_created_at_elem, list_elem_of_filter in Hx. tauto.
Qed.

(** C4: for a demo user, [get_direct_messages], [send_direct_message] and
    the Send handler of the conversation send no request to the store and
    leave its tables as they were; hence after a message was sent to a demo
    user every channel list and every direct list served by the store is what
    it was before. The lists served by the store do not depend on the
    session, where the overlay lives, and every message of a direct list
    served by the store is a row of the table [messages]. *)
Theorem demo_overlay_isolated
    (w : world) (user_id demo other content : string) (limit : nat)
    (channel_id : Z) (send_button : bool) (u : profile) (s' : session_state) :
  is_demo_user demo = true →
  is_demo_user other = false →
  view_mode (session w) = "dm" →
  current_dm_user (session w) = Some u →
  p_id u = Some demo →
  (let w' := snd (get_direct_messages user_id demo limit w) in
   store w' = store w ∧ requests w' = requests w ∧ faults w' = faults w) ∧
  (let w' := snd (send_direct_message user_id demo content w) in
   store w' = store w ∧ requests w' = requests w ∧ faults w' = faults w) ∧
  (let w' := snd (send_handler user_id send_button content w) in
   store w' = store w ∧ requests w' = requests w ∧ faults w' = faults w ∧
   fst (get_channel_messages channel_id limit w')
   = fst (get_channel_messages channel_id limit w) ∧
   fst (get_direct_messages user_id other limit w')
   = fst (get_direct_messages user_id other limit w)) ∧
  fst (get_channel_messages channel_id limit (set_session s' w))
  = fst (get_channel_messages channel_id limit w) ∧
  fst (get_direct_messages user_id other limit (set_session s' w))
  = fst (get_direct_messages user_id other limit w) ∧
  (∃ listed,
     fst (get_direct_messages user_id other limit w) = Ok listed ∧
     ∀ m, m ∈ listed →
       ∃ row p, row ∈ Store.messages (store w) ∧ m = with_profile p row).
Proof.
  intros Hdemo Hother Hview Hu Hid.
  assert (Hsame : ∀ w', store w' = store w → faults w' = faults w →
            fst (get_channel_messages channel_id limit w')
            = fst (get_channel_messages channel_id limit w) ∧
            fst (get_direct_messages user_id other limit w')
            = fst (get_direct_messages user_id other limit w)).
  { intros w' Hst Hfa.
    rewrite !get_channel_messages_run, !(get_direct_messages_run _ _ _ _ Hother).
    rewrite Hst, Hfa. by destruct (hd None (faults w)). }
  split; [by rewrite (get_direct_messages_demo _ _ _ _ Hdemo)|].
  split; [by rewrite (send_direct_message_demo _ _ _ _ Hdemo)|].
  split.
  { cbn zeta.
    assert (Hkeep : let w' := snd (send_handler user_id send_button content w) in
              store w' = store w ∧ requests w' = requests w ∧ faults w' = faults w).
    { destruct (sendable send_button content) eqn:Hcond.
      - destruct (send_handler_demo user_id demo u send_button content w
                    Hdemo Hview Hu Hid Hcond) as (msg & _ & ->). done.
      - unfold send_handler. by rewrite Hcond. }
    destruct Hkeep as (Hst & Hrq & Hfa).
    destruct (Hsame _ Hst Hfa) as [Hc Hd]. done. }
  destruct (Hsame (set_session s' w) eq_refl eq_refl) as [Hc Hd].
  split; [exact Hc|]. split; [exact Hd|].
  rewrite (get_direct_messages_run _ _ _ _ Hother).
  destruct (hd None (faults w)); cbn [fst]; eexists; (split; [reflexivity|]).
  - intros m Hm. by apply elem_of_nil in Hm.
  - intros m Hm. apply decorate_elem in Hm as (row & p & Hrow & ->).
    apply direct_rows_elem in Hrow as [Hrow _]. eauto.
Qed.

Lemma demo_overlay_isolated_witness :
  is_demo_user Examples.alex = true ∧
  is_demo_user "bob" = false ∧
  view_mode (session (Examples.small Examples.with_alex)) = "dm" ∧
  current_dm_user (session (Examples.small Examples.with_alex)) = Some Examples.alex_user ∧
  p_id Examples.alex_user = Some Examples.alex ∧
  store (snd (send_handler "ann" true "hi" (Examples.small Examples.with_alex)))
  = Examples.small_db ∧
  requests (snd (send_handler "ann" true "hi" (Examples.small Examples.with_alex)))
  = 0%nat.
Proof.
  do 5 (split; [reflexivity|]).
  destruct (demo_overlay_isolated (Examples.small Examples.with_alex)
              "ann" Examples.alex "bob" "hi" 50 1 true Examples.alex_user
              Examples.in_general eq_refl eq_refl eq_refl eq_refl eq_refl)
    as (_ & _ & (Hst & Hrq & _) & _).
  split; [exact Hst | exact Hrq].
Defined.

End Overlay.

(** ** Ids made up for the demo conversations *)

Section DemoIds.

(** C10: the id of a message sent to a demo user is ["demo-msg-"] followed
    by the whole second of the clock's reading, and nothing else: two such
    messages sent within the same second, by any users to any demo users and
    with any contents, carry the same id. The ids of the overlay are not
    unique: two messages sent in one second to the same conversation are
    stored side by side under one id. *)
Theorem demo_ids_collide
    (w1 w2 : world) (user1 user2 demo1 demo2 content1 content2 : string) :
  is_demo_user demo1 = true →
  is_demo_user demo2 = true →
  Z.quot (hd 0 (clock w1)) one_second = Z.quot (hd 0 (clock w2)) one_second →
  (∃ m1 m2,
     fst (send_direct_message user1 demo1 content1 w1) = Ok (Some m1) ∧
     fst (send_direct_message user2 demo2 content2 w2) = Ok (Some m2) ∧
     m_id m1
     = TextId ("demo-msg-" ++ str_of_int (Z.quot (hd 0 (clock w1)) one_second))%string ∧
     m_id m2 = m_id m1) ∧
  (∃ m1 m2,
     demo_messages
       (session
          (snd (send_handler "ann" true "second"
                  (snd (send_handler "ann" true "first"
                          (Examples.quiet Examples.with_alex))))))
       !! conversation_key "ann" Examples.alex
     = Some [m1; m2] ∧
     m_content m1 = "first" ∧ m_content m2 = "second" ∧
     m_id m1 = m_id m2).
Proof.
  intros Hd1 Hd2 Hsec. split.
  - rewrite (send_direct_message_demo _ _ _ _ Hd1),
      (send_direct_message_demo _ _ _ _ Hd2).
    do 2 eexists. split; [reflexivity|]. split; [reflexivity|].
    cbn [m_id]. by rewrite Hsec.
  - do 2 eexists. split; [vm_compute; reflexivity|]. done.
Qed.

Lemma demo_ids_collide_witness :
  is_demo_user Examples.alex = true ∧
  is_demo_user "b2c3d4e5-f6g7-8901-bcde-fg2345678901" = true ∧
  Z.quot 1700000000250000 one_second = Z.quot 1700000000900000 one_second ∧
  ∃ m1 m2,
    fst (send_direct_message "ann" Examples.alex "hi"
           (World Examples.empty_db Examples.with_alex [] 0
                  [1700000000250000; 1700000000250100] []))
    = Ok (Some m1) ∧
    fst (send_direct_message "bob" "b2c3d4e5-f6g7-8901-bcde-fg2345678901" "yo"
           (World Examples.empty_db Examples.in_general [] 0
                  [1700000000900000; 1700000000900100] []))
    = Ok (Some m2) ∧
    m_id m1 = TextId "demo-msg-1700000000" ∧
    m_id m2 = m_id m1.
Proof.
  do 3 (split; [reflexivity|]).
  destruct (demo_ids_collide
              (World Examples.empty_db Examples.with_alex [] 0
                     [1700000000250000; 1700000000250100] [])
              (World Examples.empty_db Examples.in_general [] 0
                     [1700000000900000; 1700000000900100] [])
              "ann" "bob" Examples.alex "b2c3d4e5-f6g7-8901-bcde-fg2345678901"
              "hi" "yo" eq_refl eq_refl eq_refl)
    as [(m1 & m2 & H1 & H2 & Hid1 & Hid2) _].
  exists m1, m2. split; [exact H1|]. split; [exact H2|]. split; [|exact Hid2].
  rewrite Hid1. reflexivity.
Defined.

End DemoIds.

(** ** The auto-refresh check and the Send handler *)

Section Sync.




Lemma after_requests_add n m w :
  after_requests n (after_requests m w) = after_requests (m + n) w.
Proof.
  unfold after_requests; cbn [store session faults requests clock ui_errors].
  f_equal; [by rewrite drop_drop | lia].
Qed.

End Sync.

(** ** The order of the lists *)

Section ListingOrder.

Lemma clock_steady_drop (n : nat) (l : list Z) :
  StronglySorted Z.le l ∧ Forall (λ t, greeted ≤ t) l →
  StronglySorted Z.le (drop n l) ∧ Forall (λ t, greeted ≤ t) (drop n l).
Proof.
  intros [Hsorted Hpast]. split.
  - rewrite <- (take_drop n l) in Hsorted.
    by apply StronglySorted_app_1_r in Hsorted.
  - by apply Forall_drop.
Qed.

Lemma decorated_stamps (f : message → profile) (l : list message) :
  m_created_at <$> ((λ msg, with_profile (f msg) msg) <$> l) = m_created_at <$> l.
Proof. rewrite <- list_fmap_compose. by apply list_fmap_ext. Qed.

Lemma demo_greetings_in_time user_id other (ts : list Z) :
  Forall (λ t, greeted ≤ t) ts →
  ascending (demo_greetings user_id other) ∧
  Forall (λ m, Forall (λ t, m_created_at m ≤ t) ts) (demo_greetings user_id other).
Proof.
  intros Hpast. split.
  - unfold ascending, demo_greetings. cbn [fmap list_fmap m_created_at].
    repeat constructor. unfold one_second. lia.
  - unfold demo_greetings.
    repeat (apply Forall_cons_2 || apply Forall_nil_2);
      cbn [m_created_at]; (eapply Forall_impl; [exact Hpast|]);
      intros t Ht; unfold greeted, one_second in *; cbn beta in *; lia.
Qed.

(** Under a steady clock a read of the overlay shows a conversation in the
    order of its stamps, and leaves the overlay in time. *)
Lemma overlay_read_in_time user_id demo (w : world) :
  clock_steady w → overlay_in_time w →
  ascending (demo_view user_id demo (session w)) ∧
  clock_steady (store_demo_view user_id demo w) ∧
  overlay_in_time (store_demo_view user_id demo w).
Proof.
  intros [Hsorted Hpast] Hin.
  assert (Hview : ascending (demo_view user_id demo (session w)) ∧
            Forall (λ m, Forall (λ t, m_created_at m ≤ t) (clock w))
                   (demo_view user_id demo (session w))).
  { assert (Hstored : ascending (demo_stored user_id demo (session w)) ∧
              Forall (λ m, Forall (λ t, m_created_at m ≤ t) (clock w))
                     (demo_stored user_id demo (session w))).
    { unfold demo_stored.
      destruct (demo_messages (session w) !! conversation_key user_id demo)
        as [l|] eqn:Hl; [by apply (Hin _ _ Hl)|].
      by apply demo_greetings_in_time. }
    destruct Hstored as [Hasc Hbound]. unfold demo_view, ascending. split.
    - by rewrite decorated_stamps.
    - apply Forall_fmap. eapply Forall_impl; [exact Hbound|]. by intros m Hm. }
  split; [apply Hview|]. split; [done|].
  intros key l. unfold store_demo_view.
  cbn [session set_session demo_messages set_demo_messages clock].
  destruct (decide (key = conversation_key user_id demo)) as [->|Hne].
  - rewrite lookup_insert_eq. by intros [= <-].
  - rewrite lookup_insert_ne by done. apply Hin.
Qed.

(** What the Send handler does to the clock and to the overlay: nothing,
    or two readings are taken and a message stamped with the second one is
    put at the end of one conversation. *)
Lemma send_handler_overlay user_id send_button content (w : world) :
  let w' := snd (send_handler user_id send_button content w) in
  (clock w' = clock w ∧
   demo_messages (session w') = demo_messages (session w)) ∨
  (∃ key msg,
     m_created_at msg = hd 0 (tl (clock w)) ∧
     clock w' = tl (tl (clock w)) ∧
     demo_messages (session w')
     = <[key := (default [] (demo_messages (session w) !! key) ++ [msg])%list]>
         (demo_messages (session w))).
Proof.
  cbv zeta.
  assert (Hw : ∃ w', snd (send_handler user_id send_button content w) = w' ∧
            ((clock w' = clock w ∧
              demo_messages (session w') = demo_messages (session w)) ∨
             (∃ key msg,
                m_created_at msg = hd 0 (tl (clock w)) ∧
                clock w' = tl (tl (clock w)) ∧
                demo_messages (session w')
                = <[key := (default [] (demo_messages (session w) !! key)
                            ++ [msg])%list]>
                    (demo_messages (session w))))).
  { unfold send_handler.
    destruct (sendable send_button content) eqn:Hcond;
      [|eexists; split; [reflexivity|by left]].
    rewrite bind_run. cbn [get_session].
    destruct (if decide (view_mode (session w) = "channel")
              then current_channel (session w) else None) as [ch|].
    { rewrite bind_run, send_message_run.
      destruct (hd None (faults w)); eexists; (split; [reflexivity|by left]). }
    destruct (if decide (view_mode (session w) = "dm")
              then current_dm_user (session w) else None) as [u|];
      [|eexists; split; [reflexivity|by left]].
    rewrite !bind_run. unfold dm_user_id at 1.
    destruct (p_id u) as [i|]; cbv beta iota;
      [|eexists; split; [reflexivity|by left]].
    rewrite bind_run.
    destruct (is_demo_user i) eqn:Hdemo.
    - rewrite (send_direct_message_demo _ _ _ _ Hdemo).
      cbv beta iota.
      eexists. split; [reflexivity|]. right.
      eexists (conversation_key user_id i), _.
      split; [|split].
      3: reflexivity.
      all: reflexivity.
    - rewrite (send_direct_message_run _ _ _ _ Hdemo).
      destruct (hd None (faults w)); cbv beta iota zeta; rewrite ?Hdemo;
        eexists; (split; [reflexivity|by left]). }
  by destruct Hw as (w' & -> & Hw).
Qed.

(** Under a steady clock with two readings to come, the Send handler
    leaves the overlay in time. *)
Lemma overlay_send_in_time user_id send_button content (w : world) :
  clock_steady w → overlay_in_time w → (2 ≤ length (clock w))%nat →
  clock_steady (snd (send_handler user_id send_button content w)) ∧
  overlay_in_time (snd (send_handler user_id send_button content w)).
Proof.
  intros Hsteady Hin Hlen.
  destruct (send_handler_overlay user_id send_button content w)
    as [[Hclock Hdemo]|(key & msg & Hstamp & Hclock & Hdemo)];
    cbv zeta in *; unfold clock_steady, overlay_in_time in *;
    rewrite Hclock, Hdemo; [done|].
  clear Hclock Hdemo. revert Hsteady Hin Hlen Hstamp.
  destruct (clock w) as [|t1 [|t2 ts]]; intros [Hsorted Hpast] Hin Hlen Hstamp;
    cbn in Hlen; try lia.
  cbn [tl hd] in *.
  apply StronglySorted_inv in Hsorted as [Hsorted _].
  apply StronglySorted_inv in Hsorted as [Hsorted Hlater].
  apply Forall_cons in Hpast as [_ Hpast]. apply Forall_cons in Hpast as [_ Hpast].
  split; [done|]. intros key' l.
  destruct (decide (key' = key)) as [->|Hne];
    [rewrite lookup_insert_eq|rewrite lookup_insert_ne by done].
  - intros [= <-].
    assert (Hold : ascending (default [] (demo_messages (session w) !! key)) ∧
              Forall (λ m, Forall (λ t, m_created_at m ≤ t) (t1 :: t2 :: ts))
                     (default [] (demo_messages (session w) !! key))).
    { destruct (demo_messages (session w) !! key) as [l|] eqn:Hl;
        [by apply (Hin _ _ Hl)|].
      split; [constructor|constructor]. }
    destruct Hold as [Hasc Hbound]. split.
    + unfold ascending. rewrite fmap_app. apply StronglySorted_app.
      split; [|split; [done|cbn; repeat constructor]].
      intros x y Hx [->|[]%elem_of_nil]%elem_of_cons.
      apply list_elem_of_fmap in Hx as (m & -> & Hm).
      rewrite Hstamp. rewrite Forall_forall in Hbound.
      specialize (Hbound m Hm). rewrite Forall_forall in Hbound.
      apply Hbound. right. left.
    + apply Forall_app. split.
      * eapply Forall_impl; [exact Hbound|]. intros m Hm.
        apply Forall_cons in Hm as [_ Hm]. by apply Forall_cons in Hm as [_ Hm].
      * apply Forall_cons_2; [|apply Forall_nil_2]. by rewrite Hstamp.
  - intros Hl. destruct (Hin _ _ Hl) as [Hasc Hbound]. split; [done|].
    eapply Forall_impl; [exact Hbound|]. intros m Hm.
    apply Forall_cons in Hm as [_ Hm]. by apply Forall_cons in Hm as [_ Hm].
Qed.

Lemma overlay_in_time_later (n : nat) (w w' : world) :
  demo_messages (session w') = demo_messages (session w) →
  clock w' = drop n (clock w) →
  clock_steady w → overlay_in_time w →
  clock_steady w' ∧ overlay_in_time w'.
Proof.
  intros Hsession Hclock Hsteady Hin. unfold clock_steady, overlay_in_time.
  rewrite Hsession, Hclock. split; [by apply clock_steady_drop|].
  intros key l Hl. destruct (Hin _ _ Hl) as [Hasc Hbound]. split; [done|].
  eapply Forall_impl; [exact Hbound|]. intros m Hm. by apply Forall_drop.
Qed.

(** C5, as the code has it: the lists answered from the store
    ([get_channel_messages], and [get_direct_messages] for a counterpart that
    is not a demo user) are non-decreasing in [created_at] and hold at most
    [limit] messages, and a second call right after the first, with the
    store reachable, answers the same list. For a demo user
    [get_direct_messages] answers the whole conversation of the overlay,
    whatever [limit] is, and a second call answers the same list; that list
    too is non-decreasing in [created_at] as long as the clock is past the
    greetings and does not run backwards: a session that opened no demo
    conversation is in time, and a read of the overlay, the Send handler
    (with its two readings of the clock to come) and whatever else reads
    the clock and leaves the overlay alone keep it so. *)
Theorem listings_ordered_and_repeatable
    (w : world) (channel_id : Z) (user_id other demo : string) (limit : nat) :
  is_demo_user other = false →
  is_demo_user demo = true →
  (∃ listed,
     fst (get_channel_messages channel_id limit w) = Ok listed ∧
     ascending listed ∧ (length listed ≤ limit)%nat) ∧
  (∃ listed,
     fst (get_direct_messages user_id other limit w) = Ok listed ∧
     ascending listed ∧ (length listed ≤ limit)%nat) ∧
  (faults w = [] →
     fst (get_channel_messages channel_id limit
            (snd (get_channel_messages channel_id limit w)))
     = fst (get_channel_messages channel_id limit w) ∧
     fst (get_direct_messages user_id other limit
            (snd (get_direct_messages user_id other limit w)))
     = fst (get_direct_messages user_id other limit w)) ∧
  (fst (get_direct_messages user_id demo limit w)
     = Ok (demo_view user_id demo (session w)) ∧
   length (demo_view user_id demo (session w))
     = length (demo_stored user_id demo (session w)) ∧
   fst (get_direct_messages user_id demo limit
          (snd (get_direct_messages user_id demo limit w)))
     = fst (get_direct_messages user_id demo limit w)) ∧
  (demo_messages (session w) = ∅ → overlay_in_time w) ∧
  (clock_steady w → overlay_in_time w →
   (∃ listed,
      fst (get_direct_messages user_id demo limit w) = Ok listed ∧
      ascending listed) ∧
   clock_steady (snd (get_direct_messages user_id demo limit w)) ∧
   overlay_in_time (snd (get_direct_messages user_id demo limit w)) ∧
   ((2 ≤ length (clock w))%nat →
    ∀ send_button content,
      clock_steady (snd (send_handler user_id send_button content w)) ∧
      overlay_in_time (snd (send_handler user_id send_button content w))) ∧
   (∀ (n : nat) (w' : world),
      demo_messages (session w') = demo_messages (session w) →
      clock w' = drop n (clock w) →
      clock_steady w' ∧ overlay_in_time w')).
Proof.
  intros Hother Hdemo. split_and!.
  - rewrite get_channel_messages_run.
    destruct (hd None (faults w)); cbn [fst]; eexists; (split; [reflexivity|]).
    + split; [constructor | cbn; lia].
    + split; [apply decorate_ascending, channel_rows_ascending|].
      rewrite decorate_length. unfold channel_rows. rewrite length_take. lia.
  - rewrite (get_direct_messages_run _ _ _ _ Hother).
    destruct (hd None (faults w)); cbn [fst]; eexists; (split; [reflexivity|]).
    + split; [constructor | cbn; lia].
    + split; [apply decorate_ascending, direct_rows_ascending|].
      rewrite decorate_length. unfold direct_rows. rewrite length_take. lia.
  - intros Hfaults. split.
    + rewrite !get_channel_messages_run. rewrite Hfaults. cbn [hd snd fst].
      rewrite faults_after_requests by done. reflexivity.
    + rewrite !(get_direct_messages_run _ _ _ _ Hother). rewrite Hfaults.
      cbn [hd snd fst]. rewrite faults_after_requests by done. reflexivity.
  - by rewrite (get_direct_messages_demo _ _ _ _ Hdemo).
  - unfold demo_view. by rewrite length_fmap.
  - rewrite !(get_direct_messages_demo _ _ _ _ Hdemo). cbn [fst snd].
    by rewrite demo_view_again.
  - intros Hempty key l. rewrite Hempty, lookup_empty. discriminate.
  - intros Hsteady Hin.
    rewrite (get_direct_messages_demo _ _ _ _ Hdemo). cbn [fst snd].
    destruct (overlay_read_in_time user_id demo w Hsteady Hin)
      as (Hasc & Hsteady' & Hin').
    split_and!; try done.
    + by eexists.
    + intros Hlen send_button content. by apply overlay_send_in_time.
    + intros n w' Hsession Hclock. by apply (overlay_in_time_later n w).
Qed.

Lemma listings_ordered_and_repeatable_witness :
  let w := World Examples.small_db Examples.with_alex [] 0
                 [greeted + 5; greeted + 6; greeted + 6] [] in
  is_demo_user "bob" = false ∧
  is_demo_user Examples.alex = true ∧
  clock_steady w ∧ overlay_in_time w ∧
  (∃ listed,
     fst (get_channel_messages 1 50 w) = Ok listed ∧
     m_created_at <$> listed = [10; 20] ∧
     ascending listed) ∧
  (∃ listed,
     fst (get_direct_messages "ann" Examples.alex 50
            (snd (send_handler "ann" true "hi"
                    (snd (get_direct_messages "ann" Examples.alex 50 w)))))
     = Ok listed ∧
     m_created_at <$> listed
     = [1705312800 * one_second; greeted; greeted + 6] ∧
     ascending listed).
Proof.
  cbv zeta.
  set (w := World Examples.small_db Examples.with_alex [] 0
                  [greeted + 5; greeted + 6; greeted + 6] []).
  assert (Hsteady : clock_steady w).
  { split; cbn [clock w].
    - repeat constructor; lia.
    - repeat constructor; lia. }
  pose proof (listings_ordered_and_repeatable w 1 "ann" "bob" Examples.alex 50
                eq_refl eq_refl) as (Hchannel & _ & _ & _ & Hfresh & Horder).
  pose proof (Hfresh eq_refl) as Hin.
  split; [reflexivity|]. split; [reflexivity|].
  split; [exact Hsteady|]. split; [exact Hin|]. split.
  - destruct Hchannel as (listed & Hrun & Hasc & _).
    exists listed. split; [exact Hrun|]. split; [|exact Hasc].
    vm_compute in Hrun. injection Hrun as <-. reflexivity.
  - destruct (Horder Hsteady Hin) as (_ & Hsteady1 & Hin1 & _).
    set (w1 := snd (get_direct_messages "ann" Examples.alex 50 w)) in *.
    pose proof (listings_ordered_and_repeatable w1 1 "ann" "bob" Examples.alex
                  50 eq_refl eq_refl) as (_ & _ & _ & _ & _ & Horder1).
    destruct (Horder1 Hsteady1 Hin1) as (_ & _ & _ & Hsend & _).
    assert (Hlen : (2 ≤ length (clock w1))%nat) by (vm_compute; lia).
    destruct (Hsend Hlen true "hi") as [Hsteady2 Hin2].
    set (w2 := snd (send_handler "ann" true "hi" w1)) in *.
    pose proof (listings_ordered_and_repeatable w2 1 "ann" "bob" Examples.alex
                  50 eq_refl eq_refl) as (_ & _ & _ & _ & _ & Horder2).
    destruct (Horder2 Hsteady2 Hin2) as ((listed & Hrun & Hasc) & _).
    exists listed. split; [exact Hrun|]. split; [|exact Hasc].
    vm_compute in Hrun. injection Hrun as <-. vm_compute. reflexivity.
Defined.

(** C5 as stated fails. After 49 messages sent to the demo user Alex, the
    list of that conversation, asked with the default limit of 50, holds 51
    messages. And when the clock runs backwards between two messages sent
    to Alex, the second one is listed after the first with an earlier
    [created_at]. *)
Lemma demo_list_exceeds_limit :
  (∃ listed,
     fst (get_direct_messages "ann" Examples.alex 50
            (Examples.chat "ann" 49 (Examples.quiet Examples.with_alex)))
     = Ok listed ∧
     length listed = 51%nat ∧ ¬ (length listed ≤ 50)%nat) ∧
  (∃ listed,
     fst (get_direct_messages "ann" Examples.alex 50
            (Examples.chat "ann" 2
               (World Examples.empty_db Examples.with_alex [] 0
                      [greeted + 10; greeted + 10; greeted + 5; greeted + 5] [])))
     = Ok listed ∧
     m_created_at <$> listed
     = [1705312800 * one_second; greeted; greeted + 10; greeted + 5] ∧
     ¬ ascending listed).
Proof.
  split.
  - eexists. split; [vm_compute; reflexivity|].
    split; [reflexivity | cbn; lia].
  - eexists. split; [vm_compute; reflexivity|].
    split; [vm_compute; reflexivity|].
    unfold ascending. cbn [fmap list_fmap m_created_at with_profile].
    intros Hsorted.
    apply StronglySorted_inv in Hsorted as [Hsorted _].
    apply StronglySorted_inv in Hsorted as [Hsorted _].
    apply StronglySorted_inv in Hsorted as [_ Hlater].
    apply Forall_cons in Hlater as [Hlater _]. lia.
Qed.

End ListingOrder.

(** ** Conversations kept apart *)

Section Conversations.

Lemma is_direct_between_sym u o m :
  Store.is_direct_between u o m ↔ Store.is_direct_between o u m.
Proof. unfold Store.is_direct_between. tauto. Qed.

Lemma direct_rows_sym u o limit d : direct_rows u o limit d = direct_rows o u limit d.
Proof.
  unfold direct_rows. f_equal. f_equal.
  apply list_filter_iff. intros m. apply is_direct_between_sym.
Qed.

(** X1: both parties of a direct conversation served by the store are
    shown the same list. *)
Theorem direct_messages_symmetric (w : world) (a b : string) (limit : nat) :
  is_demo_user a = false →
  is_demo_user b = false →
  fst (get_direct_messages a b limit w) = fst (get_direct_messages b a limit w).
Proof.
  intros Ha Hb.
  rewrite (get_direct_messages_run _ _ _ _ Hb), (get_direct_messages_run _ _ _ _ Ha).
  destruct (hd None (faults w)); [done|]. cbn [fst].
  by rewrite direct_rows_sym.
Qed.

Lemma direct_messages_symmetric_witness :
  is_demo_user "ghost" = false ∧
  is_demo_user "ann" = false ∧
  fst (get_direct_messages "ghost" "ann" 50 (Examples.small Examples.in_general))
  = fst (get_direct_messages "ann" "ghost" 50 (Examples.small Examples.in_general)).
Proof.
  split; [reflexivity|]. split; [reflexivity|].
  apply (direct_messages_symmetric (Examples.small Examples.in_general)
           "ghost" "ann" 50 eq_refl eq_refl).
Defined.

Lemma channel_rows_other channel_id limit row d :
  m_channel_id row ≠ Some channel_id →
  channel_rows channel_id limit (Store.add_message row d)
  = channel_rows channel_id limit d.
Proof.
  intros Hrow. unfold channel_rows, Store.add_message. cbn [Store.messages].
  by rewrite filter_app, filter_cons, decide_False, filter_nil, app_nil_r.
Qed.

Lemma direct_rows_other a b limit row d :
  ¬ Store.is_direct_between a b row →
  direct_rows a b limit (Store.add_message row d) = direct_rows a b limit d.
Proof.
  intros Hrow. unfold direct_rows, Store.add_message. cbn [Store.messages].
  by rewrite filter_app, filter_cons, decide_False, filter_nil, app_nil_r.
Qed.

(** What the lists answer on a reachable store after one more row. *)
Lemma channel_list_after_row channel_id limit row w :
  faults w = [] →
  fst (get_channel_messages channel_id limit
         (set_store (Store.add_message row (store w)) (after_requests 1 w)))
  = Ok (decorate m_user_id with_profile (store w) []
          (channel_rows channel_id limit (Store.add_message row (store w)))).
Proof.
  intros Hf. rewrite get_channel_messages_run.
  cbn [faults set_store after_requests store]. rewrite Hf. cbn [drop hd fst tl].
  f_equal. by apply decorate_same_profiles.
Qed.

Lemma direct_list_after_row a b limit row w :
  faults w = [] →
  is_demo_user b = false →
  fst (get_direct_messages a b limit
         (set_store (Store.add_message row (store w)) (after_requests 1 w)))
  = Ok (decorate m_user_id with_profile (store w) []
          (direct_rows a b limit (Store.add_message row (store w)))).
Proof.
  intros Hf Hb. rewrite (get_direct_messages_run _ _ _ _ Hb).
  cbn [faults set_store after_requests store]. rewrite Hf. cbn [drop hd fst tl].
  f_equal. by apply decorate_same_profiles.
Qed.

Lemma channel_list_reachable channel_id limit w :
  faults w = [] →
  fst (get_channel_messages channel_id limit w)
  = Ok (decorate m_user_id with_profile (store w) []
          (channel_rows channel_id limit (store w))).
Proof. intros Hf. rewrite get_channel_messages_run, Hf. done. Qed.

Lemma direct_list_reachable a b limit w :
  faults w = [] →
  is_demo_user b = false →
  fst (get_direct_messages a b limit w)
  = Ok (decorate m_user_id with_profile (store w) []
          (direct_rows a b limit (store w))).
Proof. intros Hf Hb. rewrite (get_direct_messages_run _ _ _ _ Hb), Hf. done. Qed.

(** X2: with the store reachable, a message sent to a channel changes the
    list of no other channel and of no direct conversation. *)
Theorem channel_post_stays_in_channel
    (w : world) (user_id content a b : string) (channel_id other_channel : Z)
    (limit : nat) :
  faults w = [] →
  other_channel ≠ channel_id →
  let w' := snd (send_message user_id channel_id content w) in
  fst (get_channel_messages other_channel limit w')
  = fst (get_channel_messages other_channel limit w) ∧
  fst (get_direct_messages a b limit w') = fst (get_direct_messages a b limit w).
Proof.
  intros Hf Hne. cbn zeta.
  rewrite send_message_run, Hf. cbn [hd snd]. split.
  - rewrite channel_list_after_row, channel_list_reachable by done.
    rewrite channel_rows_other; [done|]. cbn. congruence.
  - destruct (is_demo_user b) eqn:Hb.
    + by rewrite !(get_direct_messages_demo _ _ _ _ Hb).
    + rewrite direct_list_after_row, direct_list_reachable by done.
      rewrite direct_rows_other; [done|].
      unfold Store.is_direct_between. cbn. intros [? _]. done.
Qed.

Lemma channel_post_stays_in_channel_witness :
  faults (Examples.small Examples.in_general) = [] ∧
  (2 : Z) ≠ 1 ∧
  fst (get_channel_messages 2 50
         (snd (send_message "ann" 1 "hi" (Examples.small Examples.in_general))))
  = fst (get_channel_messages 2 50 (Examples.small Examples.in_general)).
Proof.
  assert (Hne : (2 : Z) ≠ 1) by discriminate.
  split; [reflexivity|]. split; [exact Hne|].
  apply (channel_post_stays_in_channel (Examples.small Examples.in_general)
           "ann" "hi" "ghost" "ann" 1 2 50 eq_refl Hne).
Defined.

(** X3: with the store reachable, a direct message sent to a user served by
    the store changes the list of no channel and of no direct conversation
    between other pairs of users. *)
Theorem direct_post_stays_in_pair
    (w : world) (user_id recipient content a b : string) (channel_id : Z)
    (limit : nat) :
  faults w = [] →
  is_demo_user recipient = false →
  ¬ ((a = user_id ∧ b = recipient) ∨ (a = recipient ∧ b = user_id)) →
  let w' := snd (send_direct_message user_id recipient content w) in
  fst (get_channel_messages channel_id limit w')
  = fst (get_channel_messages channel_id limit w) ∧
  fst (get_direct_messages a b limit w') = fst (get_direct_messages a b limit w).
Proof.
  intros Hf Hr Hpair. cbn zeta.
  rewrite (send_direct_message_run _ _ _ _ Hr), Hf. cbn [hd snd]. split.
  - rewrite channel_list_after_row, channel_list_reachable by done.
    rewrite channel_rows_other; [done|]. cbn. discriminate.
  - destruct (is_demo_user b) eqn:Hb.
    + by rewrite !(get_direct_messages_demo _ _ _ _ Hb).
    + rewrite direct_list_after_row, direct_list_reachable by done.
      rewrite direct_rows_other; [done|].
      unfold Store.is_direct_between. cbn.
      intros [_ [[<- [= <-]]|[<- [= <-]]]]; tauto.
Qed.

Lemma direct_post_stays_in_pair_witness :
  faults (Examples.small Examples.in_general) = [] ∧
  is_demo_user "bob" = false ∧
  fst (get_direct_messages "ghost" "ann" 50
         (snd (send_direct_message "ann" "bob" "hi" (Examples.small Examples.in_general))))
  = fst (get_direct_messages "ghost" "ann" 50 (Examples.small Examples.in_general)).
Proof.
  split; [reflexivity|]. split; [reflexivity|].
  apply (direct_post_stays_in_pair (Examples.small Examples.in_general)
           "ann" "bob" "hi" "ghost" "ann" 1 50 eq_refl eq_refl).
  intros [[H _]|[H _]]; discriminate H.
Defined.

End Conversations.

(** ** What the write functions store *)

Section Writes.

Lemma send_message_store user_id channel_id content w :
  store (snd (send_message user_id channel_id content w)) = store w ∨
  ∃ row,
    store (snd (send_message user_id channel_id content w))
    = Store.add_message row (store w) ∧
    well_scoped row ∧ m_user_id row = user_id ∧ m_content row = strip content.
Proof.
  rewrite send_message_run. destruct (hd None (faults w)); [by left|].
  right. eexists. split; [reflexivity|]. split; [|done].
  left. cbn. eauto.
Qed.

Lemma send_direct_message_store user_id recipient content w :
  store (snd (send_direct_message user_id recipient content w)) = store w ∨
  ∃ row,
    store (snd (send_direct_message user_id recipient content w))
    = Store.add_message row (store w) ∧
    well_scoped row ∧ m_user_id row = user_id ∧ m_content row = strip content.
Proof.
  destruct (is_demo_user recipient) eqn:Hdemo.
  - rewrite (send_direct_message_demo _ _ _ _ Hdemo). by left.
  - rewrite (send_direct_message_run _ _ _ _ Hdemo).
    destruct (hd None (faults w)); [by left|].
    right. eexists. split; [reflexivity|]. split; [|done].
    right. cbn. eauto.
Qed.

Lemma send_handler_store user_id send_button content w :
  store (snd (send_handler user_id send_button content w)) = store w ∨
  ∃ row,
    store (snd (send_handler user_id send_button content w))
    = Store.add_message row (store w) ∧
    well_scoped row ∧ m_user_id row = user_id ∧ m_content row = strip content.
Proof.
  assert (Hd : ∃ d, store (snd (send_handler user_id send_button content w)) = d ∧
            (d = store w ∨
             ∃ row, d = Store.add_message row (store w) ∧
                    well_scoped row ∧ m_user_id row = user_id ∧
                    m_content row = strip content)).
  { unfold send_handler.
    destruct (sendable send_button content); [|eexists; split; [reflexivity|by left]].
    rewrite bind_run. cbn [get_session].
    destruct (if decide (view_mode (session w) = "channel")
              then current_channel (session w) else None) as [ch|].
    { rewrite bind_run.
      pose proof (send_message_store user_id (c_id ch) content w) as Hs.
      destruct (send_message user_id (c_id ch) content w) as [[[msg|]|e] w1];
        cbn [snd] in Hs; eexists; (split; [reflexivity|exact Hs]). }
    destruct (if decide (view_mode (session w) = "dm")
              then current_dm_user (session w) else None) as [u|];
      [|eexists; split; [reflexivity|by left]].
    rewrite !bind_run. unfold dm_user_id at 1.
    destruct (p_id u) as [i|]; [|eexists; split; [reflexivity|by left]].
    cbv beta iota. rewrite bind_run.
    pose proof (send_direct_message_store user_id i content w) as Hs.
    destruct (send_direct_message user_id i content w) as [[[msg|]|e] w1];
      cbn [snd] in Hs; cbv beta iota; destruct (is_demo_user i);
      eexists; (split; [reflexivity|exact Hs]). }
  destruct Hd as (d & Hd & [->|(row & -> & Hrow)]); [by left|].
  right. by exists row.
Qed.

(** X4: the write functions keep every message in one scope: if each row
    of [messages] belongs either to a channel or to a pair of users, so does
    each row after [send_message], after [send_direct_message] and after the
    Send handler of the page, whatever they were given and whether or not
    the store could be reached. *)
Theorem writes_keep_messages_scoped
    (w : world) (user_id recipient content : string) (channel_id : Z)
    (send_button : bool) :
  Forall well_scoped (Store.messages (store w)) →
  Forall well_scoped
    (Store.messages (store (snd (send_message user_id channel_id content w)))) ∧
  Forall well_scoped
    (Store.messages (store (snd (send_direct_message user_id recipient content w)))) ∧
  Forall well_scoped
    (Store.messages (store (snd (send_handler user_id send_button content w)))).
Proof.
  intros Hall.
  assert (Hstep : ∀ d, d = store w ∨
            (∃ row, d = Store.add_message row (store w) ∧
                    well_scoped row ∧ m_user_id row = user_id ∧
                    m_content row = strip content) →
            Forall well_scoped (Store.messages d)).
  { intros d [->|(row & -> & Hrow & _)]; [done|].
    cbn. apply Forall_app. split; [done|]. by constructor. }
  split_and!; apply Hstep.
  - apply send_message_store.
  - apply send_direct_message_store.
  - apply send_handler_store.
Qed.

Lemma writes_keep_messages_scoped_witness :
  Forall well_scoped (Store.messages (store (Examples.small Examples.in_general))) ∧
  Forall well_scoped
    (Store.messages
       (store (snd (send_handler "ann" true " hi " (Examples.small Examples.in_general))))).
Proof.
  assert (H : Forall well_scoped
                (Store.messages (store (Examples.small Examples.in_general)))).
  { apply Forall_forall. intros m Hm. cbn in Hm.
    rewrite !elem_of_cons, elem_of_nil in Hm.
    destruct Hm as [->|[->|[->|[]]]];
      first [ left; split; [by eexists | reflexivity]
            | right; split; [reflexivity | by eexists] ]. }
  split; [exact H|].
  apply (writes_keep_messages_scoped (Examples.small Examples.in_general)
           "ann" "bob" " hi " 1 true H).
Defined.

End Writes.

(** ** Users and memberships *)

Section Listing.

Lemma demo_users_ids p : p ∈ demo_users → ∃ i, p_id p = Some i ∧ is_demo_user i = true.
Proof.
  unfold demo_users. rewrite !elem_of_cons, elem_of_nil.
  intros [->|[->|[]]]; eexists; (split; [reflexivity|]); reflexivity.
Qed.

(** X5: the user list asked with an id to leave out never holds a user of
    that id, provided the store is reached or the id is not one of the demo
    users (the fallback list is not filtered); unless the id left out is a
    demo user, both demo users are in the list, reachable store or not. An
    empty id leaves nobody out. *)
Theorem user_list_leaves_caller_out (w : world) (exclude : string) :
  truthy exclude = true →
  served w ∨ is_demo_user exclude = false →
  (∃ listed,
     fst (get_all_users (Some exclude) w) = Ok listed ∧
     (∀ p, p ∈ listed → p_id p ≠ Some exclude) ∧
     (is_demo_user exclude = false → ∀ p, p ∈ demo_users → p ∈ listed)) ∧
  get_all_users (Some "") w = get_all_users None w.
Proof.
  intros Hx Hor. split; [|reflexivity].
  rewrite get_all_users_run. unfold given. rewrite Hx.
  assert (Hdemo : is_demo_user exclude = false →
            ∀ p, p ∈ demo_users → p_id p ≠ Some exclude).
  { intros Hnot p Hp Heq. apply demo_users_ids in Hp as (i & Hi & Hd).
    congruence. }
  destruct (hd None (faults w)) as [e|] eqn:Hf; cbn [fst]; eexists;
    (split; [reflexivity|]); split.
  - destruct Hor as [Hs|Hnot]; [unfold served in Hs; congruence|]. auto.
  - done.
  - intros p Hp. apply elem_of_app in Hp as [Hp|Hp];
      apply list_elem_of_filter in Hp as [Hid Hp]; [|done].
    unfold Store.id_other_than in Hid. destruct (p_id p); [congruence|done].
  - intros Hnot p Hp. apply elem_of_app. right.
    apply list_elem_of_filter. auto.
Qed.

Lemma user_list_leaves_caller_out_witness :
  truthy "ann" = true ∧
  (served (Examples.small Examples.in_general) ∨ is_demo_user "ann" = false) ∧
  ∃ listed,
    fst (get_all_users (Some "ann") (Examples.small Examples.in_general)) = Ok listed ∧
    ∀ p, p ∈ listed → p_id p ≠ Some "ann".
Proof.
  split; [reflexivity|]. split; [left; reflexivity|].
  destruct (user_list_leaves_caller_out (Examples.small Examples.in_general) "ann"
              eq_refl (or_introl eq_refl)) as [(listed & Hrun & Hout & _) _].
  exists listed. split; [exact Hrun | exact Hout].
Defined.

(** X6: [get_user_channels] lists only channels the user is a member of;
    and once [join_channel] was served for a channel of the table, the next
    served [get_user_channels] lists that channel, whether the user was a
    member before or not. *)
Theorem joined_channel_is_listed (w : world) (user_id : string) (ch : channel) :
  served w →
  served (after_requests 1 w) →
  ch ∈ Store.channels (store w) →
  (∃ listed,
     fst (get_user_channels user_id w) = Ok listed ∧
     ∀ c, c ∈ listed → Member user_id (c_id c) ∈ Store.channel_members (store w)) ∧
  (∃ listed,
     fst (get_user_channels user_id (snd (join_channel user_id (c_id ch) w)))
     = Ok listed ∧
     ch ∈ listed).
Proof.
  intros Hs1 Hs2 Hch. unfold served in *.
  assert (Hd : faults (after_requests 1 w) = tl (faults w)) by apply drop_one_tail.
  rewrite Hd in Hs2. split.
  - rewrite get_user_channels_run, Hs1. eexists. split; [reflexivity|].
    intros c Hc. by apply list_elem_of_filter in Hc as [Hm _].
  - rewrite join_channel_run, Hs1.
    destruct (decide (Member user_id (c_id ch) ∈ Store.channel_members (store w)))
      as [Hin|Hnot]; cbn [snd]; rewrite get_user_channels_run;
      cbn [faults after_requests set_store store]; rewrite drop_one_tail, Hs2;
      (eexists; split; [reflexivity|]); apply list_elem_of_filter; (split; [|done]).
    + done.
    + cbn. apply elem_of_app. right. left.
Qed.

Lemma joined_channel_is_listed_witness :
  served (Examples.small Examples.in_general) ∧
  served (after_requests 1 (Examples.small Examples.in_general)) ∧
  Examples.general ∈ Store.channels (store (Examples.small Examples.in_general)) ∧
  ∃ listed,
    fst (get_user_channels "bob"
           (snd (join_channel "bob" 1 (Examples.small Examples.in_general))))
    = Ok listed ∧
    Examples.general ∈ listed.
Proof.
  assert (Hch : Examples.general
                ∈ Store.channels (store (Examples.small Examples.in_general)))
    by left.
  split; [reflexivity|]. split; [reflexivity|]. split; [exact Hch|].
  destruct (joined_channel_is_listed (Examples.small Examples.in_general) "bob"
              Examples.general eq_refl eq_refl Hch) as [_ Hlisted].
  exact Hlisted.
Defined.

End Listing.

(** ** Reactions: adding, listing, removing *)

Section ReactionTrips.

Lemma decorate_keeps {A} (author : A → string) attach d fs (xs : list A) x :
  x ∈ xs → ∃ p, attach p x ∈ decorate author attach d fs xs.
Proof.
  intros Hx. apply list_elem_of_lookup in Hx as [i Hi].
  eexists. apply list_elem_of_lookup. exists i.
  apply decorate_lookup. eauto.
Qed.

Lemma add_reaction_served message_id user_id emoji w :
  hd None (faults w) = None →
  faults (snd (add_reaction message_id user_id emoji w)) = tl (faults w) ∧
  Exists (Store.same_reaction message_id user_id emoji)
         (Store.message_reactions (store (snd (add_reaction message_id user_id emoji w)))).
Proof.
  intros Hs. rewrite add_reaction_run, Hs.
  destruct (decide _) as [Hex|Hex]; cbn [snd]; (split; [apply drop_one_tail|]).
  - done.
  - cbn. apply Exists_app. right. by left.
Qed.

(** X7: once [add_reaction] was served, the next served
    [get_message_reactions] of the message lists a reaction of that user with
    that emoji; once [remove_reaction] was served, it lists none. *)
Theorem reaction_listed_after_add
    (w : world) (message_id : ident) (user_id emoji : string) :
  served w →
  served (after_requests 1 w) →
  (∃ listed,
     fst (get_message_reactions message_id
            (snd (add_reaction message_id user_id emoji w))) = Ok listed ∧
     ∃ r, r ∈ listed ∧ r_message_id r = message_id ∧
          r_user_id r = user_id ∧ r_emoji r = emoji) ∧
  (∃ listed,
     fst (get_message_reactions message_id
            (snd (remove_reaction message_id user_id emoji w))) = Ok listed ∧
     ∀ r, r ∈ listed → ¬ (r_user_id r = user_id ∧ r_emoji r = emoji)).
Proof.
  intros Hs1 Hs2. unfold served in *.
  assert (Hd : faults (after_requests 1 w) = tl (faults w)) by apply drop_one_tail.
  rewrite Hd in Hs2. split.
  - destruct (add_reaction_served message_id user_id emoji w Hs1) as (Hf & Hex).
    rewrite get_message_reactions_run, Hf, Hs2. cbn [fst].
    eexists. split; [reflexivity|].
    apply Exists_exists in Hex as (r0 & Hr0 & Hm & Hu & He).
    assert (Hrow : r0 ∈ reaction_rows message_id
                     (store (snd (add_reaction message_id user_id emoji w))))
      by (by apply list_elem_of_filter).
    eapply decorate_keeps in Hrow as [p Hp]. eexists. split; [exact Hp|]. done.
  - rewrite remove_reaction_run, Hs1. cbn [snd].
    rewrite get_message_reactions_run.
    cbn [faults after_requests set_store store]. rewrite drop_one_tail, Hs2.
    cbn [fst]. eexists. split; [reflexivity|].
    intros r Hr [Hu He]. apply decorate_elem in Hr as (x & p & Hx & ->).
    unfold reaction_rows in Hx. cbn in Hx.
    apply list_elem_of_filter in Hx as [Hm Hx].
    apply list_elem_of_filter in Hx as [Hnot _].
    apply Hnot. done.
Qed.

Lemma reaction_listed_after_add_witness :
  served (Examples.small Examples.in_general) ∧
  served (after_requests 1 (Examples.small Examples.in_general)) ∧
  ∃ listed,
    fst (get_message_reactions (RowId 0)
           (snd (add_reaction (RowId 0) "ann" "👍" (Examples.small Examples.in_general))))
    = Ok listed ∧
    ∃ r, r ∈ listed ∧ r_message_id r = RowId 0 ∧ r_user_id r = "ann" ∧ r_emoji r = "👍".
Proof.
  split; [reflexivity|]. split; [reflexivity|].
  destruct (reaction_listed_after_add (Examples.small Examples.in_general)
              (RowId 0) "ann" "👍" eq_refl eq_refl) as [Hadd _].
  exact Hadd.
Defined.

(** X8: on a reachable store, adding a reaction that was not there and
    removing it again leaves the table of reactions exactly as it was. *)
Theorem add_then_remove_restores
    (w : world) (message_id : ident) (user_id emoji : string) :
  served w →
  served (after_requests 1 w) →
  reaction_count message_id user_id emoji (store w) = 0%nat →
  Store.message_reactions
    (store (snd (remove_reaction message_id user_id emoji
                   (snd (add_reaction message_id user_id emoji w)))))
  = Store.message_reactions (store w).
Proof.
  intros Hs1 Hs2 Hnone. unfold served in *.
  assert (Hd : faults (after_requests 1 w) = tl (faults w)) by apply drop_one_tail.
  rewrite Hd in Hs2.
  apply filter_empty_iff in Hnone.
  rewrite add_reaction_run, Hs1, decide_False by done. cbn [snd].
  rewrite remove_reaction_run.
  cbn [faults after_requests set_store store]. rewrite drop_one_tail, Hs2.
  cbn. rewrite filter_app, filter_cons, decide_False, filter_nil, app_nil_r.
  - by apply filter_none_out.
  - intros Hnot. by apply Hnot.
Qed.

Lemma add_then_remove_restores_witness :
  served (Examples.small Examples.in_general) ∧
  served (after_requests 1 (Examples.small Examples.in_general)) ∧
  reaction_count (RowId 0) "ann" "👍" (store (Examples.small Examples.in_general)) = 0%nat ∧
  Store.message_reactions
    (store (snd (remove_reaction (RowId 0) "ann" "👍"
                   (snd (add_reaction (RowId 0) "ann" "👍"
                           (Examples.small Examples.in_general))))))
  = Store.message_reactions Examples.small_db.
Proof.
  split; [reflexivity|]. split; [reflexivity|]. split; [reflexivity|].
  apply (add_then_remove_restores (Examples.small Examples.in_general)
           (RowId 0) "ann" "👍" eq_refl eq_refl eq_refl).
Defined.

End ReactionTrips.

(** ** A sent message in the next list *)

Section Delivery.

Lemma decorate_snoc {A} (author : A → string) attach d (xs : list A) x :
  decorate author attach d [] (xs ++ [x])
  = decorate author attach d [] xs ++ [attach (resolve d None (author x)) x].
Proof.
  induction xs as [|y xs IH]; cbn [decorate app hd tl]; [done|]. by rewrite IH.
Qed.

Lemma direct_rows_after_post a b limit d row :
  Store.is_direct_between a b row →
  Forall (λ m, Store.is_direct_between a b m → m_created_at m ≤ m_created_at row)
         (Store.messages d) →
  direct_rows a b limit (Store.add_message row d) =
  take limit (Store.order_by_created_at
                (filter (Store.is_direct_between a b) (Store.messages d))
              ++ [row]).
Proof.
  intros Hrow Hle. unfold direct_rows, Store.add_message. cbn [Store.messages].
  rewrite filter_app, filter_cons, decide_True, filter_nil by done.
  rewrite order_by_created_at_snoc; [done|].
  apply Forall_forall. intros m Hm. apply list_elem_of_filter in Hm as [Hc Hm].
  rewrite Forall_forall in Hle. auto.
Qed.

(** X9: on a reachable store, while the channel holds fewer than [limit]
    messages and none of them is stamped later than the store's clock reads,
    the list asked right after [send_message] ends with the message just
    stored: its content is the stripped text, its author the sender, and its
    profile the sender's row of [user_profiles] or the placeholder. *)
Theorem channel_post_is_shown_last
    (w : world) (user_id content : string) (channel_id : Z) (limit : nat) :
  faults w = [] →
  (length (filter (λ m, m_channel_id m = Some channel_id) (Store.messages (store w)))
   < limit)%nat →
  Forall (λ m, m_channel_id m = Some channel_id →
               m_created_at m ≤ hd 0 (Store.db_clock (store w)))
         (Store.messages (store w)) →
  ∃ listed shown,
    fst (get_channel_messages channel_id limit
           (snd (send_message user_id channel_id content w))) = Ok listed ∧
    last listed = Some shown ∧
    m_content shown = strip content ∧
    m_user_id shown = user_id ∧
    m_channel_id shown = Some channel_id ∧
    m_user_profiles shown = Some (resolve (store w) None user_id).
Proof.
  intros Hf Hlen Hle.
  rewrite send_message_run, Hf. cbn [hd snd].
  rewrite channel_list_after_row, channel_rows_after_post by done.
  rewrite take_ge by (rewrite length_app, order_by_created_at_length; cbn; lia).
  rewrite decorate_snoc. do 2 eexists. split; [reflexivity|].
  rewrite last_snoc. split; [reflexivity|]. done.
Qed.

Lemma channel_post_is_shown_last_witness :
  ∃ listed shown,
    fst (get_channel_messages 1 50
           (snd (send_message "ann" 1 " hey " (timely Examples.in_general))))
    = Ok listed ∧
    last listed = Some shown ∧
    m_content shown = "hey".
Proof.
  assert (Hlen : (length (filter (λ m, m_channel_id m = Some 1%Z)
                    (Store.messages (store (timely Examples.in_general))))
                  < 50)%nat) by (vm_compute; lia).
  assert (Hle : Forall (λ m, m_channel_id m = Some 1 →
                   m_created_at m ≤ hd 0 (Store.db_clock
                                            (store (timely Examples.in_general))))
                  (Store.messages (store (timely Examples.in_general)))).
  { apply Forall_forall. intros m Hm. cbn in Hm.
    rewrite !elem_of_cons, elem_of_nil in Hm.
    destruct Hm as [->|[->|[->|[]]]]; cbn; intros H; first [discriminate H | lia]. }
  destruct (channel_post_is_shown_last (timely Examples.in_general)
              "ann" " hey " 1 50 eq_refl Hlen Hle)
    as (listed & shown & Hrun & Hlast & Hcontent & _).
  exists listed, shown. split; [exact Hrun|]. split; [exact Hlast|].
  rewrite Hcontent. reflexivity.
Defined.

(** X10: on a reachable store, while the conversation of two users served
    by the store holds fewer than [limit] messages and none of them is stamped
    later than the store's clock reads, the list either of them asks right
    after [send_direct_message] ends with the message just stored, with the
    stripped text, the sender as author and the recipient set. *)
Theorem direct_post_is_shown_last
    (w : world) (user_id recipient content : string) (limit : nat) :
  faults w = [] →
  is_demo_user user_id = false →
  is_demo_user recipient = false →
  (length (filter (Store.is_direct_between user_id recipient)
                  (Store.messages (store w))) < limit)%nat →
  Forall (λ m, Store.is_direct_between user_id recipient m →
               m_created_at m ≤ hd 0 (Store.db_clock (store w)))
         (Store.messages (store w)) →
  ∃ listed shown,
    fst (get_direct_messages recipient user_id limit
           (snd (send_direct_message user_id recipient content w))) = Ok listed ∧
    fst (get_direct_messages user_id recipient limit
           (snd (send_direct_message user_id recipient content w))) = Ok listed ∧
    last listed = Some shown ∧
    m_content shown = strip content ∧
    m_user_id shown = user_id ∧
    m_recipient_id shown = Some recipient ∧
    m_user_profiles shown = Some (resolve (store w) None user_id).
Proof.
  intros Hf Hu Hr Hlen Hle.
  rewrite (send_direct_message_run _ _ _ _ Hr), Hf. cbn [hd snd].
  rewrite !direct_list_after_row by done.
  rewrite (direct_rows_sym recipient user_id).
  rewrite direct_rows_after_post.
  - rewrite take_ge by (rewrite length_app, order_by_created_at_length; cbn; lia).
    rewrite decorate_snoc. do 2 eexists. split; [reflexivity|].
    split; [reflexivity|]. rewrite last_snoc. split; [reflexivity|]. done.
  - split; [done|]. left. done.
  - done.
Qed.

Lemma direct_post_is_shown_last_witness :
  ∃ listed shown,
    fst (get_direct_messages "ghost" "ann" 50
           (snd (send_direct_message "ann" "ghost" " hey " (timely Examples.in_general))))
    = Ok listed ∧
    last listed = Some shown ∧
    m_content shown = "hey".
Proof.
  assert (Hlen : (length (filter (Store.is_direct_between "ann" "ghost")
                    (Store.messages (store (timely Examples.in_general))))
                  < 50)%nat) by (vm_compute; lia).
  assert (Hle : Forall (λ m, Store.is_direct_between "ann" "ghost" m →
                   m_created_at m ≤ hd 0 (Store.db_clock
                                            (store (timely Examples.in_general))))
                  (Store.messages (store (timely Examples.in_general)))).
  { apply Forall_forall. intros m Hm. cbn in Hm.
    rewrite !elem_of_cons, elem_of_nil in Hm.
    destruct Hm as [->|[->|[->|[]]]]; cbn; intros _; lia. }
  destruct (direct_post_is_shown_last (timely Examples.in_general)
              "ann" "ghost" " hey " 50 eq_refl eq_refl eq_refl Hlen Hle)
    as (listed & shown & Hrun & _ & Hlast & Hcontent & _).
  exists listed, shown. split; [exact Hrun|]. split; [exact Hlast|].
  rewrite Hcontent. reflexivity.
Defined.

End Delivery.

(** ** The conversations of the demo overlay *)

Section DemoConversations.

Lemma append_length (s1 s2 : string) :
  String.length (s1 ++ s2)%string = (String.length s1 + String.length s2)%nat.
Proof.
  induction s1 as [|c s1 IH]; [done|].
  change (S (String.length (s1 ++ s2)%string)
          = S (String.length s1 + String.length s2)%nat).
  by rewrite IH.
Qed.

Lemma append_same_length_inj (u1 u2 s1 s2 : string) :
  (u1 ++ s1 = u2 ++ s2)%string →
  String.length s1 = String.length s2 →
  u1 = u2 ∧ s1 = s2.
Proof.
  revert u2. induction u1 as [|c u1 IH]; intros [|c2 u2] Heq Hlen.
  - done.
  - apply (f_equal String.length) in Heq.
    rewrite !append_length in Heq. cbn in Heq. lia.
  - apply (f_equal String.length) in Heq.
    rewrite !append_length in Heq. cbn in Heq. lia.
  - change (String c (u1 ++ s1)%string = String c2 (u2 ++ s2)%string) in Heq.
    injection Heq as -> Heq.
    destruct (IH u2 Heq Hlen) as [-> ->]. done.
Qed.

Lemma demo_user_length d : is_demo_user d = true → String.length d = 36%nat.
Proof.
  unfold is_demo_user, demo_user_ids. intros Hd. apply bool_decide_eq_true in Hd.
  rewrite !elem_of_cons, elem_of_nil in Hd. by destruct Hd as [->|[->|[]]].
Qed.

Lemma conversation_key_inj u1 d1 u2 d2 :
  is_demo_user d1 = true →
  is_demo_user d2 = true →
  conversation_key u1 d1 = conversation_key u2 d2 →
  u1 = u2 ∧ d1 = d2.
Proof.
  intros H1 H2 Hkey. unfold conversation_key in Hkey.
  apply append_same_length_inj in Hkey as [-> Hd].
  - split; [done|]. by apply (inj (String.append "_")) in Hd.
  - by rewrite !append_length, (demo_user_length _ H1), (demo_user_length _ H2).
Qed.

(** X11: the conversations of the overlay are kept apart: two different
    pairs of a user and a demo user never share a key, and reading one
    conversation, or sending to it through the Send handler, leaves what is
    stored for the other as it was. *)
Theorem demo_conversations_apart
    (w : world) (u1 d1 u2 d2 content : string) (limit : nat)
    (send_button : bool) (u : profile) :
  is_demo_user d1 = true →
  is_demo_user d2 = true →
  u1 ≠ u2 ∨ d1 ≠ d2 →
  view_mode (session w) = "dm" →
  current_dm_user (session w) = Some u →
  p_id u = Some d1 →
  conversation_key u1 d1 ≠ conversation_key u2 d2 ∧
  demo_messages (session (snd (get_direct_messages u1 d1 limit w)))
    !! conversation_key u2 d2
  = demo_messages (session w) !! conversation_key u2 d2 ∧
  demo_messages (session (snd (send_handler u1 send_button content w)))
    !! conversation_key u2 d2
  = demo_messages (session w) !! conversation_key u2 d2.
Proof.
  intros H1 H2 Hne Hview Hu Hid.
  assert (Hkey : conversation_key u1 d1 ≠ conversation_key u2 d2).
  { intros Hkey. apply conversation_key_inj in Hkey as [-> ->]; [|done..].
    by destruct Hne. }
  split; [exact Hkey|]. split.
  - rewrite (get_direct_messages_demo _ _ _ _ H1). cbn.
    by rewrite lookup_insert_ne.
  - destruct (sendable send_button content) eqn:Hcond.
    + destruct (send_handler_demo u1 d1 u send_button content w
                  H1 Hview Hu Hid Hcond) as (msg & _ & ->).
      cbn. by rewrite lookup_insert_ne.
    + unfold send_handler. by rewrite Hcond.
Qed.

Lemma demo_conversations_apart_witness :
  is_demo_user Examples.alex = true ∧
  demo_messages
    (session (snd (send_handler "ann" true "hi" (Examples.quiet Examples.with_alex))))
    !! conversation_key "bob" Examples.alex
  = None.
Proof.
  split; [reflexivity|].
  assert (Hne : "ann" ≠ "bob" ∨ Examples.alex ≠ Examples.alex)
    by (left; discriminate).
  destruct (demo_conversations_apart (Examples.quiet Examples.with_alex)
              "ann" Examples.alex "bob" Examples.alex "hi" 50 true Examples.alex_user
              eq_refl eq_refl Hne eq_refl eq_refl eq_refl) as (_ & _ & Hkeep).
  rewrite Hkeep. reflexivity.
Defined.

(** X12: a conversation with a demo user not opened before shows the two
    greetings, authored by the demo user under the name of the fixed table;
    and after the conversation was read and a message sent through the Send
    handler, the next read shows what was shown before followed by the new
    message, with the stripped text, the user as author and the profile
    "You". *)
Theorem demo_conversation_grows
    (w : world) (user_id demo content : string) (limit : nat)
    (send_button : bool) (u : profile) :
  is_demo_user demo = true →
  user_id ≠ demo →
  view_mode (session w) = "dm" →
  current_dm_user (session w) = Some u →
  p_id u = Some demo →
  sendable send_button content = true →
  (demo_messages (session w) !! conversation_key user_id demo = None →
   fst (get_direct_messages user_id demo limit w)
   = Ok (with_profile (demo_user_names demo) <$> demo_greetings user_id demo)) ∧
  (∃ shown sent,
     fst (get_direct_messages user_id demo limit w) = Ok shown ∧
     fst (get_direct_messages user_id demo limit
            (snd (send_handler user_id send_button content
                    (snd (get_direct_messages user_id demo limit w)))))
     = Ok (shown ++ [sent]) ∧
     m_content sent = strip content ∧
     m_user_id sent = user_id ∧
     m_recipient_id sent = Some demo ∧
     m_user_profiles sent = Some (Profile None "you" "You" None None)).
Proof.
  intros Hdemo Hne Hview Hu Hid Hcond. split.
  - intros Hfresh. rewrite (get_direct_messages_demo _ _ _ _ Hdemo). cbn [fst].
    unfold demo_view, demo_stored. rewrite Hfresh. f_equal.
    unfold demo_greetings. cbn [fmap list_fmap]. unfold demo_profile. cbn [m_user_id].
    by rewrite decide_False by congruence.
  - rewrite !(get_direct_messages_demo _ _ _ _ Hdemo). cbn [fst snd].
    destruct (send_handler_demo user_id demo u send_button content
                (store_demo_view user_id demo w) Hdemo Hview Hu Hid Hcond)
      as (msg & Hmsg & ->).
    rewrite (send_direct_message_demo _ _ _ _ Hdemo) in Hmsg. cbn [fst] in Hmsg.
    injection Hmsg as <-.
    cbn [snd session]. do 2 eexists. split; [reflexivity|]. split.
    + f_equal. unfold demo_view at 1, demo_stored at 1, demo_posted.
      cbn [demo_messages set_message_count set_demo_messages session
           store_demo_view set_session].
      rewrite lookup_insert_eq, lookup_insert_eq. cbn [default].
      rewrite fmap_app. f_equal.
      unfold id, demo_view. rewrite <- list_fmap_compose.
      apply list_fmap_ext. intros _ m _. reflexivity.
    + cbn. unfold demo_profile. cbn. by rewrite decide_True.
Qed.

Lemma demo_conversation_grows_witness :
  ∃ shown sent,
    fst (get_direct_messages "ann" Examples.alex 50 (Examples.quiet Examples.with_alex))
    = Ok shown ∧
    length shown = 2%nat ∧
    fst (get_direct_messages "ann" Examples.alex 50
           (snd (send_handler "ann" true " hi "
                   (snd (get_direct_messages "ann" Examples.alex 50
                           (Examples.quiet Examples.with_alex))))))
    = Ok (shown ++ [sent]) ∧
    m_content sent = "hi".
Proof.
  assert (Hne : "ann" ≠ Examples.alex) by discriminate.
  destruct (demo_conversation_grows (Examples.quiet Examples.with_alex)
              "ann" Examples.alex " hi " 50 true Examples.alex_user
              eq_refl Hne eq_refl eq_refl eq_refl eq_refl)
    as (Hfresh & shown & sent & Hshown & Hnext & Hcontent & _).
  exists shown, sent. split; [exact Hshown|]. split.
  - rewrite (Hfresh eq_refl) in Hshown. injection Hshown as <-. reflexivity.
  - split; [exact Hnext|]. rewrite Hcontent. reflexivity.
Defined.

End DemoConversations.

(** ** Grouping the reactions of a message *)

Section Grouping.

Import Reactions.

Lemma tally_count_up e e' counts :
  tally e' (count_up e counts)
  = tally e' counts + (if decide (e = e') then 1 else 0).
Proof.
  induction counts as [|[k n] counts IH]; cbn [count_up tally].
  - destruct (decide (e = e')); lia.
  - destruct (decide (k = e)) as [->|Hk]; cbn [tally].
    + destruct (decide (e = e')); lia.
    + destruct (decide (k = e')) as [->|Hk'].
      * rewrite decide_False by congruence. lia.
      * apply IH.
Qed.

Lemma keys_count_up e counts :
  (count_up e counts).*1
  = if decide (e ∈ counts.*1) then counts.*1 else counts.*1 ++ [e].
Proof.
  induction counts as [|[k n] counts IH]; cbn [count_up fmap list_fmap fst].
  - rewrite decide_False by apply not_elem_of_nil. done.
  - destruct (decide (k = e)) as [->|Hk]; cbn [fmap list_fmap fst].
    + rewrite decide_True by left. done.
    + fold (counts.*1). fold ((count_up e counts).*1). rewrite IH.
      destruct (decide (e ∈ counts.*1)) as [Hin|Hnot].
      * rewrite decide_True by (by right). done.
      * rewrite decide_False; [done|].
        rewrite elem_of_cons. intros [->|H]; done.
Qed.

Lemma names_note_user e e' name users :
  names_for e' (note_user e name users)
  = names_for e' users ++ (if decide (e = e') then [name] else []).
Proof.
  induction users as [|[k names] users IH]; cbn [note_user names_for].
  - destruct (decide (e = e')); done.
  - destruct (decide (k = e)) as [->|Hk]; cbn [names_for].
    + destruct (decide (e = e')); [done|]. by rewrite app_nil_r.
    + destruct (decide (k = e')) as [->|Hk'].
      * rewrite decide_False by congruence. by rewrite app_nil_r.
      * apply IH.
Qed.

Lemma keys_note_user e name users :
  (note_user e name users).*1
  = if decide (e ∈ users.*1) then users.*1 else users.*1 ++ [e].
Proof.
  induction users as [|[k names] users IH]; cbn [note_user fmap list_fmap fst].
  - rewrite decide_False by apply not_elem_of_nil. done.
  - destruct (decide (k = e)) as [->|Hk]; cbn [fmap list_fmap fst].
    + rewrite decide_True by left. done.
    + fold (users.*1). fold ((note_user e name users).*1). rewrite IH.
      destruct (decide (e ∈ users.*1)) as [Hin|Hnot].
      * rewrite decide_True by (by right). done.
      * rewrite decide_False; [done|].
        rewrite elem_of_cons. intros [->|H]; done.
Qed.

Lemma elem_of_tally e n (counts : list (string * Z)) :
  NoDup counts.*1 →
  (e, n) ∈ counts ↔ e ∈ counts.*1 ∧ tally e counts = n.
Proof.
  induction counts as [|[k m] counts IH]; cbn [fmap list_fmap fst tally].
  - intros _. rewrite !elem_of_nil. tauto.
  - fold (counts.*1). intros Hnd. apply NoDup_cons in Hnd as [Hk Hnd].
    rewrite !elem_of_cons, (IH Hnd).
    destruct (decide (k = e)) as [->|Hne].
    + split.
      * intros [[= <-]|[Hin _]]; [tauto | done].
      * intros [_ ->]. by left.
    + split.
      * intros [[= ? ?]|[Hin Ht]]; [congruence | tauto].
      * intros [[?|Hin] Ht]; [congruence | tauto].
Qed.

Lemma elem_of_keys_count_up e e' counts :
  e' ∈ (count_up e counts).*1 ↔ e' ∈ counts.*1 ∨ e' = e.
Proof.
  rewrite keys_count_up. destruct (decide (e ∈ counts.*1)) as [Hin|Hnot].
  - split; [tauto|]. intros [H| ->]; done.
  - rewrite elem_of_app, list_elem_of_singleton. tauto.
Qed.

Lemma NoDup_keys_count_up e counts :
  NoDup counts.*1 → NoDup (count_up e counts).*1.
Proof.
  intros Hnd. rewrite keys_count_up.
  destruct (decide (e ∈ counts.*1)) as [Hin|Hnot]; [done|].
  apply NoDup_app. split; [done|]. split; [|apply NoDup_singleton].
  intros x Hx Hx'. apply list_elem_of_singleton in Hx' as ->. done.
Qed.

Lemma group_from_spec counts users reactions :
  Forall (λ r, is_Some (r_user_profiles r)) reactions →
  counts.*1 = users.*1 →
  NoDup counts.*1 →
  ∃ counts' users',
    group_from counts users reactions = Ok (counts', users') ∧
    counts'.*1 = users'.*1 ∧
    NoDup counts'.*1 ∧
    (∀ e, e ∈ counts'.*1 ↔ e ∈ counts.*1 ∨ e ∈ r_emoji <$> reactions) ∧
    (∀ e, tally e counts'
          = tally e counts + Z.of_nat (length (with_emoji e reactions))) ∧
    (∀ e, Ok <$> names_for e users'
          = (Ok <$> names_for e users) ++ (reactor_name <$> with_emoji e reactions)).
Proof.
  intros Hall. revert counts users.
  induction Hall as [|r reactions [p Hp] Hall IH]; intros counts users Hkeys Hnd.
  - exists counts, users. cbn [group_from]. split_and!; try done.
    + intros e. rewrite fmap_nil, elem_of_nil. tauto.
    + intros e. cbn. lia.
    + intros e. cbn. by rewrite app_nil_r.
  - cbn [group_from]. unfold reactor_name at 1. rewrite Hp.
    set (name := if truthy (p_display_name p) then p_display_name p else p_username p).
    destruct (IH (count_up (r_emoji r) counts) (note_user (r_emoji r) name users))
      as (counts' & users' & Hrun & Hk & Hn & Hin & Ht & Hnames).
    { by rewrite keys_count_up, keys_note_user, Hkeys. }
    { by apply NoDup_keys_count_up. }
    exists counts', users'. split; [exact Hrun|]. split; [exact Hk|].
    split; [exact Hn|]. split_and!.
    + intros e. rewrite Hin, elem_of_keys_count_up, fmap_cons, elem_of_cons. tauto.
    + intros e. rewrite Ht, tally_count_up. unfold with_emoji.
      rewrite filter_cons. destruct (decide (r_emoji r = e)); cbn [length]; lia.
    + intros e. rewrite Hnames, names_note_user. unfold with_emoji.
      rewrite filter_cons. destruct (decide (r_emoji r = e)).
      * rewrite fmap_app, (fmap_cons reactor_name). unfold reactor_name at 2.
        rewrite Hp. by rewrite <- app_assoc.
      * by rewrite app_nil_r.
Qed.

Lemma decorated_reactions_have_profiles d fs rows :
  Forall (λ r, is_Some (r_user_profiles r))
         (decorate r_user_id reaction_with_profile d fs rows).
Proof.
  apply Forall_forall. intros r Hr.
  apply decorate_elem in Hr as (x & p & _ & ->). by eexists.
Qed.

(** X13: grouping the list [get_message_reactions] answered never raises.
    Both dicts have the same keys, each emoji of the list once; the count
    under an emoji is the number of reactions of the list that carry it, at
    least 1, and the names under it are theirs, in the order of the list
    (the display name, or the username when the display name is empty). *)
Theorem reactions_grouped_by_emoji (w : world) (message_id : ident) :
  ∃ listed counts users,
    fst (get_message_reactions message_id w) = Ok listed ∧
    group listed = Ok (counts, users) ∧
    counts.*1 = users.*1 ∧
    NoDup counts.*1 ∧
    (∀ e n, (e, n) ∈ counts ↔
            n = Z.of_nat (length (with_emoji e listed)) ∧ 0 < n) ∧
    (∀ e, Ok <$> names_for e users = reactor_name <$> with_emoji e listed).
Proof.
  assert (Hlisted : ∃ listed, fst (get_message_reactions message_id w) = Ok listed ∧
            Forall (λ r, is_Some (r_user_profiles r)) listed).
  { rewrite get_message_reactions_run.
    destruct (hd None (faults w)); cbn [fst]; eexists; (split; [reflexivity|]).
    - constructor.
    - apply decorated_reactions_have_profiles. }
  destruct Hlisted as (listed & Hrun & Hall).
  destruct (group_from_spec [] [] listed Hall eq_refl NoDup_nil_2)
    as (counts & users & Hgroup & Hk & Hn & Hin & Ht & Hnames).
  exists listed, counts, users. split; [exact Hrun|]. split; [exact Hgroup|].
  split; [exact Hk|]. split; [exact Hn|]. split.
  - intros e n. rewrite (elem_of_tally e n counts Hn), Hin, Ht.
    cbn [tally fmap list_fmap]. rewrite elem_of_nil.
    assert (Hlen : e ∈ r_emoji <$> listed ↔ (0 < length (with_emoji e listed))%nat).
    { unfold with_emoji. split.
      - intros He. apply list_elem_of_fmap in He as (r & -> & Hr).
        destruct (filter _ _) eqn:Hfilter; [|cbn; lia].
        assert (Hin' : r ∈ filter (λ r0, r_emoji r0 = r_emoji r) listed)
          by by apply list_elem_of_filter.
        rewrite Hfilter in Hin'. by apply elem_of_nil in Hin'.
      - intros Hpos. destruct (filter _ _) as [|r l] eqn:Hfilter; [cbn in Hpos; lia|].
        assert (Hin' : r ∈ filter (λ r0, r_emoji r0 = e) listed)
          by (rewrite Hfilter; left).
        apply list_elem_of_filter in Hin' as [<- Hr].
        apply list_elem_of_fmap. eauto. }
    rewrite Hlen. lia.
  - intros e. rewrite Hnames. done.
Qed.

End Grouping.

(** ** Who reacted *)

Section Reactors.

Import Reactions.

Lemma decorate_keys d fs rows :
  reaction_key <$> decorate r_user_id reaction_with_profile d fs rows
  = reaction_key <$> rows.
Proof.
  revert fs; induction rows as [|r rows IH]; intros fs; cbn; [done|]. by rewrite IH.
Qed.

Lemma unique_reactions_NoDup d :
  unique_reactions d → NoDup (reaction_key <$> Store.message_reactions d).
Proof.
  unfold unique_reactions, reaction_count.
  induction (Store.message_reactions d) as [|r l IH]; intros Hu; [constructor|].
  rewrite fmap_cons. apply NoDup_cons. split.
  - intros Hin. apply list_elem_of_fmap in Hin as (r' & Hkey & Hr').
    specialize (Hu (r_message_id r) (r_user_id r) (r_emoji r)).
    rewrite filter_cons, decide_True in Hu by done. cbn [length] in Hu.
    assert (Hr'' : r' ∈ filter (Store.same_reaction (r_message_id r) (r_user_id r)
                                  (r_emoji r)) l).
    { apply list_elem_of_filter. split; [|done].
      unfold reaction_key in Hkey. injection Hkey as -> -> ->. done. }
    destruct (filter _ l); [by apply elem_of_nil in Hr''|]. cbn in Hu. lia.
  - apply IH. intros m u e. specialize (Hu m u e).
    rewrite filter_cons in Hu. destruct (decide _); cbn [length] in Hu; lia.
Qed.

Lemma NoDup_keys_users (l : list reaction) message_id e :
  NoDup (reaction_key <$> l) →
  Forall (λ r, r_message_id r = message_id) l →
  NoDup (r_user_id <$> with_emoji e l).
Proof.
  unfold with_emoji.
  induction l as [|r l IH]; intros Hnd Hall; [constructor|].
  rewrite fmap_cons in Hnd. apply NoDup_cons in Hnd as [Hr Hnd].
  apply Forall_cons in Hall as [Hm Hall].
  rewrite filter_cons. destruct (decide (r_emoji r = e)) as [He|He]; [|by apply IH].
  rewrite fmap_cons. apply NoDup_cons. split; [|by apply IH].
  intros Hin. apply list_elem_of_fmap in Hin as (r' & Hu & Hr').
  apply list_elem_of_filter in Hr' as [He' Hr'].
  apply Hr. apply list_elem_of_fmap. exists r'. split; [|done].
  rewrite Forall_forall in Hall. unfold reaction_key.
  by rewrite Hm, (Hall r' Hr'), Hu, He, He'.
Qed.

Lemma user_has_reacted_iff user_id emoji (l : list reaction) :
  user_has_reacted user_id emoji l = true ↔
  ∃ r, r ∈ l ∧ r_user_id r = user_id ∧ r_emoji r = emoji.
Proof.
  unfold user_has_reacted. rewrite existsb_exists. split.
  - intros (r & Hr & Hb). apply andb_true_iff in Hb as [Hu He].
    apply bool_decide_eq_true in Hu, He. exists r.
    split; [by apply list_elem_of_In|done].
  - intros (r & Hr & Hu & He). exists r. split; [by apply list_elem_of_In|].
    apply andb_true_iff. by rewrite !bool_decide_eq_true.
Qed.

(** What a served [get_message_reactions] lists, against the table. *)
Lemma listed_reaction_iff_store message_id user_id emoji d fs :
  user_has_reacted user_id emoji
    (decorate r_user_id reaction_with_profile d fs (reaction_rows message_id d)) = true ↔
  Exists (Store.same_reaction message_id user_id emoji) (Store.message_reactions d).
Proof.
  rewrite user_has_reacted_iff, Exists_exists. split.
  - intros (r & Hr & Hu & He).
    apply decorate_elem in Hr as (x & p & Hx & ->).
    apply list_elem_of_filter in Hx as [Hm Hx]. exists x. done.
  - intros (x & Hx & Hm & Hu & He).
    assert (Hrow : x ∈ reaction_rows message_id d) by by apply list_elem_of_filter.
    eapply decorate_keeps in Hrow as [p Hp]. eexists. split; [exact Hp|]. done.
Qed.

(** X14: when the store keeps its uniqueness constraint and serves the
    query, the reactions listed under one emoji are by distinct users, so
    that the count shown for the emoji is the number of users who reacted
    with it; and the list shows a reaction of a user with an emoji exactly
    when the table holds that reaction for the message. *)
Theorem reactors_are_distinct (w : world) (message_id : ident) :
  unique_reactions (store w) →
  served w →
  ∃ listed,
    fst (get_message_reactions message_id w) = Ok listed ∧
    (∀ e, NoDup (r_user_id <$> with_emoji e listed)) ∧
    (∀ user_id e,
       user_has_reacted user_id e listed = true ↔
       Exists (Store.same_reaction message_id user_id e)
              (Store.message_reactions (store w))).
Proof.
  intros Hunique Hserved. unfold served in Hserved.
  rewrite get_message_reactions_run, Hserved. cbn [fst].
  eexists. split; [reflexivity|]. split.
  - intros e. apply (NoDup_keys_users _ message_id).
    + rewrite decorate_keys. unfold reaction_rows.
      apply unique_reactions_NoDup in Hunique.
      eapply sublist_NoDup; [exact Hunique | apply fmap_sublist, sublist_filter].
    + apply Forall_forall. intros r Hr.
      apply decorate_elem in Hr as (x & p & Hx & ->).
      by apply list_elem_of_filter in Hx as [Hm _].
  - intros user_id e. apply listed_reaction_iff_store.
Qed.

Lemma reactors_are_distinct_witness :
  unique_reactions (store (Examples.small Examples.in_general)) ∧
  served (Examples.small Examples.in_general) ∧
  ∃ listed,
    fst (get_message_reactions (RowId 1) (Examples.small Examples.in_general))
    = Ok listed ∧
    user_has_reacted "ghost" "👍" listed = true ∧
    user_has_reacted "ann" "👍" listed = false.
Proof.
  assert (Hu : unique_reactions (store (Examples.small Examples.in_general))).
  { intros m u e. unfold reaction_count. cbn [Examples.small store Examples.small_db
      Store.message_reactions]. rewrite filter_cons, filter_nil.
    destruct (decide _); cbn; lia. }
  split; [exact Hu|]. split; [reflexivity|].
  destruct (reactors_are_distinct (Examples.small Examples.in_general) (RowId 1)
              Hu eq_refl) as (listed & Hrun & _ & _).
  exists listed. split; [exact Hrun|].
  vm_compute in Hrun. injection Hrun as <-. split; reflexivity.
Defined.

Lemma reaction_button_run user_id message_id reactions emoji w :
  reaction_button user_id message_id reactions emoji w =
  (Ok Rerun,
   if user_has_reacted user_id emoji reactions
   then snd (remove_reaction message_id user_id emoji w)
   else snd (add_reaction message_id user_id emoji w)).
Proof.
  unfold reaction_button. rewrite bind_run.
  destruct (user_has_reacted user_id emoji reactions); rewrite bind_run.
  - rewrite remove_reaction_run. by destruct (hd None (faults w)).
  - rewrite add_reaction_run. destruct (hd None (faults w)); [done|].
    by destruct (decide _).
Qed.

(** X15: on a reachable store, the button of an emoji toggles the user's
    reaction: pressed on the list the page has just read, it reruns the
    script, and the list read next shows a reaction of the user with that
    emoji exactly when the first list showed none. *)
Theorem reaction_button_toggles
    (w : world) (message_id : ident) (user_id emoji : string) :
  faults w = [] →
  ∃ listed listed',
    fst (get_message_reactions message_id w) = Ok listed ∧
    fst (reaction_button user_id message_id listed emoji
           (snd (get_message_reactions message_id w))) = Ok Rerun ∧
    fst (get_message_reactions message_id
           (snd (reaction_button user_id message_id listed emoji
                   (snd (get_message_reactions message_id w))))) = Ok listed' ∧
    user_has_reacted user_id emoji listed'
    = negb (user_has_reacted user_id emoji listed).
Proof.
  intros Hf. rewrite get_message_reactions_run, Hf. cbn [hd fst snd].
  set (listed := decorate _ _ _ _ _).
  set (w1 := after_requests _ w).
  assert (Hf1 : faults w1 = []) by (subst w1; cbn; by rewrite Hf, drop_nil).
  exists listed. rewrite reaction_button_run. cbn [fst snd].
  assert (Hiff : user_has_reacted user_id emoji listed = true ↔
            Exists (Store.same_reaction message_id user_id emoji)
                   (Store.message_reactions (store w)))
    by apply listed_reaction_iff_store.
  destruct (user_has_reacted user_id emoji listed) eqn:Hhas.
  - rewrite remove_reaction_run, Hf1. cbn [hd snd].
    rewrite get_message_reactions_run.
    cbn [faults set_store after_requests store]. rewrite Hf1. cbn [drop hd fst tl].
    eexists. split; [reflexivity|]. split; [reflexivity|].
    split; [reflexivity|]. cbn [negb].
    apply not_true_is_false. rewrite listed_reaction_iff_store.
    cbn [Store.message_reactions Store.set_reactions]. rewrite Exists_exists.
    intros (r & Hr & Hsame). apply list_elem_of_filter in Hr as [Hnot _]. done.
  - assert (Hnone : ¬ Exists (Store.same_reaction message_id user_id emoji)
                      (Store.message_reactions (store w))).
    { intros Hex. apply Hiff in Hex. congruence. }
    rewrite add_reaction_run, Hf1. cbn [hd]. rewrite decide_False by done. cbn [snd].
    rewrite get_message_reactions_run.
    cbn [faults set_store after_requests store]. rewrite Hf1. cbn [drop hd fst tl].
    eexists. split; [reflexivity|]. split; [reflexivity|].
    split; [reflexivity|]. cbn [negb].
    rewrite listed_reaction_iff_store.
    cbn [Store.message_reactions Store.set_reactions].
    apply Exists_app. right. by left.
Qed.

Lemma reaction_button_toggles_witness :
  ∃ listed listed',
    fst (get_message_reactions (RowId 1) (Examples.small Examples.in_general))
    = Ok listed ∧
    fst (get_message_reactions (RowId 1)
           (snd (reaction_button "ghost" (RowId 1) listed "👍"
                   (snd (get_message_reactions (RowId 1)
                           (Examples.small Examples.in_general))))))
    = Ok listed' ∧
    user_has_reacted "ghost" "👍" listed = true ∧
    user_has_reacted "ghost" "👍" listed' = false.
Proof.
  destruct (reaction_button_toggles (Examples.small Examples.in_general)
              (RowId 1) "ghost" "👍" eq_refl)
    as (listed & listed' & Hrun & _ & Hnext & Hflip).
  exists listed, listed'. split; [exact Hrun|]. split; [exact Hnext|].
  assert (Hhas : user_has_reacted "ghost" "👍" listed = true)
    by (vm_compute in Hrun; injection Hrun as <-; reflexivity).
  split; [exact Hhas|]. by rewrite Hflip, Hhas.
Defined.

End Reactors.

(** ** The label of a message's time *)

Section TimeLabels.

Import MessageTime.

Lemma gtb_false n m : n ≤ m → (n >? m) = false.
Proof. intros. rewrite Z.gtb_ltb. by apply Z.ltb_ge. Qed.

Lemma gtb_true n m : m < n → (n >? m) = true.
Proof. intros. rewrite Z.gtb_ltb. by apply Z.ltb_lt. Qed.

Lemma seconds_within_day a :
  0 ≤ a < one_day → days a = 0 ∧ seconds a = a / one_second.
Proof.
  intros Ha. unfold days, seconds.
  rewrite Z.div_small, Z.mod_small by done. done.
Qed.

(** X16: the label of a message that is [a] old, [a] being the time since
    the instant of a text with an offset: "just now" up to and including the
    60th second, the whole minutes from 1 to 60 up to and including the
    3600th second (a message exactly one hour old is labelled "60m ago"),
    the whole hours from 1 to 23 for the rest of the first day, and the date
    from one day on. *)
Theorem labels_of_past_messages
    (now local_offset : Z) (created_at : string) (r : reading) :
  0 ≤ elapsed now local_offset r →
  let a := elapsed now local_offset r in
  let label := time_label now local_offset created_at (Some r) in
  (a < 61 * one_second → label = "just now") ∧
  (61 * one_second ≤ a < 3601 * one_second →
   label = (str_of_int (a / (60 * one_second)) ++ "m ago")%string ∧
   1 ≤ a / (60 * one_second) ≤ 60) ∧
  (3601 * one_second ≤ a < one_day →
   label = (str_of_int (a / (3600 * one_second)) ++ "h ago")%string ∧
   1 ≤ a / (3600 * one_second) ≤ 23) ∧
  (one_day ≤ a → label = strftime r).
Proof.
  intros Hpos. cbn zeta. unfold time_label.
  set (a := elapsed now local_offset r) in *.
  assert (Hday : a < one_day → days a = 0 ∧ seconds a = a / one_second)
    by (intros; by apply seconds_within_day).
  unfold one_day, one_second in *.
  split_and!.
  - intros Ha. destruct Hday as [-> ->]; [lia|].
    rewrite (gtb_false (a / 1000000) 3600) by (Z.div_mod_to_equations; lia).
    rewrite (gtb_false (a / 1000000) 60) by (Z.div_mod_to_equations; lia).
    done.
  - intros Ha. destruct Hday as [-> ->]; [lia|].
    rewrite (gtb_false (a / 1000000) 3600) by (Z.div_mod_to_equations; lia).
    rewrite (gtb_true (a / 1000000) 60) by (Z.div_mod_to_equations; lia). rewrite Z.div_div by lia.
    split; [done|]. Z.div_mod_to_equations; lia.
  - intros Ha. destruct Hday as [-> ->]; [lia|].
    rewrite (gtb_true (a / 1000000) 3600) by (Z.div_mod_to_equations; lia). rewrite Z.div_div by lia.
    split; [done|]. Z.div_mod_to_equations; lia.
  - intros Ha.
    rewrite (gtb_true (days a) 0); [done|].
    unfold days, one_day, one_second. Z.div_mod_to_equations; lia.
Qed.

Lemma labels_of_past_messages_witness :
  0 ≤ elapsed (1705316400 * one_second) 0 (Reading (1705312800 * one_second) (Some 0)) ∧
  time_label (1705316400 * one_second) 0 "2024-01-15T10:00:00Z"
             (Some (Reading (1705312800 * one_second) (Some 0)))
  = "60m ago".
Proof.
  assert (H : 0 ≤ elapsed (1705316400 * one_second) 0
                    (Reading (1705312800 * one_second) (Some 0)))
    by (cbv [elapsed utc_offset wall one_second]; lia).
  split; [exact H|].
  destruct (labels_of_past_messages (1705316400 * one_second) 0
              "2024-01-15T10:00:00Z" (Reading (1705312800 * one_second) (Some 0)) H)
    as (_ & Hmin & _).
  destruct Hmin as [-> _]; [cbv [elapsed utc_offset wall one_second]; lia|].
  reflexivity.
Defined.

(** X17: a message stamped ahead of the reader's clock, by an hour at most,
    is labelled "23h ago": the difference is a negative [timedelta], whose
    [days] is -1 and whose [seconds] count up from the day before. *)
Theorem label_of_message_from_the_future
    (now local_offset : Z) (created_at : string) (r : reading) :
  - (3600 * one_second) ≤ elapsed now local_offset r < 0 →
  time_label now local_offset created_at (Some r) = "23h ago".
Proof.
  intros Ha. unfold time_label.
  set (a := elapsed now local_offset r) in *.
  rewrite (gtb_false (days a) 0)
    by (unfold days, one_day, one_second in *; Z.div_mod_to_equations; lia).
  assert (Hs : 82800 ≤ seconds a ≤ 86399)
    by (unfold seconds, one_day, one_second in *; Z.div_mod_to_equations; lia).
  rewrite (gtb_true (seconds a) 3600) by lia.
  replace (seconds a / 3600) with 23 by (Z.div_mod_to_equations; lia).
  reflexivity.
Qed.

Lemma label_of_message_from_the_future_witness :
  time_label (1705312800 * one_second - 1) 0 "2024-01-15T10:00:00Z"
             (Some (Reading (1705312800 * one_second) (Some 0)))
  = "23h ago".
Proof.
  apply label_of_message_from_the_future.
  cbv [elapsed utc_offset wall one_second]. lia.
Defined.

(** X18: a text without a zone, as [datetime.utcnow().isoformat()] writes
    for the messages sent to a demo user, is compared with the host's local
    time: read within the hour on a host whose zone is [k] hours east of UTC
    (2 to 22), the message is labelled "[k]h ago"; on a host [k] hours west
    of UTC it is labelled "[24 - k]h ago". *)
Theorem label_of_zoneless_stamp (now stamped k : Z) (created_at : string) :
  0 ≤ now - stamped < 3600 * one_second →
  2 ≤ k ≤ 22 →
  time_label now (k * (3600 * one_second)) created_at (Some (Reading stamped None))
  = (str_of_int k ++ "h ago")%string ∧
  time_label now (- (k * (3600 * one_second))) created_at (Some (Reading stamped None))
  = (str_of_int (24 - k) ++ "h ago")%string.
Proof.
  intros Ha Hk. unfold time_label, elapsed. cbn [utc_offset wall]. split.
  - set (a := now + k * (3600 * one_second) - stamped).
    rewrite (gtb_false (days a) 0)
      by (subst a; unfold days, one_day, one_second in *; Z.div_mod_to_equations; nia).
    assert (Hs : seconds a / 3600 = k ∧ 3600 < seconds a)
      by (subst a; unfold seconds, one_day, one_second in *;
          Z.div_mod_to_equations; nia).
    destruct Hs as [-> Hs]. by rewrite gtb_true.
  - set (a := now + - (k * (3600 * one_second)) - stamped).
    rewrite (gtb_false (days a) 0)
      by (subst a; unfold days, one_day, one_second in *; Z.div_mod_to_equations; nia).
    assert (Hs : seconds a / 3600 = 24 - k ∧ 3600 < seconds a)
      by (subst a; unfold seconds, one_day, one_second in *;
          Z.div_mod_to_equations; nia).
    destruct Hs as [-> Hs]. by rewrite gtb_true.
Qed.

Lemma label_of_zoneless_stamp_witness :
  time_label (1705312805 * one_second) (2 * (3600 * one_second)) "2024-01-15T10:00:00"
             (Some (Reading (1705312800 * one_second) None))
  = "2h ago" ∧
  time_label (1705312805 * one_second) (- (5 * (3600 * one_second))) "2024-01-15T10:00:00"
             (Some (Reading (1705312800 * one_second) None))
  = "19h ago".
Proof.
  destruct (label_of_zoneless_stamp (1705312805 * one_second)
              (1705312800 * one_second) 2 "2024-01-15T10:00:00") as [Heast _];
    [unfold one_second; lia | lia |].
  destruct (label_of_zoneless_stamp (1705312805 * one_second)
              (1705312800 * one_second) 5 "2024-01-15T10:00:00") as [_ Hwest];
    [unfold one_second; lia | lia |].
  split; [exact Heast | exact Hwest].
Defined.

End TimeLabels.

(** ** The sidebar *)

Section SidebarFacts.

Import Sidebar.

(** What [listed_channels] leaves: the session as it was, and a list of
    channels the user is a member of. *)
Lemma listed_channels_run user_id w :
  ∃ cs w',
    listed_channels user_id w = (Ok cs, w') ∧
    session w' = session w ∧
    clock w' = clock w ∧
    (∀ c, c ∈ cs → c ∈ Store.channels (store w') ∧
                   Member user_id (c_id c) ∈ Store.channel_members (store w')) ∧
    (store w' = store w ∨
     ∃ members, store w' = Store.set_members members (store w)).
Proof.
  unfold listed_channels. rewrite bind_run, get_user_channels_run.
  assert (Hlist : ∀ w0, ∃ cs w',
            get_user_channels user_id w0 = (Ok cs, w') ∧
            session w' = session w0 ∧ clock w' = clock w0 ∧ store w' = store w0 ∧
            (∀ c, c ∈ cs → c ∈ Store.channels (store w0) ∧
                           Member user_id (c_id c) ∈ Store.channel_members (store w0))).
  { intros w0. rewrite get_user_channels_run.
    destruct (hd None (faults w0)); do 2 eexists; (split; [reflexivity|]);
      split_and!; try done.
    - intros c Hc. by apply elem_of_nil in Hc.
    - intros c Hc. apply list_elem_of_filter in Hc. tauto. }
  assert (Hjoin : ∀ w0, ∃ b w',
            join_channel user_id 1 w0 = (Ok b, w') ∧
            session w' = session w0 ∧ clock w' = clock w0 ∧
            (store w' = store w0 ∨
             ∃ members, store w' = Store.set_members members (store w0))).
  { intros w0. rewrite join_channel_run.
    destruct (hd None (faults w0)) as [e|].
    - destruct (contains _ _); do 2 eexists; (split; [reflexivity|]); auto.
    - destruct (decide _); do 2 eexists; (split; [reflexivity|]);
        split_and!; eauto. }
  destruct (Hlist w) as (cs1 & w1 & Hrun1 & Hs1 & Hc1 & Hst1 & Hin1).
  rewrite <- get_user_channels_run, Hrun1.
  destruct (has_general cs1).
  - exists cs1, w1. split; [reflexivity|]. split; [done|]. split; [done|].
    split; [|by left]. rewrite Hst1. exact Hin1.
  - rewrite bind_run.
    destruct (Hjoin w1) as (b & w2 & Hrun2 & Hs2 & Hc2 & Hst2). rewrite Hrun2.
    destruct (Hlist w2) as (cs3 & w3 & Hrun3 & Hs3 & Hc3 & Hst3 & Hin3).
    rewrite Hrun3. exists cs3, w3. split; [reflexivity|].
    split; [congruence|]. split; [congruence|]. split.
    + rewrite Hst3. exact Hin3.
    + rewrite Hst3. destruct Hst2 as [->|[members ->]]; rewrite Hst1; eauto.
Qed.

Lemma set_session_same w : set_session (session w) w = w.
Proof. by destruct w. Qed.

Lemma channels_section_run user_id pressed w cs w1 :
  listed_channels user_id w = (Ok cs, w1) →
  channels_section user_id pressed w =
  match pressed with
  | ChannelButton k =>
      match filter (λ ch, c_id ch = k) cs with
      | ch :: _ =>
          (Ok Reran,
           set_session (set_view (Some ch) None "channel"
                                 (default_selection cs (session w1))) w1)
      | [] => (Ok (On cs), set_session (default_selection cs (session w1)) w1)
      end
  | _ => (Ok (On cs), set_session (default_selection cs (session w1)) w1)
  end.
Proof.
  intros Hrun. unfold channels_section. rewrite bind_run, Hrun.
  rewrite bind_run. cbn [get_session]. rewrite bind_run.
  assert (Hsel : (match current_channel (session w1), cs with
                  | None, ch :: _ => put_session (set_current_channel (Some ch) (session w1))
                  | _, _ => mret ()
                  end) w1
                 = (Ok (), set_session (default_selection cs (session w1)) w1)).
  { unfold default_selection.
    destruct (current_channel (session w1)), cs; cbn;
      rewrite ?set_session_same; reflexivity. }
  rewrite Hsel.
  destruct pressed as [|k| |]; try reflexivity.
  destruct (filter _ cs); reflexivity.
Qed.

(** X19: the channels section never raises. A channel already selected
    stays selected, and the session is left as it was, unless the button of a
    channel is pressed; with nothing selected, the first channel listed
    becomes the current one, the view and the direct-message user left as
    they were; and when the section reruns the script, a channel button was
    pressed: the view is "channel", the direct-message user is cleared, and
    the current channel is one of that id, of which the user is a member. *)
Theorem channels_section_selects (w : world) (user_id : string) (pressed : click) :
  ∃ r,
    fst (channels_section user_id pressed w) = Ok r ∧
    let w' := snd (channels_section user_id pressed w) in
    (∀ ch, current_channel (session w) = Some ch →
           (∀ k, pressed ≠ ChannelButton k) →
           session w' = session w) ∧
    (∀ cs, r = On cs →
           current_channel (session w) = None →
           current_channel (session w') = head cs ∧
           view_mode (session w') = view_mode (session w) ∧
           current_dm_user (session w') = current_dm_user (session w)) ∧
    (r = Reran →
     ∃ k ch, pressed = ChannelButton k ∧ c_id ch = k ∧
             view_mode (session w') = "channel" ∧
             current_channel (session w') = Some ch ∧
             current_dm_user (session w') = None ∧
             Member user_id k ∈ Store.channel_members (store w')).
Proof.
  destruct (listed_channels_run user_id w) as (cs & w1 & Hrun & Hs & _ & Hin & _).
  rewrite (channels_section_run _ _ _ _ _ Hrun), Hs.
  assert (Hon : ∃ r, (Ok (On cs), set_session (default_selection cs (session w)) w1).1
                     = Ok r ∧
            let w' := (Ok (On cs), set_session (default_selection cs (session w)) w1).2 in
            (∀ ch, current_channel (session w) = Some ch →
                   session w' = session w) ∧
            (∀ cs0, r = On cs0 → current_channel (session w) = None →
                    current_channel (session w') = head cs0 ∧
                    view_mode (session w') = view_mode (session w) ∧
                    current_dm_user (session w') = current_dm_user (session w)) ∧
            r ≠ @Reran (list channel)).
  { eexists. split; [reflexivity|]. cbn. unfold default_selection. split_and!.
    - intros ch Hch. by rewrite Hch.
    - intros cs0 [= <-] Hnone. rewrite Hnone. by destruct cs.
    - done. }
  destruct pressed as [|k| |];
    try (destruct Hon as (r & Hr & H1 & H2 & H3); exists r; split; [exact Hr|];
         cbn zeta; split_and!; [intros; eapply H1; eauto | exact H2 | done]).
  destruct (filter (λ ch, c_id ch = k) cs) as [|ch l] eqn:Hfilter.
  - destruct Hon as (r & Hr & H1 & H2 & H3). exists r. split; [exact Hr|].
    cbn zeta. split_and!; [intros; eapply H1; eauto | exact H2 | done].
  - assert (Hch : ch ∈ filter (λ ch, c_id ch = k) cs) by (rewrite Hfilter; left).
    apply list_elem_of_filter in Hch as [Hk Hch]. destruct (Hin ch Hch) as [_ Hm].
    exists Reran. split; [reflexivity|]. cbn zeta. split_and!.
    + intros ch' _ Hne. by destruct (Hne k).
    + intros; congruence.
    + intros _. exists k, ch. cbn. rewrite <- Hk. done.
Qed.

Lemma channels_section_store user_id pressed w :
  store (snd (channels_section user_id pressed w))
  = store (snd (listed_channels user_id w)) ∧
  requests (snd (channels_section user_id pressed w))
  = requests (snd (listed_channels user_id w)).
Proof.
  destruct (listed_channels_run user_id w) as (cs & w1 & Hrun & _).
  rewrite (channels_section_run _ _ _ _ _ Hrun), Hrun.
  destruct pressed as [|k| |]; try done.
  by destruct (filter _ cs).
Qed.

(** X20: the auto-join of the sidebar, on a reachable store. When none of
    the user's channels is called general, the channels section leaves the
    user a member of the channel 1, whatever the name of that channel and
    whether or not the table holds it; when one of them is called general,
    the section sends the one request of the list and changes no table. *)
Theorem sidebar_joins_channel_one (w : world) (user_id : string) (pressed : click) :
  faults w = [] →
  let mine :=
    filter (λ c, Member user_id (c_id c) ∈ Store.channel_members (store w))
           (Store.channels (store w)) in
  let w' := snd (channels_section user_id pressed w) in
  (has_general mine = false →
   Member user_id 1 ∈ Store.channel_members (store w')) ∧
  (has_general mine = true →
   store w' = store w ∧ requests w' = S (requests w)).
Proof.
  intros Hf. cbn zeta.
  destruct (channels_section_store user_id pressed w) as [-> ->].
  unfold listed_channels. rewrite bind_run.
  rewrite (get_user_channels_run user_id w), Hf. cbn [hd].
  split.
  - intros Hgen. rewrite Hgen, bind_run, join_channel_run.
    cbn [faults after_requests]. rewrite Hf. cbn [drop hd store].
    change (store (after_requests 1 w)) with (store w).
    destruct (decide (Member user_id 1 ∈ Store.channel_members (store w)))
      as [Hin|Hnot]; cbv beta iota; rewrite get_user_channels_run;
      cbn [faults after_requests set_store]; rewrite ?Hf; cbn [drop hd snd store].
    + done.
    + cbn. apply elem_of_app. right. left.
  - intros Hgen. rewrite Hgen. cbn. split; [done|lia].
Qed.

Lemma sidebar_joins_channel_one_witness :
  faults (Examples.small Examples.in_general) = [] ∧
  Member "bob" 1
  ∈ Store.channel_members
      (store (snd (channels_section "bob" NoClick (Examples.small Examples.in_general)))).
Proof.
  split; [reflexivity|].
  destruct (sidebar_joins_channel_one (Examples.small Examples.in_general) "bob" NoClick
              eq_refl) as [Hjoin _].
  apply Hjoin. reflexivity.
Defined.

Lemma join_channel_answers user_id channel_id w :
  ∃ b, fst (join_channel user_id channel_id w) = Ok b ∧
       (b = true →
        Member user_id channel_id
        ∈ Store.channel_members (store (snd (join_channel user_id channel_id w)))) ∧
       Store.channels (store (snd (join_channel user_id channel_id w)))
       = Store.channels (store w).
Proof.
  rewrite join_channel_run. destruct (hd None (faults w)) as [e|].
  - exists false. split; [done|]. split; [done|]. by destruct (contains _ _).
  - destruct (decide _); eexists; (split; [reflexivity|]); (split; [|done]).
    + done.
    + intros _. cbn. apply elem_of_app. right. left.
Qed.

Lemma browse_channels_run user_id channels pressed w :
  hd None (faults w) = None →
  let available :=
    available_channels
      (filter (λ ch, c_is_private ch = false) (Store.channels (store w))) channels in
  browse_channels user_id channels pressed w =
  match pressed with
  | JoinButton k =>
      match filter (λ ch, c_id ch = k) available with
      | ch :: _ =>
          match join_channel user_id (c_id ch) (after_requests 1 w) with
          | (Ok true, w') => (Ok Reran, w')
          | (Ok false, w') => (Ok (On available), w')
          | (Raised e, w') =>
              (Ok (On []), with_error ("Error loading channels: " ++ e)%string w')
          end
      | [] => (Ok (On available), after_requests 1 w)
      end
  | _ => (Ok (On available), after_requests 1 w)
  end.
Proof.
  intros Hs. cbn zeta. unfold browse_channels, try_except.
  rewrite bind_run. unfold execute, select_public_channels. rewrite Hs.
  assert (Hw : set_store (store w)
                 (World (store w) (session w) (tl (faults w)) (S (requests w))
                        (clock w) (ui_errors w))
               = after_requests 1 w).
  { unfold after_requests, set_store. cbn. by rewrite drop_one_tail. }
  rewrite Hw.
  destruct pressed as [| | |k]; try reflexivity.
  destruct (filter (λ ch, c_id ch = k) _) as [|ch l]; [reflexivity|].
  rewrite bind_run.
  destruct (join_channel user_id (c_id ch) (after_requests 1 w)) as [[[|]|e] w'];
    reflexivity.
Qed.

(** X21: the channel browser, when the store serves its query, offers
    exactly the channels of the table that are public and whose id is not
    among the user's channels; it reruns the script only after a Join button
    was pressed for an offered channel and the user became a member of it.
    When the query fails, it offers nothing and shows the error. *)
Theorem browser_offers_joinable_channels
    (w : world) (user_id : string) (channels : list channel) (pressed : click) :
  (served w →
   ∃ r,
     fst (browse_channels user_id channels pressed w) = Ok r ∧
     (∀ offered, r = On offered →
        ∀ c, c ∈ offered ↔
             c ∈ Store.channels (store w) ∧ c_is_private c = false ∧
             c_id c ∉ c_id <$> channels) ∧
     (r = Reran →
      ∃ c, pressed = JoinButton (c_id c) ∧
           c ∈ Store.channels (store w) ∧ c_is_private c = false ∧
           c_id c ∉ c_id <$> channels ∧
           Member user_id (c_id c)
           ∈ Store.channel_members
               (store (snd (browse_channels user_id channels pressed w))))) ∧
  (∀ e, hd None (faults w) = Some e →
        browse_channels user_id channels pressed w
        = (Ok (On []),
           with_error ("Error loading channels: " ++ e)%string (after_requests 1 w))).
Proof.
  split.
  - intros Hs. unfold served in Hs.
    rewrite (browse_channels_run _ _ _ _ Hs). cbn zeta.
    set (available := available_channels _ channels).
    assert (Havail : ∀ c, c ∈ available ↔
              c ∈ Store.channels (store w) ∧ c_is_private c = false ∧
              c_id c ∉ c_id <$> channels).
    { intros c. unfold available, available_channels.
      rewrite !list_elem_of_filter. tauto. }
    assert (Hdone : ∀ w0 : world,
              let res : outcome (went (list channel)) * world :=
                (Ok (On available), w0) in
              ∃ r, fst res = Ok r ∧
              (∀ offered, r = On offered → ∀ c, c ∈ offered ↔
                 c ∈ Store.channels (store w) ∧ c_is_private c = false ∧
                 c_id c ∉ c_id <$> channels) ∧
              (r = Reran →
               ∃ c, pressed = JoinButton (c_id c) ∧
                    c ∈ Store.channels (store w) ∧ c_is_private c = false ∧
                    c_id c ∉ c_id <$> channels ∧
                    Member user_id (c_id c)
                    ∈ Store.channel_members (store (snd res)))).
    { intros w0. cbn zeta. eexists. split; [reflexivity|]. split; [|done].
      by intros offered [= <-]. }
    cbn zeta in Hdone.
    destruct pressed as [| | |k]; try apply Hdone.
    destruct (filter (λ ch, c_id ch = k) available) as [|ch l] eqn:Hfilter;
      [apply Hdone|].
    assert (Hch : ch ∈ filter (λ ch, c_id ch = k) available) by (rewrite Hfilter; left).
    apply list_elem_of_filter in Hch as [Hk Hch]. apply Havail in Hch.
    destruct (join_channel_answers user_id (c_id ch) (after_requests 1 w))
      as (b & Hb & Hmember & _).
    destruct (join_channel user_id (c_id ch) (after_requests 1 w)) as [[[|]|e] w'];
      cbn [fst snd] in *; try discriminate Hb; try apply Hdone.
    exists Reran. split; [reflexivity|]. split; [done|].
    intros _. destruct Hch as (Hin & Hpublic & Hnew). subst k. exists ch.
    split; [done|]. split; [exact Hin|]. split; [exact Hpublic|].
    split; [exact Hnew|]. apply Hmember. by injection Hb.
  - intros e He. unfold browse_channels, try_except.
    rewrite bind_run. unfold execute. rewrite He.
    unfold after_requests. rewrite drop_one_tail. reflexivity.
Qed.

Lemma browser_offers_joinable_channels_witness :
  served (Examples.small Examples.in_general) ∧
  fst (browse_channels "bob" [] (JoinButton 1) (Examples.small Examples.in_general))
  = Ok Reran ∧
  fst (browse_channels "ann" [Examples.general] NoClick
         (Examples.small Examples.in_general))
  = Ok (On []).
Proof.
  split; [reflexivity|].
  destruct (browser_offers_joinable_channels (Examples.small Examples.in_general)
              "bob" [] (JoinButton 1)) as [Hserved _].
  destruct (Hserved eq_refl) as (r & Hr & _).
  split; [|reflexivity].
  rewrite Hr. vm_compute in Hr. injection Hr as <-. reflexivity.
Defined.

Lemma dm_buttons_run pressed users w :
  Forall (λ u, p_id u ≠ None) users →
  dm_buttons pressed users w =
  match pressed with
  | DmButton k =>
      match filter (λ u, p_id u = Some k) users with
      | u :: _ => (Ok Reran, set_session (set_view None (Some u) "dm" (session w)) w)
      | [] => (Ok (On ()), w)
      end
  | _ => (Ok (On ()), w)
  end.
Proof.
  induction 1 as [|u users Hu _ IH].
  - by destruct pressed.
  - cbn [dm_buttons]. rewrite bind_run. unfold dm_user_id at 1.
    destruct (p_id u) as [i|] eqn:Hi; [|done]. cbv beta iota.
    destruct pressed as [| |k|]; try exact IH.
    rewrite filter_cons. destruct (decide (i = k)) as [->|Hne].
    + rewrite decide_True by (by rewrite Hi). reflexivity.
    + rewrite decide_False by (rewrite Hi; congruence). exact IH.
Qed.

Lemma get_all_users_have_ids user_id w :
  truthy user_id = true →
  ∃ users w',
    get_all_users (Some user_id) w = (Ok users, w') ∧
    Forall (λ u, p_id u ≠ None) users ∧
    session w' = session w ∧ store w' = store w ∧
    (∀ u, u ∈ demo_users → p_id u ≠ Some user_id → u ∈ users).
Proof.
  intros Hx. rewrite get_all_users_run. unfold given. rewrite Hx.
  assert (Hdemo : Forall (λ u, p_id u ≠ None) demo_users).
  { apply Forall_forall. intros u Hu.
    apply demo_users_ids in Hu as (i & Hi & _). by rewrite Hi. }
  destruct (hd None (faults w)) as [e|]; do 2 eexists;
    (split; [reflexivity|]); split_and!; try done.
  - apply Forall_app. split.
    + apply Forall_forall. intros u Hu.
      apply list_elem_of_filter in Hu as [Hid _].
      unfold Store.id_other_than in Hid. by destruct (p_id u).
    + apply Forall_forall. intros u Hu.
      apply list_elem_of_filter in Hu as [_ Hu].
      revert u Hu. by apply Forall_forall.
  - intros u Hu Hne. apply elem_of_app. right. by apply list_elem_of_filter.
Qed.

(** X22: the direct messages section, for a user with an id that is not
    empty, never fails, reachable store or not, and changes no table. It
    reruns the script exactly when the button pressed is the button of a
    user of the list [get_all_users] answered; the session then is in the
    view dm with no current channel and the first user of the list with the
    id of the button selected, nothing else of the session changed. With no
    such button the session is left as it was. The button of a demo user
    other than the caller always is one of a listed user. *)
Theorem dm_button_opens_conversation
    (w : world) (user_id : string) (pressed : click) :
  truthy user_id = true →
  ∃ r users,
    fst (get_all_users (Some user_id) w) = Ok users ∧
    fst (direct_messages_section user_id pressed w) = Ok r ∧
    store (snd (direct_messages_section user_id pressed w)) = store w ∧
    (r = Reran ↔
     ∃ k u, pressed = DmButton k ∧ u ∈ users ∧ p_id u = Some k) ∧
    (r = Reran →
     ∃ k u,
       pressed = DmButton k ∧
       head (filter (λ u, p_id u = Some k) users) = Some u ∧
       session (snd (direct_messages_section user_id pressed w))
       = set_view None (Some u) "dm" (session w)) ∧
    (r = On () →
     session (snd (direct_messages_section user_id pressed w)) = session w) ∧
    (∀ k, pressed = DmButton k → is_demo_user k = true → k ≠ user_id →
          ∃ u, u ∈ users ∧ p_id u = Some k).
Proof.
  intros Hx. unfold direct_messages_section. rewrite bind_run.
  destruct (get_all_users_have_ids user_id w Hx)
    as (users & w1 & -> & Hids & Hsession & Hstore & Hdemo).
  cbv beta iota. rewrite (dm_buttons_run _ _ _ Hids). cbn [fst].
  assert (Hlisted : ∀ k, is_demo_user k = true → k ≠ user_id →
            ∃ u, u ∈ users ∧ p_id u = Some k).
  { intros k Hd Hne.
    assert (Hk : k ∈ demo_user_ids)
      by (unfold is_demo_user in Hd; by apply bool_decide_eq_true in Hd).
    assert (Hab : ∃ a b, demo_users = [a; b] ∧
                demo_user_ids = [default "" (p_id a); default "" (p_id b)] ∧
                p_id a ≠ None ∧ p_id b ≠ None)
      by (do 2 eexists; split_and!; [reflexivity|reflexivity|done|done]).
    destruct Hab as (a & b & Hab & Hl & Ha & Hb). rewrite Hl in Hk.
    rewrite !elem_of_cons, elem_of_nil in Hk.
    destruct Hk as [->|[->|[]]]; [exists a|exists b];
      (split; [apply Hdemo; [rewrite Hab, !elem_of_cons; auto|]|]).
    - destruct (p_id a); [|done]. cbn in Hne. congruence.
    - by destruct (p_id a).
    - destruct (p_id b); [|done]. cbn in Hne. congruence.
    - by destruct (p_id b). }
  assert (Hon : (∀ k u, pressed = DmButton k → u ∈ users → p_id u ≠ Some k) →
            ∃ (r : went unit) (users' : list profile),
              Ok users = Ok users' ∧ Ok (On ()) = Ok r ∧ store w1 = store w ∧
              (r = Reran ↔
               ∃ k u, pressed = DmButton k ∧ u ∈ users' ∧ p_id u = Some k) ∧
              (r = Reran →
               ∃ k u, pressed = DmButton k ∧
                      head (filter (λ u, p_id u = Some k) users') = Some u ∧
                      session w1 = set_view None (Some u) "dm" (session w)) ∧
              (r = On () → session w1 = session w) ∧
              (∀ k, pressed = DmButton k → is_demo_user k = true → k ≠ user_id →
                    ∃ u, u ∈ users' ∧ p_id u = Some k)).
  { intros Hnone. exists (On ()), users. split_and!; try done.
    - split; [done|]. intros (k & u & Hp & Hu & Hid). by destruct (Hnone k u).
    - intros k _. apply Hlisted. }
  destruct pressed as [| |k|]; try (apply Hon; by intros k u).
  destruct (filter (λ u, p_id u = Some k) users) as [|u l] eqn:Hfilter.
  - apply Hon. intros k' u [= <-] Hu Hid.
    assert (Hin : u ∈ filter (λ u, p_id u = Some k) users)
      by (by apply list_elem_of_filter).
    rewrite Hfilter in Hin. by apply elem_of_nil in Hin.
  - exists Reran, users. cbn [fst snd].
    assert (Hu : u ∈ filter (λ u, p_id u = Some k) users) by (rewrite Hfilter; left).
    apply list_elem_of_filter in Hu as [Hid Hu].
    split_and!; try done.
    + split; [|done]. intros _. by exists k, u.
    + intros _. exists k, u. rewrite Hfilter. cbn. by rewrite Hsession.
    + intros k' _. apply Hlisted.
Qed.

Lemma dm_button_opens_conversation_witness :
  truthy "ann" = true ∧
  fst (direct_messages_section "ann" (DmButton Examples.alex)
         (Examples.outage Examples.in_general)) = Ok Reran.
Proof.
  split; [reflexivity|].
  destruct (dm_button_opens_conversation (Examples.outage Examples.in_general)
              "ann" (DmButton Examples.alex) eq_refl)
    as (r & users & _ & -> & _ & Hiff & _ & _ & Hdemo).
  f_equal. apply Hiff.
  destruct (Hdemo Examples.alex eq_refl eq_refl) as (u & Hu & Hid);
    [discriminate|]. by exists Examples.alex, u.
Defined.

End SidebarFacts.

(** ** Channel creation, the default workspace and the profile of the user *)

Section CreationFacts.

Import Sidebar Creation.

Lemma execute_cases {A} (q : Store.db → outcome A * Store.db) (w : world) :
  (∃ e, hd None (faults w) = Some e ∧ execute q w = (Raised e, after_requests 1 w)) ∨
  (hd None (faults w) = None ∧
   ∃ r d, q (store w) = (r, d) ∧ execute q w = (r, set_store d (after_requests 1 w))).
Proof.
  unfold execute. destruct (hd None (faults w)) as [e|].
  - left. exists e. split; [done|]. unfold after_requests.
    by rewrite drop_one_tail.
  - right. split; [done|]. destruct (q (store w)) as [r d]. exists r, d.
    split; [done|]. unfold after_requests, set_store. cbn.
    by rewrite drop_one_tail.
Qed.

Lemma join_channel_page user_id channel_id (w : world) :
  ∃ b w',
    join_channel user_id channel_id w = (Ok b, w') ∧
    session w' = session w ∧ clock w' = clock w ∧
    requests w' = S (requests w) ∧ faults w' = drop 1 (faults w) ∧
    (ui_errors w' = ui_errors w ∨
     ∃ e, ui_errors w' = ("Error joining channel: " ++ e)%string :: ui_errors w).
Proof.
  rewrite join_channel_run. destruct (hd None (faults w)) as [e|].
  - destruct (contains _ _); do 2 eexists; (split; [reflexivity|]);
      split_and!; try done; [by left|right; by exists e].
  - destruct (decide _); do 2 eexists; (split; [reflexivity|]);
      split_and!; try done; by left.
Qed.

Lemma create_channel_run `{Schema} user_id workspace_id name description (w : world) :
  create_channel user_id workspace_id name description w =
  match hd None (faults w) with
  | Some e =>
      (Ok None,
       with_error ("Error creating channel: " ++ e)%string (after_requests 1 w))
  | None =>
      match insert_channel workspace_id name description user_id (store w) with
      | (Ok (row :: _), d) =>
          (Ok (Some row),
           snd (join_channel user_id (c_id row) (set_store d (after_requests 1 w))))
      | (Ok [], d) => (Ok None, set_store d (after_requests 1 w))
      | (Raised e, d) =>
          (Ok None,
           with_error ("Error creating channel: " ++ e)%string
             (set_store d (after_requests 1 w)))
      end
  end.
Proof.
  unfold create_channel, try_except. rewrite bind_run.
  destruct (execute_cases
              (insert_channel workspace_id name description user_id) w)
    as [(e & -> & ->)|(-> & r & d & -> & ->)]; [reflexivity|].
  destruct r as [[|row rows]|e]; try reflexivity.
  rewrite bind_run.
  destruct (join_channel_page user_id (c_id row) (set_store d (after_requests 1 w)))
    as (b & w' & -> & _). reflexivity.
Qed.

(** X23: on a reachable store that answers the insert with a row,
    [create_channel] answers that row after two requests, also when the
    creator could not be joined. If the second request is served the creator
    is a member of the new channel; if it fails, the table of members is the
    one the insert left, so that a creator who was no member of it is none
    now, and the failure is shown as an error of joining unless it is the
    duplicate-key condition. *)
Theorem created_channel_has_its_creator `{Schema}
    (w : world) (user_id : string) (workspace_id : Z) (name description : string)
    (row : channel) (rows : list channel) (d : Store.db) :
  served w →
  insert_channel workspace_id name description user_id (store w)
  = (Ok (row :: rows), d) →
  let w' := snd (create_channel user_id workspace_id name description w) in
  fst (create_channel user_id workspace_id name description w) = Ok (Some row) ∧
  requests w' = (2 + requests w)%nat ∧
  (hd None (tl (faults w)) = None →
   Member user_id (c_id row) ∈ Store.channel_members (store w')) ∧
  (∀ e, hd None (tl (faults w)) = Some e →
        Store.channel_members (store w') = Store.channel_members d ∧
        (contains "duplicate key" (lower e) = false →
         ui_errors w' = ("Error joining channel: " ++ e)%string :: ui_errors w)).
Proof.
  intros Hs Hrow. unfold served in Hs. cbv zeta.
  rewrite create_channel_run, Hs, Hrow. cbn [fst snd].
  rewrite join_channel_run.
  change (faults (set_store d (after_requests 1 w))) with (drop 1 (faults w)).
  rewrite drop_one_tail.
  destruct (hd None (tl (faults w))) as [e|].
  - split; [done|]. split; [by destruct (contains _ _)|]. split; [done|].
    intros e' [= <-]. destruct (contains _ _); split; try done.
  - change (store (set_store d (after_requests 1 w))) with d.
    destruct (decide _) as [Hin|Hout]; cbn [snd].
    + split; [done|]. split; [done|]. split; [done|]. done.
    + split; [done|]. split; [done|]. split; [|done].
      intros _. cbn. apply elem_of_app. right. left.
Qed.

Lemma created_channel_has_its_creator_witness :
  let make := @create_channel example_schema "ann" 1 "random" "" in
  fst (make (Examples.small Examples.in_general))
  = Ok (Some (Channel 3 "random" "" false)) ∧
  Member "ann" 3
  ∈ Store.channel_members (store (snd (make (Examples.small Examples.in_general)))).
Proof.
  destruct (@created_channel_has_its_creator example_schema
              (Examples.small Examples.in_general) "ann" 1 "random" ""
              (Channel 3 "random" "" false) [] _ eq_refl eq_refl)
    as (Hrow & _ & Hmember & _).
  split; [exact Hrow|]. by apply Hmember.
Defined.

(** X24: [create_channel] never raises. It answers no channel exactly when
    the insert failed or brought no row back, and then the one request was
    sent and nobody was joined to anything; when the store could not be
    reached, the tables are as they were and the error is shown. *)
Theorem create_channel_reports_failure `{Schema}
    (w : world) (user_id : string) (workspace_id : Z) (name description : string) :
  let w' := snd (create_channel user_id workspace_id name description w) in
  ∃ r,
    fst (create_channel user_id workspace_id name description w) = Ok r ∧
    (r = None ↔
     ¬ (served w ∧
        ∃ row rows d,
          insert_channel workspace_id name description user_id (store w)
          = (Ok (row :: rows), d))) ∧
    (r = None → requests w' = S (requests w)) ∧
    (∀ e, hd None (faults w) = Some e →
          store w' = store w ∧
          ui_errors w' = ("Error creating channel: " ++ e)%string :: ui_errors w).
Proof.
  cbv zeta. rewrite create_channel_run. unfold served.
  destruct (hd None (faults w)) as [e|].
  - exists None. cbn [fst snd]. split; [done|]. split.
    + split; [|done]. intros _ [? _]. done.
    + split; [done|]. by intros e' [= <-].
  - destruct (insert_channel workspace_id name description user_id (store w))
      as [[[|row rows]|e] d]; eexists; cbn [fst snd];
      (split; [reflexivity|]); (split; [|split; [|done]]); try done.
    + split; [|done]. by intros _ (_ & ? & ? & ? & ?).
    + split; [done|]. intros Hno. exfalso. apply Hno. split; [done|].
      by exists row, rows, d.
    + split; [|done]. by intros _ (_ & ? & ? & ? & ?).
Qed.

Lemma replace_length old new s :
  String.length (replace old new s) = String.length s.
Proof. induction s as [|c s IH]; cbn; [done|]. by rewrite IH. Qed.

Lemma lower_length s : String.length (lower s) = String.length s.
Proof. induction s as [|c s IH]; cbn; [done|]. by rewrite IH. Qed.

Lemma truthy_length s : truthy s = true ↔ (0 < String.length s)%nat.
Proof. destruct s; cbn; split; (done || lia). Qed.

Lemma lower_ascii_not_upper c :
  ¬ (65 ≤ nat_of_ascii (lower_ascii c) ≤ 90)%nat.
Proof.
  unfold lower_ascii.
  destruct ((65 <=? nat_of_ascii c)%nat && (nat_of_ascii c <=? 90)%nat) eqn:Hc.
  - apply andb_true_iff in Hc as [H1 H2].
    apply Nat.leb_le in H1, H2.
    rewrite nat_ascii_embedding by lia. lia.
  - intros [H1 H2]. apply andb_false_iff in Hc as [Hc|Hc];
      apply Nat.leb_gt in Hc; lia.
Qed.

Lemma replace_no_old s c :
  c ∈ list_ascii_of_string (replace " " "-" s) → c ≠ " "%char.
Proof.
  induction s as [|a s IH]; cbn [replace list_ascii_of_string].
  - by intros ?%elem_of_nil.
  - intros [->|Hc]%elem_of_cons; [|by apply IH].
    destruct (Ascii.eqb a " ") eqn:Ha; [discriminate|].
    intros Heq. rewrite Heq in Ha. discriminate Ha.
Qed.

Lemma clean_characters s c :
  c ∈ list_ascii_of_string (replace " " "-" (lower s)) →
  ¬ (65 ≤ nat_of_ascii c ≤ 90)%nat.
Proof.
  induction s as [|a s IH]; cbn [lower replace list_ascii_of_string].
  - by intros ?%elem_of_nil.
  - intros [->|Hc]%elem_of_cons; [|by apply IH].
    destruct (Ascii.eqb (lower_ascii a) " ").
    + change (nat_of_ascii "-") with 45%nat. lia.
    + apply lower_ascii_not_upper.
Qed.

Lemma lower_ascii_below c :
  (nat_of_ascii c < 128)%nat → (nat_of_ascii (lower_ascii c) < 128)%nat.
Proof.
  intros Hc. unfold lower_ascii.
  destruct ((65 <=? nat_of_ascii c)%nat && (nat_of_ascii c <=? 90)%nat) eqn:Hup;
    [|done].
  apply andb_true_iff in Hup as [H1 H2]. apply Nat.leb_le in H1, H2.
  rewrite nat_ascii_embedding by lia. lia.
Qed.

Lemma clean_is_ascii s :
  is_ascii s → is_ascii (replace " " "-" (lower s)).
Proof.
  unfold is_ascii.
  induction s as [|a s IH]; cbn [lower replace list_ascii_of_string]; [done|].
  intros [Ha Hs]%Forall_cons. apply Forall_cons. split; [|by apply IH].
  destruct (Ascii.eqb (lower_ascii a) " ").
  - change (nat_of_ascii "-") with 45%nat. lia.
  - by apply lower_ascii_below.
Qed.

Lemma rev_string_chars s acc :
  list_ascii_of_string (rev_string s acc)
  = (rev (list_ascii_of_string s) ++ list_ascii_of_string acc)%list.
Proof.
  revert acc. induction s as [|c s IH]; intros acc; cbn [rev_string]; [done|].
  rewrite IH. cbn [list_ascii_of_string rev]. by rewrite <- app_assoc.
Qed.

Lemma reverse_is_ascii s : is_ascii s → is_ascii (reverse s).
Proof.
  unfold is_ascii, reverse. rewrite rev_string_chars.
  cbn [list_ascii_of_string]. rewrite app_nil_r. apply List.Forall_rev.
Qed.

Lemma drop_prefix_is_ascii p s r :
  drop_prefix p s = Some r → is_ascii s → is_ascii r.
Proof.
  revert s. induction p as [|a p IH]; intros [|b s]; cbn [drop_prefix];
    try discriminate; try (by intros [= <-]).
  destruct (Ascii.eqb a b); [|discriminate].
  intros Hr [_ Hs]%Forall_cons. by apply (IH s).
Qed.

Lemma drop_one_is_ascii ws s r :
  drop_one ws s = Some r → is_ascii s → is_ascii r.
Proof.
  induction ws as [|w ws IH]; cbn [drop_one]; [discriminate|].
  destruct (drop_prefix w s) as [r'|] eqn:Hw; [|exact IH].
  intros [= <-]. by apply (drop_prefix_is_ascii w).
Qed.

Lemma lstrip_with_is_ascii ws fuel s :
  is_ascii s → is_ascii (lstrip_with ws fuel s).
Proof.
  revert s. induction fuel as [|fuel IH]; intros s Hs; cbn [lstrip_with]; [done|].
  destruct (drop_one ws s) as [r|] eqn:Hr; [|done].
  apply IH. by apply (drop_one_is_ascii ws s).
Qed.

Lemma strip_is_ascii s : is_ascii s → is_ascii (strip s).
Proof.
  intros Hs. unfold strip, rstrip, lstrip.
  by apply reverse_is_ascii, lstrip_with_is_ascii, reverse_is_ascii,
     lstrip_with_is_ascii.
Qed.

(** X25: the name under which the form creates a channel holds no space,
    whatever the name typed. Made of a name of ASCII characters that is not
    blank, it is not empty, as long as the stripped name, of ASCII
    characters, and holds none of the letters A to Z. *)
Theorem clean_name_is_normalised `{Lowering} (new_channel_name : string) :
  (∀ c, c ∈ list_ascii_of_string (clean_name new_channel_name) →
        c ≠ " "%char) ∧
  (is_ascii new_channel_name →
   truthy (strip new_channel_name) = true →
   truthy (clean_name new_channel_name) = true ∧
   String.length (clean_name new_channel_name)
   = String.length (strip new_channel_name) ∧
   is_ascii (clean_name new_channel_name) ∧
   ∀ c, c ∈ list_ascii_of_string (clean_name new_channel_name) →
        ¬ (65 ≤ nat_of_ascii c ≤ 90)%nat).
Proof.
  unfold clean_name. split; [intros c; apply replace_no_old|].
  intros Hascii Hname.
  rewrite (str_lower_ascii _ (strip_is_ascii _ Hascii)).
  assert (Hlen : String.length (replace " " "-" (lower (strip new_channel_name)))
                 = String.length (strip new_channel_name))
    by (by rewrite replace_length, lower_length).
  split_and!.
  - apply truthy_length. rewrite Hlen. by apply truthy_length.
  - exact Hlen.
  - by apply clean_is_ascii, strip_is_ascii.
  - apply clean_characters.
Qed.

Lemma clean_name_is_normalised_witness :
  is_ascii "  Team Chat " ∧
  truthy (strip "  Team Chat ") = true ∧
  @clean_name ascii_lowering "  Team Chat " = "team-chat" ∧
  String.length (@clean_name ascii_lowering "  Team Chat ") = 9%nat.
Proof.
  assert (Hascii : is_ascii "  Team Chat ").
  { unfold is_ascii. cbn [list_ascii_of_string].
    repeat (apply Forall_cons_2; [vm_compute; lia|]). apply Forall_nil_2. }
  split; [exact Hascii|]. split; [reflexivity|]. split; [reflexivity|].
  destruct (proj2 (@clean_name_is_normalised ascii_lowering "  Team Chat ")
              Hascii eq_refl) as (_ & Hlen & _).
  rewrite Hlen. reflexivity.
Defined.

(** X26: the form of the sidebar never raises. A blank name sends nothing
    to the store and shows "Please enter a channel name"; with another name
    the form reruns the script exactly when the store was reached and
    answered with a row the insert, into the workspace 1, of the name
    stripped, lowered by the runtime and with its spaces replaced by
    hyphens, whether or not the creator could be joined to the channel. *)
Theorem channel_form_creates_clean_name `{Schema} `{Lowering}
    (w : world) (user_id new_channel_name new_channel_desc : string) :
  ∃ r,
    fst (create_channel_form user_id (Some (new_channel_name, new_channel_desc)) w)
    = Ok r ∧
    (truthy (strip new_channel_name) = false →
     r = On () ∧
     snd (create_channel_form user_id
            (Some (new_channel_name, new_channel_desc)) w)
     = with_error "Please enter a channel name" w) ∧
    (truthy (strip new_channel_name) = true →
     (r = Reran ↔
      served w ∧
      ∃ row rows d,
        insert_channel 1 (clean_name new_channel_name) new_channel_desc user_id
                       (store w)
        = (Ok (row :: rows), d))).
Proof.
  unfold create_channel_form.
  destruct (truthy (strip new_channel_name)); [|by exists (On ())].
  rewrite bind_run, create_channel_run. unfold served.
  destruct (hd None (faults w)) as [e|].
  - exists (On ()). split; [done|]. split; [done|]. intros _.
    split; [done|]. by intros [? _].
  - destruct (insert_channel 1 (clean_name new_channel_name) new_channel_desc
                user_id (store w)) as [[[|row rows]|e] d].
    + exists (On ()). split; [done|]. split; [done|]. intros _.
      split; [done|]. by intros (_ & ? & ? & ? & ?).
    + exists Reran. split; [done|]. split; [done|]. intros _.
      split; [|done]. intros _. split; [done|]. by exists row, rows, d.
    + exists (On ()). split; [done|]. split; [done|]. intros _.
      split; [done|]. by intros (_ & ? & ? & ? & ?).
Qed.

Lemma channel_form_creates_clean_name_witness :
  truthy (strip "  Team Chat ") = true ∧
  fst (@create_channel_form example_schema ascii_lowering "ann"
         (Some ("  Team Chat ", "")) (Examples.small Examples.in_general))
  = Ok Reran ∧
  fst (@create_channel_form example_schema ascii_lowering "ann"
         (Some ("   ", "")) (Examples.small Examples.in_general))
  = Ok (On ()).
Proof.
  split; [reflexivity|].
  destruct (@channel_form_creates_clean_name example_schema ascii_lowering
              (Examples.small Examples.in_general) "ann" "  Team Chat " "")
    as (r & Hr & _ & Hrerun).
  split; [|reflexivity].
  rewrite Hr. f_equal. apply (Hrerun eq_refl). split; [reflexivity|].
  by eexists _, _, _.
Defined.

Lemma page_after_trans n m shown shown' (w w1 w2 : world) :
  page_after n shown w w1 → page_after m shown' w1 w2 →
  page_after (n + m) (shown' ++ shown) w w2.
Proof.
  intros (Hs & Hc & Hr & Hf & He) (Hs' & Hc' & Hr' & Hf' & He').
  unfold page_after. rewrite Hs', Hc', Hr', Hf', He', Hs, Hc, Hr, Hf, He.
  split_and!; try done.
  - lia.
  - by rewrite drop_drop.
  - by rewrite <- app_assoc.
Qed.

Lemma execute_page {A} (q : Store.db → outcome A * Store.db) (w : world) :
  ∃ r w', execute q w = (r, w') ∧ page_after 1 [] w w'.
Proof.
  destruct (execute_cases q w) as [(e & _ & ->)|(_ & r & d & _ & ->)];
    do 2 eexists; (split; [reflexivity|]); done.
Qed.

Lemma join_channel_page_after user_id channel_id (w : world) :
  ∃ b w' shown,
    join_channel user_id channel_id w = (Ok b, w') ∧ page_after 1 shown w w' ∧
    (shown = [] ∨ ∃ e, shown = ["Error joining channel: " ++ e]%string).
Proof.
  rewrite join_channel_run. destruct (hd None (faults w)) as [e|].
  - destruct (contains _ _).
    + exists false, (after_requests 1 w), []. split_and!; try done. by left.
    + eexists false, _, [_]. split_and!; try done. right. by exists e.
  - destruct (decide _).
    + exists false, (after_requests 1 w), []. split_and!; try done. by left.
    + eexists true, _, []. split_and!; try done. by left.
Qed.

Lemma general_channel_page `{Schema} user_id workspace_id (w : world) :
  ∃ r w' n shown,
    (channel_result ← execute (select_channel "general" workspace_id);
     match channel_result with
     | [] =>
         channel_result ←
           execute (insert_channel workspace_id "general"
                      "General discussion channel" user_id);
         match channel_result with
         | ch :: _ => _ ← join_channel user_id (c_id ch); mret ()
         | [] => mret ()
         end
     | ch :: _ => _ ← join_channel user_id (c_id ch); mret ()
     end) w = (r, w') ∧
    (1 ≤ n ≤ 3)%nat ∧ page_after n shown w w' ∧
    (shown = [] ∨ ∃ e, shown = ["Error joining channel: " ++ e]%string).
Proof.
  rewrite bind_run.
  destruct (execute_page (select_channel "general" workspace_id) w)
    as (r1 & w1 & -> & H1).
  destruct r1 as [[|ch chs]|e].
  - rewrite bind_run.
    destruct (execute_page
                (insert_channel workspace_id "general"
                   "General discussion channel" user_id) w1)
      as (r2 & w2 & -> & H2).
    pose proof (page_after_trans _ _ _ _ _ _ _ H1 H2) as H12.
    destruct r2 as [[|ch chs]|e].
    + exists (Ok ()), w2, 2%nat, []. split_and!; try done; try lia. by left.
    + rewrite bind_run.
      destruct (join_channel_page_after user_id (c_id ch) w2)
        as (b & w3 & shown & -> & H3 & Hshown).
      pose proof (page_after_trans _ _ _ _ _ _ _ H12 H3) as H123.
      rewrite app_nil_r in H123.
      exists (Ok ()), w3, 3%nat, shown. split_and!; try done; lia.
    + exists (Raised e), w2, 2%nat, []. split_and!; try done; try lia. by left.
  - rewrite bind_run.
    destruct (join_channel_page_after user_id (c_id ch) w1)
      as (b & w2 & shown & -> & H2 & Hshown).
    pose proof (page_after_trans _ _ _ _ _ _ _ H1 H2) as H12.
    rewrite app_nil_r in H12.
    exists (Ok ()), w2, 2%nat, shown. split_and!; try done; lia.
  - exists (Raised e), w1, 1%nat, []. split_and!; try done; try lia. by left.
Qed.

Lemma ensure_default_page `{Schema} user_id (w : world) :
  ∃ w' n shown,
    ensure_default_workspace_and_channel user_id w = (Ok (), w') ∧
    (1 ≤ n ≤ 5)%nat ∧ page_after n shown w w' ∧
    (shown = [] ∨ ∃ e, shown = ["Error joining channel: " ++ e]%string).
Proof.
  unfold ensure_default_workspace_and_channel, try_except.
  assert (Hrest : ∀ (k : nat) (w1 : world) workspace_id,
            (1 ≤ k ≤ 2)%nat → page_after k [] w w1 →
            ∃ w' n shown,
              match
                (channel_result ← execute (select_channel "general" workspace_id);
                 match channel_result with
                 | [] =>
                     channel_result ←
                       execute (insert_channel workspace_id "general"
                                  "General discussion channel" user_id);
                     match channel_result with
                     | ch :: _ => _ ← join_channel user_id (c_id ch); mret ()
                     | [] => mret ()
                     end
                 | ch :: _ => _ ← join_channel user_id (c_id ch); mret ()
                 end) w1
              with
              | (Ok a, w') => (Ok a, w')
              | (Raised _, w') => (Ok (), w')
              end = (Ok (), w') ∧
              (1 ≤ n ≤ 5)%nat ∧ page_after n shown w w' ∧
              (shown = [] ∨ ∃ e, shown = ["Error joining channel: " ++ e]%string)).
  { intros k w1 workspace_id Hk H1.
    destruct (general_channel_page user_id workspace_id w1)
      as (r & w' & n & shown & -> & Hn & Hpage & Hshown).
    pose proof (page_after_trans _ _ _ _ _ _ _ H1 Hpage) as Hall.
    rewrite app_nil_r in Hall.
    exists w', (k + n)%nat, shown.
    split; [by destruct r as [[]|]|]. split_and!; try done; lia. }
  rewrite bind_run.
  destruct (execute_page (select_workspace "Default Workspace") w)
    as (r1 & w1 & -> & H1).
  destruct r1 as [[|ws wss]|e].
  - rewrite !bind_run.
    destruct (execute_page
                (insert_workspace "Default Workspace"
                   "Main workspace for the team" user_id) w1)
      as (r2 & w2 & -> & H2).
    pose proof (page_after_trans _ _ _ _ _ _ _ H1 H2) as H12.
    destruct r2 as [[|ws wss]|e].
    + exists w2, 2%nat, []. split_and!; try done; try lia. by left.
    + apply (Hrest 2%nat); [lia|done].
    + exists w2, 2%nat, []. split_and!; try done; try lia. by left.
  - rewrite bind_run. apply (Hrest 1%nat); [lia|done].
  - exists w1, 1%nat, []. split_and!; try done; try lia. by left.
Qed.

(** X27: [ensure_default_workspace_and_channel] never raises and answers
    nothing, whatever the store answers and wherever it fails. It sends at
    least one request and at most five, leaves the session as it was, and is
    silent except for the join: the one error it can show is the error of
    joining the channel general. *)
Theorem bootstrap_is_silent_but_for_join `{Schema} (w : world) (user_id : string) :
  ∃ w' n,
    ensure_default_workspace_and_channel user_id w = (Ok (), w') ∧
    (1 ≤ n ≤ 5)%nat ∧
    requests w' = (n + requests w)%nat ∧
    faults w' = drop n (faults w) ∧
    session w' = session w ∧
    (ui_errors w' = ui_errors w ∨
     ∃ e, ui_errors w' = ("Error joining channel: " ++ e)%string :: ui_errors w).
Proof.
  destruct (ensure_default_page user_id w)
    as (w' & n & shown & Hrun & Hn & (Hs & _ & Hr & Hf & He) & Hshown).
  exists w', n. split_and!; try done; try lia.
  destruct Hshown as [->|[e ->]]; [by left|right; by exists e].
Qed.

Lemma execute_served {A} (q : Store.db → outcome A * Store.db) (w : world) :
  served w →
  execute q w = (fst (q (store w)), set_store (snd (q (store w))) (after_requests 1 w)).
Proof.
  intros Hs. unfold served in Hs.
  destruct (execute_cases q w) as [(e & He & _)|(_ & r & d & Hq & ->)];
    [congruence|]. by rewrite Hq.
Qed.

Lemma served_later (n : nat) (d : Store.db) (w : world) :
  served (after_requests n w) → served (set_store d (after_requests n w)).
Proof. done. Qed.

Lemma join_channel_members user_id channel_id (w : world) :
  served w →
  Store.channel_members (store (snd (join_channel user_id channel_id w)))
  = (if decide (Member user_id channel_id ∈ Store.channel_members (store w))
     then Store.channel_members (store w)
     else Store.channel_members (store w) ++ [Member user_id channel_id])%list.
Proof.
  intros Hs. unfold served in Hs. rewrite join_channel_run, Hs.
  by destruct (decide _).
Qed.

Lemma joined_then_member (row : member) (l : list member) :
  row ∈ (if decide (row ∈ l) then l else l ++ [row])%list.
Proof.
  destruct (decide _); [done|]. apply elem_of_app. right. left.
Qed.

(** X28: when the next requests are served and the store knows the default
    workspace, [ensure_default_workspace_and_channel] leaves the user a member
    of the channel general of that workspace: of the first one the store
    finds under that name, or, when it finds none, of the one it answers to
    the insert. *)
Theorem bootstrap_joins_general `{Schema}
    (w : world) (user_id : string) (ws : workspace) (wss : list workspace)
    (found : list channel) (ch : channel) (chs : list channel)
    (d1 d2 d3 : Store.db) :
  (∀ i, (i < 4)%nat → served (after_requests i w)) →
  select_workspace "Default Workspace" (store w) = (Ok (ws :: wss), d1) →
  select_channel "general" (ws_id ws) d1 = (Ok found, d2) →
  (found = ch :: chs ∧ d3 = d2) ∨
  (found = [] ∧
   insert_channel (ws_id ws) "general" "General discussion channel" user_id d2
   = (Ok (ch :: chs), d3)) →
  let w' := snd (ensure_default_workspace_and_channel user_id w) in
  Member user_id (c_id ch) ∈ Store.channel_members (store w') ∧
  Store.channel_members (store w')
  = (if decide (Member user_id (c_id ch) ∈ Store.channel_members d3)
     then Store.channel_members d3
     else Store.channel_members d3 ++ [Member user_id (c_id ch)])%list.
Proof.
  intros Hserved Hws Hfound Hch. cbv zeta.
  assert (H0 : served w) by (rewrite <- (after_requests_0 w); apply Hserved; lia).
  unfold ensure_default_workspace_and_channel, try_except.
  rewrite bind_run, (execute_served _ _ H0), Hws. cbn [fst snd].
  rewrite !bind_run.
  change ((mret (Some (ws_id ws)) : M (option Z))
            (set_store d1 (after_requests 1 w)))
    with (Ok (Some (ws_id ws)), set_store d1 (after_requests 1 w)).
  cbv beta iota.
  rewrite bind_run, execute_served by (apply served_later, Hserved; lia).
  change (store (set_store d1 (after_requests 1 w))) with d1.
  rewrite Hfound. cbn [fst snd].
  change (after_requests 1 (set_store d1 (after_requests 1 w)))
    with (set_store d1 (after_requests 1 (after_requests 1 w))).
  rewrite after_requests_S.
  change (set_store d2 (set_store d1 (after_requests 2 w)))
    with (set_store d2 (after_requests 2 w)).
  assert (Hjoin : ∀ (n : nat) (w3 : world),
            (n < 4)%nat → w3 = set_store d3 (after_requests n w) →
            let w' := snd ((join_channel user_id (c_id ch) ≫= λ _ : bool, mret ()) w3) in
            Member user_id (c_id ch) ∈ Store.channel_members (store w') ∧
            Store.channel_members (store w')
            = (if decide (Member user_id (c_id ch) ∈ Store.channel_members d3)
               then Store.channel_members d3
               else Store.channel_members d3 ++ [Member user_id (c_id ch)])%list).
  { intros n w3 Hn ->. cbv zeta.
    pose proof (join_channel_members user_id (c_id ch)
                  (set_store d3 (after_requests n w))
                  (served_later _ _ _ (Hserved n Hn))) as Hm.
    change (store (set_store d3 (after_requests n w))) with d3 in Hm.
    rewrite bind_run.
    destruct (join_channel user_id (c_id ch) (set_store d3 (after_requests n w)))
      as [[b|e] w'']; cbn [snd] in Hm;
      change (Store.channel_members (store w'')
              = (if decide (Member user_id (c_id ch) ∈ Store.channel_members d3)
                 then Store.channel_members d3
                 else Store.channel_members d3 ++ [Member user_id (c_id ch)])%list)
        in Hm;
      [change (snd ((mret () : M unit) w'')) with w''|];
      cbn [snd]; rewrite Hm; (split; [apply joined_then_member|done]). }
  destruct Hch as [[-> ->]|[-> Hins]].
  - destruct (Hjoin 2%nat (set_store d2 (after_requests 2 w))) as [Hin Hall];
      [lia|done|]. cbv zeta in Hin, Hall.
    destruct ((join_channel user_id (c_id ch) ≫= λ _ : bool, mret ())
                (set_store d2 (after_requests 2 w))) as [[[]|e] w'];
      cbn [snd] in *; done.
  - rewrite bind_run, execute_served by (apply served_later, Hserved; lia).
    change (store (set_store d2 (after_requests 2 w))) with d2.
    rewrite Hins. cbn [fst snd].
    change (after_requests 1 (set_store d2 (after_requests 2 w)))
      with (set_store d2 (after_requests 1 (after_requests 2 w))).
    rewrite after_requests_add. change (2 + 1)%nat with 3%nat.
    change (set_store d3 (set_store d2 (after_requests 3 w)))
      with (set_store d3 (after_requests 3 w)).
    destruct (Hjoin 3%nat (set_store d3 (after_requests 3 w))) as [Hin Hall];
      [lia|done|]. cbv zeta in Hin, Hall.
    destruct ((join_channel user_id (c_id ch) ≫= λ _ : bool, mret ())
                (set_store d3 (after_requests 3 w))) as [[[]|e] w'];
      cbn [snd] in *; done.
Qed.

Lemma bootstrap_joins_general_witness :
  Member "bob" 1
  ∈ Store.channel_members
      (store (snd (@ensure_default_workspace_and_channel example_schema "bob"
                     (Examples.small Examples.in_general)))).
Proof.
  refine (proj1 (@bootstrap_joins_general example_schema
                   (Examples.small Examples.in_general) "bob"
                   (Workspace 1 "Default Workspace") [] [Examples.general]
                   Examples.general [] Examples.small_db Examples.small_db
                   Examples.small_db _ eq_refl eq_refl _)).
  - intros i _. unfold served. cbn. by destruct i.
  - left. done.
Defined.

Lemma create_or_update_user_profile_run `{Schema} (user : auth_user) (w : world) :
  let w0 := World (store w) (session w) (faults w) (requests w)
                  (tl (clock w)) (ui_errors w) in
  create_or_update_user_profile user w =
  match hd None (faults w) with
  | Some e =>
      (Ok None,
       with_error ("Error creating user profile: " ++ e)%string
         (after_requests 1 w0))
  | None =>
      match upsert_profile (profile_row user) (hd 0 (clock w)) (store w) with
      | (Ok rows, d) =>
          (Ok (head rows),
           snd (ensure_default_workspace_and_channel (au_id user)
                  (set_store d (after_requests 1 w0))))
      | (Raised e, d) =>
          (Ok None,
           with_error ("Error creating user profile: " ++ e)%string
             (set_store d (after_requests 1 w0)))
      end
  end.
Proof.
  cbv zeta. unfold create_or_update_user_profile, try_except.
  rewrite bind_run. unfold read_clock. cbv beta iota.
  set (w0 := World (store w) (session w) (faults w) (requests w)
                   (tl (clock w)) (ui_errors w)).
  rewrite bind_run.
  destruct (execute_cases (upsert_profile (profile_row user) (hd 0 (clock w))) w0)
    as [(e & Hf & ->)|(Hf & r & d & Hq & ->)];
    change (faults w0) with (faults w) in Hf; rewrite Hf; [reflexivity|].
  change (store w0) with (store w) in Hq. rewrite Hq.
  destruct r as [rows|e]; [|reflexivity].
  rewrite bind_run.
  destruct (ensure_default_page (au_id user) (set_store d (after_requests 1 w0)))
    as (w' & n & shown & -> & _). reflexivity.
Qed.

(** X29: [create_or_update_user_profile] never raises, and the bootstrap of
    the workspace never stands in its way. When the upsert cannot be sent,
    it answers nothing, shows the error and does not attempt the bootstrap;
    when the store answers the upsert, it answers the first row of that
    answer (nothing if there is none) whatever became of the up to five
    requests of the bootstrap, of which it shows at most the error of
    joining. One reading of the clock is taken, for [updated_at]. *)
Theorem profile_creation_survives_bootstrap `{Schema}
    (w : world) (user : auth_user) :
  let w' := snd (create_or_update_user_profile user w) in
  ∃ r,
    fst (create_or_update_user_profile user w) = Ok r ∧
    clock w' = tl (clock w) ∧
    (∀ e, hd None (faults w) = Some e →
          r = None ∧ requests w' = S (requests w) ∧ store w' = store w ∧
          ui_errors w'
          = ("Error creating user profile: " ++ e)%string :: ui_errors w) ∧
    (served w →
     ∀ rows d,
       upsert_profile (profile_row user) (hd 0 (clock w)) (store w) = (Ok rows, d) →
       r = head rows ∧
       (2 + requests w ≤ requests w' ≤ 6 + requests w)%nat ∧
       (ui_errors w' = ui_errors w ∨
        ∃ e, ui_errors w'
             = ("Error joining channel: " ++ e)%string :: ui_errors w)).
Proof.
  cbv zeta. rewrite create_or_update_user_profile_run. cbv zeta. unfold served.
  set (w0 := World (store w) (session w) (faults w) (requests w)
                   (tl (clock w)) (ui_errors w)).
  destruct (hd None (faults w)) as [e|].
  - exists None. split; [done|]. split; [done|]. split; [|done].
    by intros e' [= <-].
  - destruct (upsert_profile (profile_row user) (hd 0 (clock w)) (store w))
      as [[rows|e] d].
    + destruct (ensure_default_page (au_id user) (set_store d (after_requests 1 w0)))
        as (w' & n & shown & -> & Hn & (_ & Hc & Hr & _ & He) & Hshown).
      exists (head rows). cbn [fst snd]. split; [done|]. split; [done|].
      split; [done|]. intros _ rows' d' [= <- <-]. split; [done|].
      rewrite Hr, He. cbn. split; [lia|].
      destruct Hshown as [->|[e ->]]; [by left|right; by exists e].
    + exists None. split; [done|]. split; [done|]. split; [done|].
      by intros _ rows d'.
Qed.

Lemma profile_creation_survives_bootstrap_witness :
  let user := AuthUser "ann" (Some (Some "ann@example.org")) ∅ in
  served (Examples.small Examples.in_general) ∧
  fst (@create_or_update_user_profile example_schema user
         (Examples.small Examples.in_general))
  = Ok (Some (Profile (Some "ann") "ann" "ann" (Some "") (Some "online"))).
Proof.
  cbv zeta. split; [reflexivity|].
  destruct (@profile_creation_survives_bootstrap example_schema
              (Examples.small Examples.in_general)
              (AuthUser "ann" (Some (Some "ann@example.org")) ∅))
    as (r & -> & _ & _ & Hrow).
  destruct (Hrow eq_refl _ _ eq_refl) as (-> & _). reflexivity.
Defined.

Lemma before_at_prefix (email : string) :
  ∃ rest,
    email = (before_at email ++ rest)%string ∧
    (rest = "" ∨ ∃ r, rest = String "@" r) ∧
    ∀ c, c ∈ list_ascii_of_string (before_at email) → c ≠ "@"%char.
Proof.
  induction email as [|c email (rest & Hrest & Hat & Hno)]; cbn [before_at].
  - exists "". split; [done|]. split; [by left|]. by intros c ?%elem_of_nil.
  - destruct (Ascii.eqb c "@") eqn:Hc.
    + apply Ascii.eqb_eq in Hc as ->. exists (String "@" email).
      split; [done|]. split; [right; by eexists|]. by intros c ?%elem_of_nil.
    + exists rest. split; [|split; [done|]].
      * change (String c (before_at email) ++ rest)%string
          with (String c (before_at email ++ rest)%string).
        by rewrite <- Hrest.
      * cbn [list_ascii_of_string]. intros c' [->|Hc']%elem_of_cons.
        -- intros ->. by rewrite Ascii.eqb_refl in Hc.
        -- by apply Hno.
Qed.

Lemma holds_default (v : option string) :
  holds v = true → truthy (default "" v) = true.
Proof. by destruct v. Qed.

(** X30: the names of the profile row. The username made of an email that
    is not empty is the part of it before the first at sign (all of it when
    there is none), and holds no at sign. The display name is empty only for
    a user whose email begins with an at sign and whose metadata hold
    neither a full name nor a name that is not empty. *)
Theorem profile_names_from_email (user : auth_user) :
  (∀ email, au_email user = Some (Some email) → truthy email = true →
     ∃ rest,
       email = (p_username (profile_row user) ++ rest)%string ∧
       (rest = "" ∨ ∃ r, rest = String "@" r) ∧
       ∀ c, c ∈ list_ascii_of_string (p_username (profile_row user)) →
            c ≠ "@"%char) ∧
  (truthy (p_display_name (profile_row user)) = false →
   (∃ rest, au_email user = Some (Some (String "@" rest))) ∧
   holds (get (au_user_metadata user) "full_name") = false ∧
   holds (get (au_user_metadata user) "name") = false).
Proof.
  cbn [profile_row p_username p_display_name]. split.
  - intros email Hemail Hnonempty. unfold username_of.
    rewrite Hemail, Hnonempty. apply before_at_prefix.
  - unfold display_name_of.
    destruct (holds (get (au_user_metadata user) "full_name")) eqn:Hfull.
    { intros Hempty. apply holds_default in Hfull. congruence. }
    destruct (holds (get (au_user_metadata user) "name")) eqn:Hname.
    { intros Hempty. apply holds_default in Hname. congruence. }
    intros Hempty. split; [|done].
    unfold username_of in Hempty.
    destruct (au_email user) as [[email|]|]; try discriminate Hempty.
    destruct email as [|c email]; [discriminate Hempty|].
    cbn [truthy before_at] in Hempty.
    destruct (Ascii.eqb c "@") eqn:Hc; [|discriminate Hempty].
    apply Ascii.eqb_eq in Hc as ->. by exists email.
Qed.

Lemma profile_names_from_email_witness :
  truthy "ann@example.org" = true ∧
  p_username (profile_row (AuthUser "ann" (Some (Some "ann@example.org")) ∅))
  = "ann".
Proof.
  split; [reflexivity|].
  destruct (profile_names_from_email
              (AuthUser "ann" (Some (Some "ann@example.org")) ∅))
    as [Hname _].
  destruct (Hname _ eq_refl eq_refl) as (rest & _). reflexivity.
Defined.

End CreationFacts.

(** ** The timer of the page *)

Section Timer.

Lemma keeps_session_ret {A} (a : A) : keeps_session (mret a : M A).
Proof. by intros w. Qed.

Lemma keeps_session_bind {A B} (m : M A) (f : A → M B) :
  keeps_session m → (∀ a, keeps_session (f a)) → keeps_session (m ≫= f).
Proof.
  intros Hm Hf w. rewrite bind_run. specialize (Hm w).
  destruct (m w) as [[a|e] w']; cbn [snd] in *; [|done].
  by rewrite Hf.
Qed.

Lemma keeps_session_try {A} (body : M A) (handler : string → M A) :
  keeps_session body → (∀ e, keeps_session (handler e)) →
  keeps_session (try_except body handler).
Proof.
  intros Hbody Hhandler w. unfold try_except. specialize (Hbody w).
  destruct (body w) as [[a|e] w']; cbn [snd] in *; [done|].
  by rewrite Hhandler.
Qed.

Lemma keeps_session_execute {A} (q : Store.db → outcome A * Store.db) :
  keeps_session (execute q).
Proof.
  intros w. unfold execute. destruct (hd None (faults w)); [done|].
  by destruct (q (store w)).
Qed.

Lemma keeps_session_st_error text : keeps_session (st_error text).
Proof. by intros w. Qed.

Lemma keeps_session_read_clock : keeps_session read_clock.
Proof. by intros w. Qed.

Lemma keeps_session_of_outcome {A} (o : outcome A) : keeps_session (of_outcome o).
Proof. by intros w. Qed.

Lemma keeps_session_for_each {A B} (f : A → M B) (xs : list A) :
  (∀ x, keeps_session (f x)) → keeps_session (for_each f xs).
Proof.
  intros Hf. induction xs as [|x xs IH]; cbn [for_each].
  - apply keeps_session_ret.
  - apply keeps_session_bind; [apply Hf|]. intros b.
    apply keeps_session_bind; [apply IH|]. intros bs. apply keeps_session_ret.
Qed.

Create HintDb session_kept.

#[local] Hint Resolve keeps_session_ret keeps_session_bind keeps_session_try
  keeps_session_execute keeps_session_st_error keeps_session_read_clock
  keeps_session_of_outcome keeps_session_for_each : session_kept.

#[local] Hint Extern 1 (keeps_session (match ?x with _ => _ end)) =>
  destruct x : session_kept.

#[local] Hint Extern 1 (keeps_session (if ?b then _ else _)) =>
  destruct b : session_kept.





















End Timer.
